(** * DULMS notifications bot: task registry, login protocol, scraping and
      deadline notifications

    A shallow embedding of [app/config/settings.py],
    [app/services/scraper.py], [app/utils/notifications.py] and
    [app/services/task_manager.py], and the properties the design document
    states about them.

    Modelling conventions.
    - Python [str] is [string] (a sequence of bytes); [int] is [Z];
      [None]-able values are [option].
    - A Python exception is an [exn] carrying [str(e)]; code that may raise
      lives in the monad [M], which also records the effects performed on
      the outside world (browser, solving service, webhook, logger) as a
      chronological list of [Event]s.
    - Everything the outside world answers (what the browser shows, what the
      solving service replies, whether a call faults) is read from a [World]
      record, so that every function below is executable.
    - The three module-level dictionaries of [task_manager.py] are [gmap]s
      gathered in a [Registry]; the functions of the task manager work on it
      in the same monad, and every write leaves a [Wrote] event that holds
      the registry as a poller would find it. *)

From Stdlib Require Import ZArith List String Ascii Bool Lia DecimalString.
From stdpp Require Import base option gmap strings list.
Import ListNotations.

Local Open Scope string_scope.
Local Open Scope Z_scope.
Local Open Scope list_scope.

(** String concatenation is written [+:+]; [++] is kept for lists. *)

(** ** Python values *)

(** [str(n)] for an [int]. *)
Definition str_of_Z (z : Z) : string := NilZero.string_of_int (Z.to_int z).
Definition str_of_nat (n : nat) : string := str_of_Z (Z.of_nat n).

(** [str.startswith]. *)
Definition startswith (s p : string) : bool := String.prefix p s.

(** [needle in haystack] on [str]. *)
Fixpoint contains (needle haystack : string) : bool :=
  String.prefix needle haystack ||
  match haystack with
  | EmptyString => false
  | String _ rest => contains needle rest
  end.

(** [s.split(',')[1]]: the text between the first and the second comma,
    [None] standing for the [IndexError] when [s] has no comma. *)
Fixpoint upto_comma (s : string) : string :=
  match s with
  | EmptyString => EmptyString
  | String c rest => if Ascii.eqb c "," then EmptyString else String c (upto_comma rest)
  end.

Fixpoint split_comma_1 (s : string) : option string :=
  match s with
  | EmptyString => None
  | String c rest => if Ascii.eqb c "," then Some (upto_comma rest) else split_comma_1 rest
  end.

(** [str.lower] on the ASCII range. A byte outside [A-Z] is left alone; for
    the comparisons below this agrees with Python on every input, because no
    non-ASCII character lower-cases to letters of ["submitted"] or
    ["completed"] only. *)
Definition lower_ascii (c : ascii) : ascii :=
  let n := nat_of_ascii c in
  if ((65 <=? n)%nat && (n <=? 90)%nat)%bool then ascii_of_nat (n + 32) else c.

Fixpoint lower (s : string) : string :=
  match s with
  | EmptyString => EmptyString
  | String c rest => String (lower_ascii c) (lower rest)
  end.

(** Truthiness of an optional [str]: [None] and [""] are falsy. *)
Definition truthy (s : option string) : bool :=
  match s with
  | None => false
  | Some s => negb (String.eqb s "")
  end.

(** ** Scraped records *)

(** An assignment or a quiz, the dictionary built for every listing row.
    [days_remaining] is [None] when the deadline did not parse; [url] is
    [None] when the link has no [href]. *)
Record Item : Type := {
  id_ : string;
  title : string;
  course : string;
  deadline : string;
  days_remaining : option Z;
  status : string;
  url : option string
}.

(** The constants in which the code for assignments and the code for
    quizzes differ. *)
Record ListingKind : Type := {
  kind_url : string;       (* settings.ASSIGNMENTS_URL / settings.QUIZZES_URL *)
  kind_table : string;     (* the id of the table *)
  kind_name : string;      (* as in "assignment entries" *)
  kind_plural : string;    (* as in "assignments page" *)
  kind_Plural : string;    (* as in "Assignments table not found" *)
  kind_done : string       (* the status shown in green *)
}.

(** The dictionary [run_dulms_scraper] returns. *)
Record ScrapeResult : Type := {
  assignments : list Item;
  quizzes : list Item;
  result_timestamp : string;
  success : bool;
  message : string
}.


(** ** [app/models/schemas.py] and the task registry *)

Module TaskStatus.

Inductive t : Type := PENDING | RUNNING | COMPLETED | ERROR.

End TaskStatus.

(** An entry of a task's log queue. *)
Record LogEntry : Type := {
  level : string;
  log_message : string;
  log_timestamp : string
}.

(** A value of [task_results]: the dictionary returned by
    [run_dulms_scraper], or a dictionary with a ["message"] only. *)
Inductive ResultData : Type :=
| ScrapeData (r : ScrapeResult)
| MessageOnly (msg : string).

(** [result_data.get("success", False)]. *)
Definition get_success (d : ResultData) : bool :=
  match d with
  | ScrapeData r => success r
  | MessageOnly _ => false
  end.

(** [result_data.get("message")]. *)
Definition get_message (d : ResultData) : string :=
  match d with
  | ScrapeData r => message r
  | MessageOnly msg => msg
  end.

(** The three module-level dictionaries of [task_manager.py]. A
    [queue.Queue] is the list of its entries, oldest first. *)
Record Registry : Type := {
  task_queues : gmap string (list LogEntry);
  task_results : gmap string ResultData;
  task_statuses : gmap string TaskStatus.t
}.

(** ** Exceptions and effects *)

(** The exception classes the code tells apart: [send_discord_webhook]
    catches [requests.exceptions.RequestException] only, every other handler
    catches [Exception]. The payload is [str(e)]. *)
Inductive exn : Type :=
| RequestException (msg : string)
| OtherException (msg : string).

Definition str_exn (e : exn) : string :=
  match e with
  | RequestException msg => msg
  | OtherException msg => msg
  end.

Inductive outcome (A : Type) : Type :=
| Ret (a : A)
| Raise (e : exn).
Arguments Ret {A} a.
Arguments Raise {A} e.

Inductive LogLevel : Type := INFO | WARNING | ERROR.

(** A Discord embed, as built by the two [format_discord_embeds_*]
    functions. *)
Record Embed : Type := {
  embed_title : string;
  embed_description : string;
  embed_color : Z;
  embed_url : option string
}.

(** The JSON body posted to the webhook; the ["embeds"] key is set for a
    non-empty list only. *)
Record Payload : Type := {
  payload_content : string;
  payload_embeds : option (list Embed)
}.

(** What the program does to the outside world. *)
Inductive Event : Type :=
| DriverOpen                      (* webdriver.Edge(service, options) *)
| DriverGet (url : string)        (* driver.get(url) *)
| LogCaptchaAttempt (attempt : nat) (limit : Z)
    (* logger.info("CAPTCHA solving attempt {attempt}/{limit}"), the first
       statement of every iteration of the CAPTCHA loop *)
| SolverPost (api_key : string)   (* requests.post to the solving service *)
| LoginSubmit (solution : string) (* the CAPTCHA text typed, login clicked *)
| WebhookPost (url : string) (payload : Payload)
    (* requests.post(webhook_url, json payload) *)
| DriverQuit                      (* driver.quit() *)
| Log (lvl : LogLevel) (msg : string)
| Wrote (reg : Registry)
    (* a write to one of the dictionaries of the task manager, or to one of
       its queues: the registry as the write left it *).

(** A computation of a Python function body. It reads and writes the
    mutable variables [L] it works on (the locals of the function, or the
    dictionaries of the module), returns or raises, and performs events
    (oldest first) up to the point where it returned or raised. *)
Definition M (L A : Type) : Type := L -> outcome A * L * list Event.

Definition ret {L A} (a : A) : M L A := fun s => (Ret a, s, []).
Definition raise {L A} (e : exn) : M L A := fun s => (Raise e, s, []).
Definition emit {L} (ev : Event) : M L unit := fun s => (Ret tt, s, [ev]).
Definition log {L} (level : LogLevel) (msg : string) : M L unit :=
  emit (Log level msg).
Definition get {L} : M L L := fun s => (Ret s, s, []).
Definition modify {L} (f : L -> L) : M L unit := fun s => (Ret tt, f s, []).

(** A write to the registry, visible to whoever polls it. *)
Definition write (f : Registry -> Registry) : M Registry unit :=
  fun reg => (Ret tt, f reg, [Wrote (f reg)]).

(** An answer of the outside world: returned or raised, no event. *)
Definition ask {L A} (o : outcome A) : M L A := fun s => (o, s, []).

Definition bind {L A B} (m : M L A) (k : A -> M L B) : M L B :=
  fun s =>
    match m s with
    | (Ret a, s1, t1) => let '(r, s2, t2) := k a s1 in (r, s2, t1 ++ t2)
    | (Raise e, s1, t1) => (Raise e, s1, t1)
    end.

(** [try: m  except Exception as e: h e]. The handler sees the local
    variables as they were when the exception was raised. *)
Definition try_except {L A} (m : M L A) (h : exn -> M L A) : M L A :=
  fun s =>
    match m s with
    | (Ret a, s1, t1) => (Ret a, s1, t1)
    | (Raise e, s1, t1) => let '(r, s2, t2) := h e s1 in (r, s2, t1 ++ t2)
    end.

(** [try: m  finally: f]. The [finally] block runs on every exit, also on
    [return]; if it raises, its exception replaces the outcome of [m]. *)
Definition try_finally {L A} (m : M L A) (f : M L unit) : M L A :=
  fun s =>
    let '(r, s1, t1) := m s in
    match f s1 with
    | (Ret _, s2, t2) => (r, s2, t1 ++ t2)
    | (Raise e, s2, t2) => (Raise e, s2, t1 ++ t2)
    end.

(** A call of another function: the callee runs on its own local variables,
    starting from [s0]; the caller's are untouched. *)
Definition call {L L' A} (m : M L' A) (s0 : L') : M L A :=
  fun s => let '(r, _, t) := m s0 in (r, s, t).

Declare Scope py_scope.
Delimit Scope py_scope with py.
Notation "x <- m ;; k" := (bind m (fun x => k))
  (at level 100, m at next level, right associativity) : py_scope.
Notation "m ;;; k" := (bind m (fun _ => k))
  (at level 100, right associativity) : py_scope.
Local Open Scope py_scope.

(** Running a function from its initial local variables. *)
Definition result {L A} (m : M L A) (s0 : L) : outcome A := fst (fst (m s0)).
Definition events {L A} (m : M L A) (s0 : L) : list Event := snd (m s0).
Definition final {L A} (m : M L A) (s0 : L) : L := snd (fst (m s0)).

(** The control left behind by one iteration of a [for] loop whose body
    may [continue], [break] or [return]. *)
Inductive loop_ctl (A : Type) : Type :=
| Continue
| Break
| Return (a : A).
Arguments Continue {A}.
Arguments Break {A}.
Arguments Return {A} a.

(** ** [app/config/settings.py] *)

Definition LOGIN_URL : string := "https://dulms.deltauniv.edu.eg/Login.aspx".
Definition QUIZZES_URL : string := "https://dulms.deltauniv.edu.eg/Quizzes/StudentQuizzes".
Definition ASSIGNMENTS_URL : string :=
  "https://dulms.deltauniv.edu.eg/Assignment/AssignmentStudentList".
Definition LOGIN_SUCCESS_URL_PART : string := "Profile/StudentProfile".

(** The settings read from the process environment with [int(os.getenv(..))];
    any integer can be configured. *)
Record Settings : Type := {
  DRIVER_PATH : string;
  DEADLINE_THRESHOLD_DAYS : Z;
  MAX_LOGIN_RETRIES : Z;
  CAPTCHA_SOLVE_RETRIES : Z
}.

(** The values used when the environment sets nothing; the default driver
    path is [msedgedriver.exe] under the project root. *)
Definition default_settings : Settings := {|
  DRIVER_PATH := "msedgedriver.exe";
  DEADLINE_THRESHOLD_DAYS := 3;
  MAX_LOGIN_RETRIES := 3;
  CAPTCHA_SOLVE_RETRIES := 3
|}.

Definition assignment_kind : ListingKind := {|
  kind_url := ASSIGNMENTS_URL; kind_table := "gvAssignment";
  kind_name := "assignment"; kind_plural := "assignments";
  kind_Plural := "Assignments"; kind_done := "submitted"
|}.

Definition quiz_kind : ListingKind := {|
  kind_url := QUIZZES_URL; kind_table := "gvQuiz";
  kind_name := "quiz"; kind_plural := "quizzes";
  kind_Plural := "Quizzes"; kind_done := "completed"
|}.

(** ** The outside world *)

(** A PIL image: opaque bytes. Such an object is always truthy. *)
Record Image : Type := { image_bytes : string }.

(** What an element lookup finds. [FindFault] is any exception other than
    [NoSuchElementException]. *)
Inductive found (A : Type) : Type :=
| Found (a : A)
| NotFound
| FindFault (e : exn).
Arguments Found {A} a.
Arguments NotFound {A}.
Arguments FindFault {A} e.

(** What a [WebDriverWait(..).until(visibility_of_element_located)] ends
    with. *)
Inductive waited (A : Type) : Type :=
| Visible (a : A)
| TimedOut
| WaitFault (e : exn).
Arguments Visible {A} a.
Arguments TimedOut {A}.
Arguments WaitFault {A} e.

(** The [lblMessage] element of the login page. *)
Record ErrorLabel : Type := {
  is_displayed : outcome bool;
  label_text : outcome string
}.

(** The reply of the solving service once [response.json()] has parsed it:
    its printed form and [result['solution']['text']] when both keys are
    there. *)
Record SolverReply : Type := {
  reply_repr : string;
  reply_text : option string
}.

(** What the browser and the solving service answer during one iteration of
    the CAPTCHA loop. *)
Record CaptchaRound : Type := {
  captcha_src : outcome (option string);
    (* driver.find_element(By.ID, 'imgCaptcha').get_attribute('src') *)
  captcha_decode : string -> outcome Image;
    (* Image.open(io.BytesIO(base64.b64decode(data))) *)
  image_save : outcome unit;          (* img.save(buffer, format='PNG') *)
  solver_reply : outcome SolverReply; (* post, raise_for_status, json *)
  captcha_entry : outcome unit;
    (* txtCaptcha found, cleared and filled; btnLogin found *)
  login_click : outcome unit;         (* login_button.click() *)
  current_url : outcome string;       (* driver.current_url *)
  lblMessage : found ErrorLabel       (* find_element(By.ID, "lblMessage") *)
}.

(** An [a] element inside a title cell. *)
Record Link : Type := {
  link_text : outcome string;
  link_href : outcome (option string)
}.

(** A [td] cell of a listing row. *)
Record Cell : Type := {
  cell_text : outcome string;
  cell_link : found Link
}.

(** A listing page: the table and its [tr] rows, header included, each row
    answering [find_elements(By.TAG_NAME, "td")]; and the clock read by
    [datetime.now()] at the start of the scrape, in microseconds. *)
Record Listing : Type := {
  listing_now : Z;
  listing_get : outcome unit;
  listing_table : waited (outcome (list (outcome (list Cell))))
}.

Record World : Type := {
  (* library functions the repository calls on scraped text *)
  strip : string -> string;             (* str.strip *)
  strptime_dmy : string -> outcome Z;
    (* datetime.strptime(s, "%d/%m/%Y"), in microseconds; raises ValueError *)
  (* initialize_driver *)
  driver_is_file : bool;                (* Path(DRIVER_PATH).is_file() *)
  edge_start : outcome unit;            (* Service(..), webdriver.Edge(..) *)
  (* login_to_dulms *)
  login_get : outcome unit;             (* driver.get(LOGIN_URL) *)
  username_wait : waited unit;
  credentials_entry : outcome unit;     (* both fields found, cleared, filled *)
  captcha_round : nat -> CaptchaRound;
  (* scrape_assignments, scrape_quizzes *)
  assignments_page : Listing;
  quizzes_page : Listing;
  (* run_dulms_scraper *)
  timestamp : string;                   (* datetime.now().isoformat() *)
  webhook_post : outcome unit;          (* requests.post, raise_for_status *)
  webhook_status : string;              (* response.status_code *)
  driver_quit : outcome unit;
  (* run_scraper_task *)
  put_timestamp : string                (* datetime.now().isoformat() *)
}.

(** ** [app/services/scraper.py] *)

Section Scraper.

Context (st : Settings) (w : World).

(** [initialize_driver]. The browser options have no bearing on what follows
    and are left out. The result is the driver handle, always truthy. *)
Definition initialize_driver {L} : M L unit :=
  log INFO "Initializing the Selenium driver...";;;
  try_except
    (if negb (driver_is_file w) then
       log ERROR ("WebDriver executable not found at specified path: " +:+ DRIVER_PATH st);;;
       raise (OtherException ("WebDriver executable not found at: " +:+ DRIVER_PATH st))
     else
       emit DriverOpen;;;
       ask (edge_start w);;;
       log INFO "Driver initialized successfully.";;;
       ret tt)
    (fun e =>
       log ERROR ("Failed to initialize WebDriver: " +:+ str_exn e);;;
       log ERROR ("Ensure '" +:+ DRIVER_PATH st
                    +:+ "' is in your PATH or the correct path is specified.");;;
       raise e).

(** [wait_for_element]: the element, or [None]. Never raises. *)
Definition wait_for_element {L A} (by_ value : string) (a : waited A) : M L (option A) :=
  match a with
  | Visible x => ret (Some x)
  | TimedOut =>
      log WARNING ("Timeout waiting for element: " +:+ by_ +:+ "=" +:+ value);;;
      ret None
  | WaitFault e =>
      log ERROR ("Error waiting for element " +:+ by_ +:+ "=" +:+ value +:+ ": " +:+ str_exn e);;;
      ret None
  end.

(** [safe_find_element]: the element, or [None]. Never raises. *)
Definition safe_find_element {L A} (by_ value : string) (a : found A) : M L (option A) :=
  match a with
  | Found x => ret (Some x)
  | NotFound => ret None
  | FindFault e =>
      log ERROR ("Error finding element " +:+ by_ +:+ "=" +:+ value +:+ ": " +:+ str_exn e);;;
      ret None
  end.

(** [get_captcha_image]. *)
Definition get_captcha_image {L} (r : CaptchaRound) : M L (option Image) :=
  try_except
    (img_src <- ask (captcha_src r);;
     match img_src with
     | Some src =>
         if negb (truthy img_src) || negb (startswith src "data:image") then
           log ERROR "CAPTCHA image source is not a data URL";;;
           ret None
         else
           match split_comma_1 src with
           | None => raise (OtherException "list index out of range")
           | Some img_data =>
               img <- ask (captcha_decode r img_data);;
               ret (Some img)
           end
     | None =>
         log ERROR "CAPTCHA image source is not a data URL";;;
         ret None
     end)
    (fun e =>
       log ERROR ("Failed to extract CAPTCHA image: " +:+ str_exn e);;;
       ret None).

(** [solve_captcha]. *)
Definition solve_captcha {L} (r : CaptchaRound) (img : option Image) (api_key : string)
  : M L (option string) :=
  match img with
  | None =>
      log ERROR "No CAPTCHA image provided";;;
      ret None
  | Some _ =>
      try_except
        (ask (image_save r);;;
         log INFO "Submitting CAPTCHA to solving service...";;;
         emit (SolverPost api_key);;;
         reply <- ask (solver_reply r);;
         match reply_text reply with
         | Some captcha_text =>
             log INFO ("CAPTCHA solution received: " +:+ captcha_text);;;
             ret (Some captcha_text)
         | None =>
             log ERROR ("Unexpected response format: " +:+ reply_repr reply);;;
             ret None
         end)
        (fun e =>
           log ERROR ("Failed to solve CAPTCHA: " +:+ str_exn e);;;
           ret None)
  end.

(** The body of the [for attempt in range(CAPTCHA_SOLVE_RETRIES)] loop of
    [login_to_dulms]. Falling off the end of the body is [Continue]. The
    [time.sleep(3)] has no event. *)
Definition captcha_attempt {L} (captcha_api_key : string) (attempt : nat) : M L (loop_ctl bool) :=
  let r := captcha_round w attempt in
  emit (LogCaptchaAttempt (S attempt) (CAPTCHA_SOLVE_RETRIES st));;;
  captcha_img <- get_captcha_image r;;
  match captcha_img with
  | None =>
      log ERROR "Failed to obtain CAPTCHA image";;;
      ret Continue
  | Some _ =>
      captcha_solution <- solve_captcha r captcha_img captcha_api_key;;
      match captcha_solution with
      | Some solution =>
          if negb (truthy captcha_solution) then
            log ERROR "Failed to solve CAPTCHA";;;
            ret Continue
          else
            ask (captcha_entry r);;;
            emit (LoginSubmit solution);;;
            ask (login_click r);;;
            url <- ask (current_url r);;
            if contains LOGIN_SUCCESS_URL_PART url then
              log INFO "Login successful!";;;
              ret (Return true)
            else
              error_msg <- safe_find_element "id" "lblMessage" (lblMessage r);;
              match error_msg with
              | Some lbl =>
                  displayed <- ask (is_displayed lbl);;
                  if displayed : bool then
                    text <- ask (label_text lbl);;
                    log WARNING ("Login failed: " +:+ text);;;
                    if contains "CAPTCHA" text then ret Continue else ret Break
                  else ret Continue
              | None => ret Continue
              end
      | None =>
          log ERROR "Failed to solve CAPTCHA";;;
          ret Continue
      end
  end.

(** The [for] loop itself: [n] iterations left, the next one numbered
    [attempt]. [None] when the loop ends without a [return]. *)
Fixpoint captcha_loop {L} (captcha_api_key : string) (n attempt : nat) : M L (option bool) :=
  match n with
  | O => ret None
  | S n' =>
      c <- captcha_attempt captcha_api_key attempt;;
      match c with
      | Continue => captcha_loop captcha_api_key n' (S attempt)
      | Break => ret None
      | Return b => ret (Some b)
      end
  end.

(** [login_to_dulms]. [range(n)] is empty for [n <= 0]. What
    [traceback.print_exc()] prints is not recorded. *)
Definition login_to_dulms {L} (username password captcha_api_key : string) : M L bool :=
  log INFO ("Attempting to log in as " +:+ username +:+ "...");;;
  try_except
    (emit (DriverGet LOGIN_URL);;;
     ask (login_get w);;;
     wait_for_element "id" "username" (username_wait w);;;
     ask (credentials_entry w);;;
     returned <- captcha_loop captcha_api_key (Z.to_nat (CAPTCHA_SOLVE_RETRIES st)) 0;;
     match returned with
     | Some b => ret b
     | None =>
         log ERROR "Failed to login after multiple attempts";;;
         ret false
     end)
    (fun e =>
       log ERROR ("Login process failed with error: " +:+ str_exn e);;;
       ret false).

(** A [for x in xs] loop whose body neither breaks nor returns. *)
Fixpoint for_each {L A} (xs : list A) (body : A -> M L unit) : M L unit :=
  match xs with
  | [] => ret tt
  | x :: rest => body x;;; for_each rest body
  end.

(** [xs[i]]; out of range raises [IndexError]. *)
Definition index {L A} (xs : list A) (i : nat) : M L A :=
  match xs !! i with
  | Some x => ret x
  | None => raise (OtherException "list index out of range")
  end.

(** [(deadline - now).days]: a [timedelta] is normalised so that its [days]
    is the floor of the difference divided by one day. *)
Definition timedelta_days (deadline now : Z) : Z := (deadline - now) / 86400000000.

(** The body of the [for row in rows] loop of [scrape_assignments] and of
    [scrape_quizzes]; the local variable is the list built so far. *)
Definition scrape_row (k : ListingKind) (now : Z) (row : outcome (list Cell))
  : M (list Item) unit :=
  try_except
    (cells <- ask row;;
     if (length cells <? 6)%nat then ret tt
     else
       c0 <- index cells 0;;
       text0 <- ask (cell_text c0);;
       let id := strip w text0 in
       title_cell <- index cells 1;;
       title_link <- safe_find_element "tag name" "a" (cell_link title_cell);;
       title_url <-
         match title_link with
         | Some a =>
             text <- ask (link_text a);;
             href <- ask (link_href a);;
             ret (strip w text, href)
         | None =>
             c1 <- index cells 1;;
             text <- ask (cell_text c1);;
             ret (strip w text, Some (kind_url k))
         end;;
       c2 <- index cells 2;;
       text2 <- ask (cell_text c2);;
       let course := strip w text2 in
       c3 <- index cells 3;;
       text3 <- ask (cell_text c3);;
       let deadline_str := strip w text3 in
       c5 <- index cells 5;;
       text5 <- ask (cell_text c5);;
       let status := strip w text5 in
       days <-
         try_except
           (deadline <- ask (strptime_dmy w deadline_str);;
            ret (Some (timedelta_days deadline now)))
           (fun e =>
              log WARNING ("Failed to parse deadline date '" +:+ deadline_str
                             +:+ "': " +:+ str_exn e);;;
              ret None);;
       modify (fun items =>
                 items ++ [ {| id_ := id; title := fst title_url; course := course;
                               deadline := deadline_str; days_remaining := days;
                               status := status; url := snd title_url |} ]))
    (fun e =>
       log ERROR ("Error processing " +:+ kind_name k +:+ " row: " +:+ str_exn e)).

(** The common text of [scrape_assignments] and [scrape_quizzes], which
    differ in the constants of [ListingKind] only. *)
Definition scrape_listing (k : ListingKind) (page : Listing) : M (list Item) (list Item) :=
  let now := listing_now page in
  try_except
    (log INFO ("Navigating to " +:+ kind_plural k +:+ " page...");;;
     emit (DriverGet (kind_url k));;;
     ask (listing_get page);;;
     table <- wait_for_element "id" (kind_table k) (listing_table page);;
     match table with
     | None =>
         log ERROR (kind_Plural k +:+ " table not found");;;
         get
     | Some trs =>
         all_rows <- ask trs;;
         let rows := drop 1 all_rows in
         log INFO ("Found " +:+ str_of_nat (length rows) +:+ " " +:+ kind_name k +:+ " entries");;;
         for_each rows (scrape_row k now);;;
         items <- get;;
         log INFO ("Successfully scraped " +:+ str_of_nat (length items) +:+ " " +:+ kind_plural k);;;
         ret items
     end)
    (fun e =>
       log ERROR ("Failed to scrape " +:+ kind_plural k +:+ ": " +:+ str_exn e);;;
       get).

Definition scrape_assignments {L} : M L (list Item) :=
  call (scrape_listing assignment_kind (assignments_page w)) [].

Definition scrape_quizzes {L} : M L (list Item) :=
  call (scrape_listing quiz_kind (quizzes_page w)) [].

End Scraper.

(** ** [app/utils/notifications.py] *)

Definition RED : Z := 0xFF0000.
Definition YELLOW : Z := 0xFFFF00.
Definition GREEN : Z := 0x00FF00.

Definition newline : string := String (ascii_of_nat 10) EmptyString.

(** [f"{x}"] for a [days_remaining]. *)
Definition str_of_days (d : option Z) : string :=
  match d with
  | Some z => str_of_Z z
  | None => "None"
  end.

Section Notifications.

Context (w : World).

(** [try: m  except requests.exceptions.RequestException as e: h e]. *)
Definition try_except_request {L A} (m : M L A) (h : exn -> M L A) : M L A :=
  fun s =>
    match m s with
    | (Raise (RequestException msg), s1, t1) =>
        let '(r, s2, t2) := h (RequestException msg) s1 in (r, s2, t1 ++ t2)
    | other => other
    end.

(** [send_discord_webhook]. *)
Definition send_discord_webhook {L} (webhook_url : option string) (content : string)
    (embeds : list Embed) : M L bool :=
  match webhook_url with
  | Some webhook =>
      if negb (truthy webhook_url) then
        log WARNING "No Discord webhook URL provided. Skipping notification.";;;
        ret false
      else
        let payload :=
          {| payload_content := content;
             payload_embeds := match embeds with [] => None | _ => Some embeds end |} in
        try_except_request
          (emit (WebhookPost webhook payload);;;
           ask (webhook_post w);;;
           log INFO ("Discord notification sent successfully: " +:+ webhook_status w);;;
           ret true)
          (fun e =>
             log ERROR ("Failed to send Discord notification: " +:+ str_exn e);;;
             ret false)
  | None =>
      log WARNING "No Discord webhook URL provided. Skipping notification.";;;
      ret false
  end.

(** The body of the [for] loop of [format_discord_embeds_for_assignments]
    and [format_discord_embeds_for_quizzes]; the local variable is the list
    of embeds built so far. Comparing [None] with [1] raises [TypeError]. *)
Definition format_embed (k : ListingKind) (item : Item) : M (list Embed) unit :=
  let color := RED in
  color <-
    match days_remaining item with
    | Some days => ret (if days >? 1 then YELLOW else color)
    | None =>
        raise (OtherException
                 "'>' not supported between instances of 'NoneType' and 'int'")
    end;;
  let color := if String.eqb (lower (status item)) (kind_done k) then GREEN else color in
  let embed :=
    {| embed_title := title item;
       embed_description :=
         "**Course:** " +:+ course item +:+ newline +:+
         "**Deadline:** " +:+ deadline item +:+ newline +:+
         "**Days Remaining:** " +:+ str_of_days (days_remaining item) +:+ newline +:+
         "**Status:** " +:+ status item;
       embed_color := color;
       embed_url := url item |} in
  modify (fun embeds => embeds ++ [embed]).

Definition format_discord_embeds (k : ListingKind) (items : list Item)
  : M (list Embed) (list Embed) :=
  for_each items (format_embed k);;;
  get.

Definition format_discord_embeds_for_assignments {L} (assignments : list Item)
  : M L (list Embed) :=
  call (format_discord_embeds assignment_kind assignments) [].

Definition format_discord_embeds_for_quizzes {L} (quizzes : list Item)
  : M L (list Embed) :=
  call (format_discord_embeds quiz_kind quizzes) [].

End Notifications.

(** ** [app/services/scraper.py], continued: [run_dulms_scraper] *)

(** The local variables of [run_dulms_scraper] that are assigned more than
    once: [driver] and the [result] dictionary, updated in place. *)
Record RunLocals : Type := {
  driver : option unit;
  result_dict : ScrapeResult
}.

Definition set_driver (d : option unit) (l : RunLocals) : RunLocals :=
  {| driver := d; result_dict := result_dict l |}.
Definition update_result (f : ScrapeResult -> ScrapeResult) (l : RunLocals) : RunLocals :=
  {| driver := driver l; result_dict := f (result_dict l) |}.

Definition set_assignments (x : list Item) (r : ScrapeResult) : ScrapeResult :=
  {| assignments := x; quizzes := quizzes r; result_timestamp := result_timestamp r;
     success := success r; message := message r |}.
Definition set_quizzes (x : list Item) (r : ScrapeResult) : ScrapeResult :=
  {| assignments := assignments r; quizzes := x; result_timestamp := result_timestamp r;
     success := success r; message := message r |}.
Definition set_success (x : bool) (r : ScrapeResult) : ScrapeResult :=
  {| assignments := assignments r; quizzes := quizzes r;
     result_timestamp := result_timestamp r; success := x; message := message r |}.
Definition set_message (x : string) (r : ScrapeResult) : ScrapeResult :=
  {| assignments := assignments r; quizzes := quizzes r;
     result_timestamp := result_timestamp r; success := success r; message := x |}.

(** [a.get("days_remaining") is not None and
     a.get("days_remaining") <= deadline_threshold]. *)
Definition is_upcoming (deadline_threshold : Z) (a : Item) : bool :=
  match days_remaining a with
  | Some days => days <=? deadline_threshold
  | None => false
  end.

(** Truthiness of a list. *)
Definition nonempty {A} (xs : list A) : bool :=
  match xs with
  | [] => false
  | _ => true
  end.

Definition ALERT_CONTENT : string := "ðŸš¨ **DULMS Upcoming Deadlines Alert** ðŸš¨".

Section Run.

Context (st : Settings) (w : World).

(** The local variables as [run_dulms_scraper] sets them before its [try]
    statement. *)
Definition initial_locals : RunLocals :=
  {| driver := None;
     result_dict := {| assignments := []; quizzes := [];
                       result_timestamp := timestamp w;
                       success := false; message := "" |} |}.

(** The statements of [run_dulms_scraper] under [if discord_webhook:]. *)
Definition notify_upcoming (discord_webhook : option string) : M RunLocals unit :=
  if truthy discord_webhook then
    let deadline_threshold := DEADLINE_THRESHOLD_DAYS st in
    l <- get;;
    let upcoming_assignments :=
      List.filter (is_upcoming deadline_threshold) (assignments (result_dict l)) in
    let upcoming_quizzes :=
      List.filter (is_upcoming deadline_threshold) (quizzes (result_dict l)) in
    if nonempty upcoming_assignments || nonempty upcoming_quizzes then
      let content := ALERT_CONTENT in
      let embeds := [] in
      embeds <-
        (if nonempty upcoming_assignments then
           more <- format_discord_embeds_for_assignments upcoming_assignments;;
           ret (embeds ++ more)
         else ret embeds);;
      embeds <-
        (if nonempty upcoming_quizzes then
           more <- format_discord_embeds_for_quizzes upcoming_quizzes;;
           ret (embeds ++ more)
         else ret embeds);;
      send_discord_webhook w discord_webhook content embeds;;;
      ret tt
    else ret tt
  else ret tt.

(** The statements of the [try] block of [run_dulms_scraper] that follow
    [driver = initialize_driver(..)]. *)
Definition run_dulms_scraper_session (username password captcha_api_key : string)
    (discord_webhook : option string) : M RunLocals ScrapeResult :=
  login_success <- call (login_to_dulms st w username password captcha_api_key) tt;;
  if negb login_success then
    modify (update_result (set_message "Failed to login to DULMS"));;;
    l <- get;;
    ret (result_dict l)
  else
    scraped <- scrape_assignments w;;
    modify (update_result (set_assignments scraped));;;
    scraped <- scrape_quizzes w;;
    modify (update_result (set_quizzes scraped));;;
    modify (update_result (set_success true));;;
    modify (update_result (set_message "Scraping completed successfully"));;;
    notify_upcoming discord_webhook;;;
    l <- get;;
    ret (result_dict l).

(** The [try] block of [run_dulms_scraper]. The browser is always started
    headless by the task manager; the flag only selects a browser option. *)
Definition run_dulms_scraper_try (username password captcha_api_key : string)
    (discord_webhook : option string) : M RunLocals ScrapeResult :=
  d <- call (initialize_driver st w) tt;;
  modify (set_driver (Some d));;;
  run_dulms_scraper_session username password captcha_api_key discord_webhook.

(** The [except Exception as e] block. *)
Definition run_dulms_scraper_except (e : exn) : M RunLocals ScrapeResult :=
  let error_msg := "Scraper failed with error: " +:+ str_exn e in
  log ERROR error_msg;;;
  modify (update_result (set_success false));;;
  modify (update_result (set_message error_msg));;;
  l <- get;;
  ret (result_dict l).

(** The [finally] block. *)
Definition run_dulms_scraper_finally : M RunLocals unit :=
  l <- get;;
  match driver l with
  | Some _ =>
      try_except
        (emit DriverQuit;;;
         ask (driver_quit w);;;
         log INFO "WebDriver closed successfully")
        (fun e => log ERROR ("Error closing WebDriver: " +:+ str_exn e))
  | None => ret tt
  end.

(** [run_dulms_scraper]. The [log_queue] argument is never used by the
    function and is left out. *)
Definition run_dulms_scraper {L} (username password captcha_api_key : string)
    (discord_webhook : option string) : M L ScrapeResult :=
  call
    (try_finally
       (try_except
          (run_dulms_scraper_try username password captcha_api_key discord_webhook)
          run_dulms_scraper_except)
       run_dulms_scraper_finally)
    initial_locals.

End Run.

(** ** [app/services/task_manager.py] *)

Definition set_queue (task_id : string) (q : list LogEntry) (reg : Registry) : Registry :=
  {| task_queues := <[task_id := q]> (task_queues reg);
     task_results := task_results reg;
     task_statuses := task_statuses reg |}.

Definition set_result (task_id : string) (d : ResultData) (reg : Registry) : Registry :=
  {| task_queues := task_queues reg;
     task_results := <[task_id := d]> (task_results reg);
     task_statuses := task_statuses reg |}.

Definition set_status (task_id : string) (status : TaskStatus.t) (reg : Registry) : Registry :=
  {| task_queues := task_queues reg;
     task_results := task_results reg;
     task_statuses := <[task_id := status]> (task_statuses reg) |}.

(** [log_queue.put(entry)] on the queue object held for [task_id]. *)
Definition queue_put (task_id : string) (entry : LogEntry) (reg : Registry) : Registry :=
  {| task_queues := alter (fun q => q ++ [entry]) task_id (task_queues reg);
     task_results := task_results reg;
     task_statuses := task_statuses reg |}.

Section TaskManager.

Context (st : Settings) (w : World).

(** [create_scraper_task]. [task_id] is what [generate_task_id()], that is
    [str(uuid.uuid4())], returned. *)
Definition create_scraper_task (task_id : string) (username password captcha_api_key : string)
    (discord_webhook : option string) : M Registry string :=
  write (set_queue task_id []);;;
  write (set_status task_id TaskStatus.PENDING);;;
  log INFO ("Created scraper task with ID: " +:+ task_id);;;
  ret task_id.

(** [run_scraper_task]. A [queue.Queue] object is always truthy, so
    [if not log_queue] asks whether the identifier has a queue. *)
Definition run_scraper_task (task_id username password captcha_api_key : string)
    (discord_webhook : option string) : M Registry unit :=
  reg <- get;;
  match task_queues reg !! task_id with
  | None =>
      log ERROR ("Log queue not found for task " +:+ task_id);;;
      write (set_status task_id TaskStatus.ERROR);;;
      write (set_result task_id (MessageOnly "Log queue not found"))
  | Some _ =>
      write (set_status task_id TaskStatus.RUNNING);;;
      log INFO ("Starting background task for task_id: " +:+ task_id);;;
      try_except
        (result_data <-
           run_dulms_scraper st w username password captcha_api_key discord_webhook;;
         let result_data := ScrapeData result_data in
         write (set_result task_id result_data);;;
         if get_success result_data then
           write (set_status task_id TaskStatus.COMPLETED);;;
           write (queue_put task_id
                    {| level := "INFO";
                       log_message := "Scraping task completed successfully";
                       log_timestamp := put_timestamp w |});;;
           log INFO ("Scraping task " +:+ task_id +:+ " completed successfully")
         else
           write (set_status task_id TaskStatus.ERROR);;;
           write (queue_put task_id
                    {| level := "ERROR";
                       log_message := "Scraping task failed: " +:+ get_message result_data;
                       log_timestamp := put_timestamp w |});;;
           log ERROR ("Scraping task " +:+ task_id +:+ " failed: " +:+ get_message result_data))
        (fun e =>
           log ERROR ("Scraping task " +:+ task_id +:+ " failed with exception: " +:+ str_exn e);;;
           write (set_status task_id TaskStatus.ERROR);;;
           write (set_result task_id (MessageOnly ("An error occurred: " +:+ str_exn e)));;;
           write (queue_put task_id
                    {| level := "ERROR";
                       log_message := "Scraping task failed with exception: " +:+ str_exn e;
                       log_timestamp := put_timestamp w |}))
  end.

End TaskManager.

(** [get_task_status]. *)
Definition get_task_status (task_id : string) : M Registry (option TaskStatus.t) :=
  reg <- get;;
  ret (task_statuses reg !! task_id).

(** [get_task_result]. *)
Definition get_task_result (task_id : string) : M Registry (option ResultData) :=
  reg <- get;;
  ret (task_results reg !! task_id).

(** The [while not log_queue.empty(): logs.append(log_queue.get_nowait())]
    loop of [get_task_logs]. [q] is what the queue object holds when the
    test is made; nothing else touches it while the loop runs, so it is empty
    exactly when [q] is, and [get_nowait] takes its head and never raises
    [queue.Empty]. *)
Fixpoint drain_queue (task_id : string) (q logs : list LogEntry)
  : M Registry (list LogEntry) :=
  match q with
  | [] => ret logs
  | entry :: rest =>
      write (set_queue task_id rest);;;
      drain_queue task_id rest (logs ++ [entry])
  end.

(** [get_task_logs]. The [clear] argument is never read: the queue is
    always emptied. *)
Definition get_task_logs (task_id : string) (clear : bool) : M Registry (list LogEntry) :=
  reg <- get;;
  match task_queues reg !! task_id with
  | None => ret []
  | Some q => drain_queue task_id q []
  end.

(** ** [app/api/endpoints/scraper.py] *)

(** What an endpoint answers: a body, or the [HTTPException] it raises. *)
Inductive http (A : Type) : Type :=
| Ok200 (body : A)
| HTTPException (status_code : Z) (detail : string).
Arguments Ok200 {A} body.
Arguments HTTPException {A} status_code detail.

(** The dictionary [start_scraper] returns. *)
Record StartResponse : Type := {
  started_task_id : string;
  started_status : string
}.

(** The dictionary [get_task_info] returns; a key that was not set is
    [None]. What FastAPI then does to fit it to [TaskResult] is not part of
    the function. *)
Record TaskInfo : Type := {
  info_task_id : string;
  info_status : TaskStatus.t;
  info_assignments : option (list Item);
  info_quizzes : option (list Item);
  info_message : option string;
  info_error : option string
}.

(** [result_data.get("assignments", [])] and
    [result_data.get("quizzes", [])]. *)
Definition get_assignments (d : ResultData) : list Item :=
  match d with
  | ScrapeData r => assignments r
  | MessageOnly _ => []
  end.

Definition get_quizzes (d : ResultData) : list Item :=
  match d with
  | ScrapeData r => quizzes r
  | MessageOnly _ => []
  end.

(** What [event_generator] yields. *)
Inductive ServerEvent : Type :=
| LogEvent (data : LogEntry)          (* {"event": "log", "data": log} *)
| StatusEvent (status : TaskStatus.t) (* {"event": "status", ..} *)
| ResultEvent (data : ResultData).    (* {"event": "result", "data": result} *)

(** How far a stream got. *)
Inductive StreamEnd : Type :=
| ClientGone   (* [request.is_disconnected()] answered [True] *)
| TaskOver     (* the status was terminal *)
| StillOpen.   (* the generator is still in its loop *)

(** One turn of the [while True] loop of [event_generator], as the outside
    world shapes it. [run_scraper_task] runs in another thread, and the
    generator is suspended at each [yield] and at [asyncio.sleep]:
    [meanwhile] is what the rest of the process did to the registry since
    the previous turn, [midway] what it did between the reading of the logs
    and the reading of the status, and [is_disconnected] is what
    [request.is_disconnected()] answers. *)
Record Poll : Type := {
  meanwhile : M Registry unit;
  is_disconnected : bool;
  midway : M Registry unit
}.

Section Endpoints.

Context (st : Settings) (w : World).

(** [start_scraper]. [uuid4] is the identifier drawn by [generate_task_id];
    the second component is what was handed to [background_tasks.add_task],
    which the framework runs once the response is sent. *)
Definition start_scraper (uuid4 username password captcha_api_key : string)
    (discord_webhook : option string)
  : M Registry (http StartResponse * list (M Registry unit)) :=
  try_except
    (task_id <- create_scraper_task uuid4 username password captcha_api_key discord_webhook;;
     let background_tasks :=
       [run_scraper_task st w task_id username password captcha_api_key discord_webhook] in
     ret (Ok200 {| started_task_id := task_id; started_status := "started" |},
          background_tasks))
    (fun e =>
       log ERROR ("Failed to start scraper task: " +:+ str_exn e);;;
       ret (HTTPException 500 ("Failed to start scraper task: " +:+ str_exn e), [])).

(** The request as the framework serves it: the endpoint, then the
    background tasks in the order in which they were added. *)
Definition serve_start_scraper (uuid4 username password captcha_api_key : string)
    (discord_webhook : option string) : M Registry (http StartResponse) :=
  answered <- start_scraper uuid4 username password captcha_api_key discord_webhook;;
  for_each (snd answered) (fun task => task);;;
  ret (fst answered).

End Endpoints.

(** The body of [get_task_info]: the dictionary the handler returns, or the
    [HTTPException] it raises; what the route answers is
    [serve_get_task_info] below. A [TaskStatus] is a non-empty [str] and a
    stored result a non-empty [dict]: both are truthy, so [if not status]
    and [if result_data] ask whether there is one. *)
Definition get_task_info (task_id : string) : M Registry (http TaskInfo) :=
  status <- get_task_status task_id;;
  match status with
  | None => ret (HTTPException 404 ("Task " +:+ task_id +:+ " not found"))
  | Some status =>
      let response :=
        {| info_task_id := task_id; info_status := status;
           info_assignments := None; info_quizzes := None;
           info_message := None; info_error := None |} in
      match status with
      | TaskStatus.COMPLETED =>
          result_data <- get_task_result task_id;;
          match result_data with
          | Some d =>
              ret (Ok200 {| info_task_id := task_id; info_status := status;
                            info_assignments := Some (get_assignments d);
                            info_quizzes := Some (get_quizzes d);
                            info_message := Some (get_message d);
                            info_error := None |})
          | None => ret (Ok200 response)
          end
      | TaskStatus.ERROR =>
          result_data <- get_task_result task_id;;
          match result_data with
          | Some d =>
              ret (Ok200 {| info_task_id := task_id; info_status := status;
                            info_assignments := None; info_quizzes := None;
                            info_message := None;
                            info_error := Some (get_message d) |})
          | None => ret (Ok200 response)
          end
      | _ => ret (Ok200 response)
      end
  end.

(** [app/models/schemas.py]: whether a record fits [AssignmentData]. The
    fields [id], [title], [course], [deadline] and [status] are [str] and
    the record always holds strings there; [days_remaining: int] and
    [url: str] are not [Optional], so [None] does not fit. *)
Definition fits_AssignmentData (item : Item) : bool :=
  match days_remaining item, url item with
  | Some _, Some _ => true
  | _, _ => false
  end.

(** [QuizData] declares the same fields as [AssignmentData]. *)
Definition fits_QuizData (item : Item) : bool :=
  match days_remaining item, url item with
  | Some _, Some _ => true
  | _, _ => false
  end.

(** Whether the dictionary of [get_task_info] fits [TaskResult]: [task_id]
    is a [str] and [status] a [TaskStatus] always; [message] and [error] are
    [Optional[str]]; [assignments] is [Optional[List[AssignmentData]]] and
    [quizzes] is [Optional[List[QuizData]]]. *)
Definition fits_TaskResult (body : TaskInfo) : bool :=
  match info_assignments body with
  | Some items => forallb fits_AssignmentData items
  | None => true
  end
  && match info_quizzes body with
     | Some items => forallb fits_QuizData items
     | None => true
     end.

(** The route [GET /status/{task_id}] as the framework serves it. It is
    declared with [response_model=TaskResult]: what the handler returned is
    fitted to [TaskResult], and a dictionary that does not fit is answered
    with status 500 and the body "Internal Server Error"; an
    [HTTPException] of the handler is answered as it is. *)
Definition serve_get_task_info (task_id : string) : M Registry (http TaskInfo) :=
  answered <- get_task_info task_id;;
  match answered with
  | Ok200 body =>
      if fits_TaskResult body then ret (Ok200 body)
      else ret (HTTPException 500 "Internal Server Error")
  | HTTPException status_code detail => ret (HTTPException status_code detail)
  end.

(** [event_generator], run against a finite script of turns: everything it
    yielded, and how far it got. The [await asyncio.sleep(1)] between two
    turns has no event. *)
Fixpoint event_generator (task_id : string) (polls : list Poll)
  : M Registry (list ServerEvent * StreamEnd) :=
  match polls with
  | [] => ret ([], StillOpen)
  | poll :: later =>
      meanwhile poll;;;
      if is_disconnected poll then
        log INFO ("Client disconnected from SSE stream for task " +:+ task_id);;;
        ret ([], ClientGone)
      else
        logs <- get_task_logs task_id false;;
        let yielded := map LogEvent logs in
        midway poll;;;
        status <- get_task_status task_id;;
        match status with
        | Some TaskStatus.COMPLETED =>
            result_data <- get_task_result task_id;;
            match result_data with
            | Some d =>
                ret (yielded ++ [StatusEvent TaskStatus.COMPLETED; ResultEvent d], TaskOver)
            | None => ret (yielded ++ [StatusEvent TaskStatus.COMPLETED], TaskOver)
            end
        | Some TaskStatus.ERROR => ret (yielded ++ [StatusEvent TaskStatus.ERROR], TaskOver)
        | _ =>
            rest <- event_generator task_id later;;
            ret (yielded ++ fst rest, snd rest)
        end
  end.


(** * Example worlds

    Concrete answers of the outside world, on which the functions above can
    be run. *)

(** [str.strip] on ASCII white space. *)
Definition is_space (c : ascii) : bool :=
  let n := nat_of_ascii c in
  ((9 <=? n)%nat && (n <=? 13)%nat) || ((28 <=? n)%nat && (n <=? 32)%nat).

Fixpoint lstrip (s : string) : string :=
  match s with
  | EmptyString => EmptyString
  | String c rest => if is_space c then lstrip rest else s
  end.

Fixpoint rstrip (s : string) : string :=
  match s with
  | EmptyString => EmptyString
  | String c rest =>
      match rstrip rest with
      | EmptyString => if is_space c then EmptyString else String c EmptyString
      | kept => String c kept
      end
  end.

Definition ascii_strip (s : string) : string := rstrip (lstrip s).

(** [datetime.strptime(s, "%d/%m/%Y")] on ASCII digits: one or two digits
    for the day and for the month, four for the year, and a date that
    exists. The result counts microseconds from 01/01/0001. *)
Definition digit_of (c : ascii) : option Z :=
  let n := nat_of_ascii c in
  if ((48 <=? n)%nat && (n <=? 57)%nat)%bool then Some (Z.of_nat (n - 48)) else None.

Fixpoint number_of (s : string) (acc : Z) : option Z :=
  match s with
  | EmptyString => Some acc
  | String c rest =>
      match digit_of c with
      | Some d => number_of rest (10 * acc + d)
      | None => None
      end
  end.

Fixpoint split_slash (s : string) : list string :=
  match s with
  | EmptyString => [EmptyString]
  | String c rest =>
      if Ascii.eqb c "/" then EmptyString :: split_slash rest
      else
        match split_slash rest with
        | [] => [String c EmptyString]
        | part :: parts => String c part :: parts
        end
  end.

Definition is_leap (y : Z) : bool :=
  (y mod 4 =? 0) && (negb (y mod 100 =? 0) || (y mod 400 =? 0)).

Definition days_in_month (y m : Z) : Z :=
  if m =? 2 then (if is_leap y then 29 else 28)
  else if (m =? 4) || (m =? 6) || (m =? 9) || (m =? 11) then 30
  else 31.

Definition days_before_year (y : Z) : Z :=
  let p := y - 1 in p * 365 + p / 4 - p / 100 + p / 400.

Definition days_before_month (y m : Z) : Z :=
  fold_right Z.add 0 (map (days_in_month y) (map Z.of_nat (seq 1 (Z.to_nat (m - 1))))).

Definition microseconds_per_day : Z := 86400000000.

Definition ascii_strptime_dmy (s : string) : outcome Z :=
  let mismatch :=
    Raise (OtherException ("time data '" +:+ s +:+ "' does not match format '%d/%m/%Y'")) in
  match split_slash s with
  | [ds; ms; ys] =>
      match number_of ds 0, number_of ms 0, number_of ys 0 with
      | Some d, Some m, Some y =>
          if ((1 <=? String.length ds)%nat && (String.length ds <=? 2)%nat
              && (1 <=? String.length ms)%nat && (String.length ms <=? 2)%nat
              && (String.length ys =? 4)%nat
              && (1 <=? d) && (d <=? 31) && (1 <=? m) && (m <=? 12))%bool
          then
            if (1 <=? y) && (d <=? days_in_month y m)
            then Ret ((days_before_year y + days_before_month y m + d - 1)
                        * microseconds_per_day)
            else Raise (OtherException "day is out of range for month")
          else mismatch
      | _, _, _ => mismatch
      end
  | _ => mismatch
  end.

(** 3 November 2026, ten in the morning. *)
Definition example_now : Z :=
  (days_before_year 2026 + days_before_month 2026 11 + 3 - 1) * microseconds_per_day
  + 36000000000.

Definition text_cell (text : string) : Cell :=
  {| cell_text := Ret text; cell_link := NotFound |}.

Definition link_cell (text href : string) : Cell :=
  {| cell_text := Ret text;
     cell_link := Found {| link_text := Ret text; link_href := Ret (Some href) |} |}.

(** A row of six cells, as the two listings show them. *)
Definition listing_row (id text course deadline status : string) : outcome (list Cell) :=
  Ret [text_cell id; link_cell text ("https://dulms.deltauniv.edu.eg/item/" +:+ id);
       text_cell course; text_cell deadline; text_cell "10"; text_cell status].

(** The header row has [th] cells only. *)
Definition header_row : outcome (list Cell) := Ret [].

(** Five assignments; the first two are due within three days. *)
Definition example_assignments : Listing := {|
  listing_now := example_now;
  listing_get := Ret tt;
  listing_table := Visible (Ret [
    header_row;
    listing_row "11" " Sheet 4 " "Calculus" "04/11/2026" "Not Submitted";
    listing_row "12" "Lab report" "Physics" "06/11/2026" "Submitted";
    listing_row "13" "Essay" "English" "20/11/2026" "Not Submitted";
    listing_row "14" "Project" "Databases" "01/12/2026" "Not Submitted";
    listing_row "15" "Survey" "Statistics" "15/12/2026" "Not Submitted" ])
|}.

(** Three quiz rows: one due in a month, one whose deadline is not a date,
    one with too few cells; and a row that cannot be read. *)
Definition example_quizzes : Listing := {|
  listing_now := example_now;
  listing_get := Ret tt;
  listing_table := Visible (Ret [
    header_row;
    listing_row "21" "Quiz 1" "Calculus" "03/12/2026" "Not Completed";
    listing_row "22" "Quiz 2" "Physics" "To be announced" "Not Completed";
    Ret [text_cell "23"; text_cell "Quiz 3"];
    Raise (OtherException "stale element reference");
    listing_row "25" "Quiz 5" "English" "10/12/2026" "Completed" ])
|}.

(** A round of the CAPTCHA loop in which the solving service answers and the
    portal accepts the answer. *)
Definition accepted_round : CaptchaRound := {|
  captcha_src := Ret (Some "data:image/png;base64,iVBORw0KGgo=");
  captcha_decode := fun data => Ret {| image_bytes := data |};
  image_save := Ret tt;
  solver_reply := Ret {| reply_repr := "{'solution': {'text': 'x7k2p'}}";
                         reply_text := Some "x7k2p" |};
  captcha_entry := Ret tt;
  login_click := Ret tt;
  current_url := Ret "https://dulms.deltauniv.edu.eg/Profile/StudentProfile";
  lblMessage := NotFound
|}.

(** A round in which the portal rejects the CAPTCHA text. *)
Definition rejected_round : CaptchaRound := {|
  captcha_src := Ret (Some "data:image/png;base64,iVBORw0KGgo=");
  captcha_decode := fun data => Ret {| image_bytes := data |};
  image_save := Ret tt;
  solver_reply := Ret {| reply_repr := "{'solution': {'text': 'x7k2p'}}";
                         reply_text := Some "x7k2p" |};
  captcha_entry := Ret tt;
  login_click := Ret tt;
  current_url := Ret "https://dulms.deltauniv.edu.eg/Login.aspx";
  lblMessage := Found {| is_displayed := Ret true;
                         label_text := Ret "Invalid CAPTCHA, try again" |}
|}.

(** A world that differs from the calm one in whether the driver file is
    there, how the browser starts, what the CAPTCHA rounds answer, what the
    webhook answers and how the browser closes. *)
Definition example_world (is_file : bool) (start : outcome unit)
    (rounds : nat -> CaptchaRound) (post quit : outcome unit) : World := {|
  strip := ascii_strip;
  strptime_dmy := ascii_strptime_dmy;
  driver_is_file := is_file;
  edge_start := start;
  login_get := Ret tt;
  username_wait := Visible tt;
  credentials_entry := Ret tt;
  captcha_round := rounds;
  assignments_page := example_assignments;
  quizzes_page := example_quizzes;
  timestamp := "2026-11-03T10:00:00";
  webhook_post := post;
  webhook_status := "204";
  driver_quit := quit;
  put_timestamp := "2026-11-03T10:01:30"
|}.

(** Everything works; the second CAPTCHA answer is accepted. *)
Definition calm_world : World :=
  example_world true (Ret tt)
    (fun attempt => match attempt with O => rejected_round | _ => accepted_round end)
    (Ret tt) (Ret tt).

(** The portal rejects every CAPTCHA answer. *)
Definition stubborn_world : World :=
  example_world true (Ret tt) (fun _ => rejected_round) (Ret tt) (Ret tt).

(** The browser does not start. *)
Definition driverless_world : World :=
  example_world true (Raise (OtherException "session not created")) (fun _ => accepted_round)
    (Ret tt) (Ret tt).

(** The browser does not close. *)
Definition clinging_world : World :=
  example_world true (Ret tt) (fun _ => accepted_round) (Ret tt)
    (Raise (OtherException "invalid session id")).

(** Posting to the webhook faults with something that is not a
    [RequestException]. *)
Definition rude_world : World :=
  example_world true (Ret tt) (fun _ => accepted_round)
    (Raise (OtherException "Invalid URL")) (Ret tt).

Definition example_webhook : option string :=
  Some "https://discord.com/api/webhooks/1/abc".

(** Settings with the outer retry limit at zero. *)
Definition no_retry_settings : Settings := {|
  DRIVER_PATH := "msedgedriver.exe";
  DEADLINE_THRESHOLD_DAYS := 3;
  MAX_LOGIN_RETRIES := 0;
  CAPTCHA_SOLVE_RETRIES := 3
|}.

(** A record with [days] days remaining and the status [text]. *)
Definition example_item (days : Z) (text : string) : Item := {|
  id_ := "7"; title := "Sheet 7"; course := "Calculus"; deadline := "05/11/2026";
  days_remaining := Some days; status := text; url := None
|}.

(** A record whose deadline did not parse. *)
Definition undated_item : Item := {|
  id_ := "8"; title := "Sheet 8"; course := "Calculus"; deadline := "To be announced";
  days_remaining := None; status := "Not Submitted"; url := None
|}.

Definition example_entry (text : string) : LogEntry :=
  {| level := "INFO"; log_message := text; log_timestamp := "2026-11-03T10:00:05" |}.

(** A registry in which task ["t1"] is running with one entry in its queue. *)
Definition example_registry : Registry := {|
  task_queues := {[ "t1" := [example_entry "first"] ]};
  task_results := ∅;
  task_statuses := {[ "t1" := TaskStatus.RUNNING ]}
|}.

(** The registry when the process starts. *)
Definition empty_registry : Registry :=
  {| task_queues := ∅; task_results := ∅; task_statuses := ∅ |}.

(** * Vocabulary of the properties *)

(** ** Properties of computations *)

(** A computation that never raises. *)
Definition no_raise {L A} (m : M L A) : Prop :=
  forall s, exists a, result m s = Ret a.

(** A computation all of whose events satisfy [P]. *)
Definition all_events {L A} (P : Event -> Prop) (m : M L A) : Prop :=
  forall s, Forall P (events m s).

(** A computation that keeps a property of the variables it works on. *)
Definition preserves {L A} (I : L -> Prop) (m : M L A) : Prop :=
  forall s, I s -> I (final m s).

(** ** Classes of events *)

(** What starting the browser does. *)
Definition opening (ev : Event) : Prop :=
  match ev with
  | DriverOpen | Log _ _ => True
  | _ => False
  end.

(** What logging in and scraping do. *)
Definition browsing (ev : Event) : Prop :=
  match ev with
  | DriverGet _ | LogCaptchaAttempt _ _ | SolverPost _ | LoginSubmit _ | Log _ _ => True
  | _ => False
  end.

(** What the notification step does. *)
Definition posting (ev : Event) : Prop :=
  match ev with
  | WebhookPost _ _ | Log _ _ => True
  | _ => False
  end.

(** What closing the browser does. *)
Definition quitting (ev : Event) : Prop :=
  match ev with
  | DriverQuit | Log _ _ => True
  | _ => False
  end.

(** Events of the scraper, as opposed to writes of the task manager. *)
Definition outside (ev : Event) : Prop :=
  match ev with
  | Wrote _ => False
  | _ => True
  end.

(** Events of the scraper before it closes the browser. *)
Definition working (ev : Event) : Prop :=
  match ev with
  | DriverQuit | Wrote _ => False
  | _ => True
  end.

(** ** Authentication *)

Definition count (f : Event -> bool) (evs : list Event) : nat := length (List.filter f evs).

(** Iterations of the CAPTCHA loop that were started. *)
Definition is_attempt (ev : Event) : bool :=
  match ev with
  | LogCaptchaAttempt _ _ => true
  | _ => false
  end.

(** Submissions to the solving service. *)
Definition is_solver_post (ev : Event) : bool :=
  match ev with
  | SolverPost _ => true
  | _ => false
  end.

Definition solve_attempts (evs : list Event) : nat := count is_attempt evs.
Definition solver_posts (evs : list Event) : nat := count is_solver_post evs.

Definition set_max_login_retries (n : Z) (st : Settings) : Settings := {|
  DRIVER_PATH := DRIVER_PATH st;
  DEADLINE_THRESHOLD_DAYS := DEADLINE_THRESHOLD_DAYS st;
  MAX_LOGIN_RETRIES := n;
  CAPTCHA_SOLVE_RETRIES := CAPTCHA_SOLVE_RETRIES st
|}.

(** ** Cards *)





(** The card [format_discord_embeds] renders for one record alone. *)
Definition card (k : ListingKind) (item : Item) : option Embed :=
  match format_discord_embeds k [item] [] with
  | (Ret [e], _, _) => Some e
  | _ => None
  end.

(** The posts made to the webhook, with their payloads. *)
Definition webhook_posts (evs : list Event) : list (string * Payload) :=
  omap (fun ev => match ev with
                  | WebhookPost url payload => Some (url, payload)
                  | _ => None
                  end) evs.

(** ** Listings *)

(** The records one row adds to the list. *)
Definition row_items (w : World) (k : ListingKind) (now : Z) (row : outcome (list Cell))
  : list Item :=
  final (scrape_row w k now row) [].

(** An answer of the outside world that is not an exception. *)
Definition returned {A} (o : outcome A) : bool :=
  match o with
  | Ret _ => true
  | Raise _ => false
  end.

(** A row whose cells can be listed, that has six cells at least, and in
    which everything [scrape_row] reads can be read: the text of the first,
    third, fourth and sixth cell, and the title, which is the text and the
    address of the link of the second cell when that cell has a link, and
    the text of the cell when it has none or the search for it fails. *)
Definition readable (row : outcome (list Cell)) : bool :=
  match row with
  | Ret (c0 :: c1 :: c2 :: c3 :: _ :: c5 :: _) =>
      returned (cell_text c0)
      && match cell_link c1 with
         | Found a => returned (link_text a) && returned (link_href a)
         | _ => returned (cell_text c1)
         end
      && returned (cell_text c2) && returned (cell_text c3) && returned (cell_text c5)
  | _ => false
  end.

(** ** Tasks *)

(** What producers do: [put] the entries one after the other. *)
Definition put_all (task_id : string) (entries : list LogEntry) : M Registry unit :=
  for_each entries (fun entry => write (queue_put task_id entry)).

#[global] Instance TaskStatus_eq_dec : EqDecision TaskStatus.t.
Proof. solve_decision. Defined.

(** The registries a poller may see: the registry after each write. *)
Definition snapshots (evs : list Event) : list Registry :=
  omap (fun ev => match ev with Wrote reg => Some reg | _ => None end) evs.

(** A sequence without its immediate repetitions. *)
Fixpoint changes {A} `{EqDecision A} (xs : list A) : list A :=
  match xs with
  | [] => []
  | x :: rest =>
      match rest with
      | y :: _ => if decide (x = y) then changes rest else x :: changes rest
      | [] => [x]
      end
  end.

(** The statuses of a task that a poller may see, one after the other. *)
Definition status_sequence (task_id : string) (evs : list Event) : list TaskStatus.t :=
  changes (omap (fun reg => task_statuses reg !! task_id) (snapshots evs)).

(** What [get_task_status] and [get_task_result] answer in a registry. *)
Definition terminal (task_id : string) (reg : Registry) : Prop :=
  result (get_task_status task_id) reg = Ret (Some TaskStatus.COMPLETED) \/
  result (get_task_status task_id) reg = Ret (Some TaskStatus.ERROR).

Definition populated (task_id : string) (reg : Registry) : Prop :=
  exists d, result (get_task_result task_id) reg = Ret (Some d).

(** What the endpoint that starts a scrape has done once the background
    work is over: the task is created, then run once. *)
Definition task_session (st : Settings) (w : World)
    (task_id username password key : string) (webhook : option string) : M Registry unit :=
  create_scraper_task task_id username password key webhook;;;
  run_scraper_task st w task_id username password key webhook.

(** ** Further vocabulary *)

(** Starts of the browser. *)
Definition is_open (ev : Event) : bool :=
  match ev with
  | DriverOpen => true
  | _ => false
  end.

(** Submissions of the login form. *)
Definition is_submit (ev : Event) : bool :=
  match ev with
  | LoginSubmit _ => true
  | _ => false
  end.

(** A text without a comma. *)
Fixpoint no_comma (s : string) : bool :=
  match s with
  | EmptyString => true
  | String c rest => negb (Ascii.eqb c ",") && no_comma rest
  end.

(** The world [w], except that the login page answers [o]. *)
Definition with_login_get (o : outcome unit) (w : World) : World := {|
  strip := strip w;
  strptime_dmy := strptime_dmy w;
  driver_is_file := driver_is_file w;
  edge_start := edge_start w;
  login_get := o;
  username_wait := username_wait w;
  credentials_entry := credentials_entry w;
  captcha_round := captcha_round w;
  assignments_page := assignments_page w;
  quizzes_page := quizzes_page w;
  timestamp := timestamp w;
  webhook_post := webhook_post w;
  webhook_status := webhook_status w;
  driver_quit := driver_quit w;
  put_timestamp := put_timestamp w
|}.

(** The portal cannot be reached. *)
Definition offline_world : World :=
  with_login_get (Raise (OtherException "net::ERR_NAME_NOT_RESOLVED")) calm_world.

(** The result dictionary once both listings are scraped. *)
Definition scraped_result (w : World) (scraped_a scraped_q : list Item) : ScrapeResult := {|
  assignments := scraped_a;
  quizzes := scraped_q;
  result_timestamp := timestamp w;
  success := true;
  message := "Scraping completed successfully"
|}.

(** The local variables of [run_dulms_scraper] when the notification step
    starts. *)
Definition locals_after_scrape (w : World) (scraped_a scraped_q : list Item) : RunLocals :=
  {| driver := Some tt; result_dict := scraped_result w scraped_a scraped_q |}.

(** The world [w], except that posting to the webhook answers [o]. *)
Definition with_webhook_post (o : outcome unit) (w : World) : World := {|
  strip := strip w;
  strptime_dmy := strptime_dmy w;
  driver_is_file := driver_is_file w;
  edge_start := edge_start w;
  login_get := login_get w;
  username_wait := username_wait w;
  credentials_entry := credentials_entry w;
  captcha_round := captcha_round w;
  assignments_page := assignments_page w;
  quizzes_page := quizzes_page w;
  timestamp := timestamp w;
  webhook_post := o;
  webhook_status := webhook_status w;
  driver_quit := driver_quit w;
  put_timestamp := put_timestamp w
|}.

(** Discord answers 429 to every post. *)
Definition throttled_world : World :=
  with_webhook_post (Raise (RequestException "429 Client Error: Too Many Requests")) calm_world.

(** A listing whose table never shows. *)
Definition missing_listing : Listing :=
  {| listing_now := example_now; listing_get := Ret tt; listing_table := TimedOut |}.

(** A listing that cannot be opened, whose table does not show, whose rows
    cannot be listed, or that has no row besides its header. *)
Definition unreadable (page : Listing) : Prop :=
  (exists e, listing_get page = Raise e) \/
  listing_table page = TimedOut \/
  (exists e, listing_table page = WaitFault e) \/
  (exists e, listing_table page = Visible (Raise e)) \/
  listing_table page = Visible (Ret []) \/
  (exists header, listing_table page = Visible (Ret [header])).

(** The world [w], with another quizzes page. *)
Definition with_quizzes_page (page : Listing) (w : World) : World := {|
  strip := strip w;
  strptime_dmy := strptime_dmy w;
  driver_is_file := driver_is_file w;
  edge_start := edge_start w;
  login_get := login_get w;
  username_wait := username_wait w;
  credentials_entry := credentials_entry w;
  captcha_round := captcha_round w;
  assignments_page := assignments_page w;
  quizzes_page := page;
  timestamp := timestamp w;
  webhook_post := webhook_post w;
  webhook_status := webhook_status w;
  driver_quit := driver_quit w;
  put_timestamp := put_timestamp w
|}.

(** Two quiz rows, both dated. *)
Definition dated_quizzes : Listing := {|
  listing_now := example_now;
  listing_get := Ret tt;
  listing_table := Visible (Ret [
    header_row;
    listing_row "21" "Quiz 1" "Calculus" "03/12/2026" "Not Completed";
    listing_row "25" "Quiz 5" "English" "10/12/2026" "Completed" ])
|}.

(** The calm world, with every deadline a date. *)
Definition dated_world : World := with_quizzes_page dated_quizzes calm_world.

(** Two registries that agree on every task but [task_id]. *)
Definition same_elsewhere (task_id : string) (reg reg' : Registry) : Prop :=
  forall other, other <> task_id ->
    task_queues reg' !! other = task_queues reg !! other /\
    task_results reg' !! other = task_results reg !! other /\
    task_statuses reg' !! other = task_statuses reg !! other.

(** The entry [run_scraper_task] puts on the queue when the scraper has
    returned [r]. *)
Definition completion_entry (w : World) (r : ScrapeResult) : LogEntry :=
  if success r then
    {| level := "INFO";
       log_message := "Scraping task completed successfully";
       log_timestamp := put_timestamp w |}
  else
    {| level := "ERROR";
       log_message := "Scraping task failed: " +:+ message r;
       log_timestamp := put_timestamp w |}.

(** The status [run_scraper_task] ends on when the scraper has returned
    [r]. *)
Definition completion_status (r : ScrapeResult) : TaskStatus.t :=
  if success r then TaskStatus.COMPLETED else TaskStatus.ERROR.

(** A registry in which task ["t1"] has finished and two entries wait in
    its queue. *)
Definition finished_registry : Registry := {|
  task_queues := {[ "t1" := [example_entry "first"; example_entry "second"] ]};
  task_results := {[ "t1" := MessageOnly "done" ]};
  task_statuses := {[ "t1" := TaskStatus.COMPLETED ]}
|}.


(** A computation that returns at once and leaves everything as it was. *)
Definition idle {L} (m : M L unit) : Prop :=
  forall s, m s = (Ret tt, s, []).

(** A turn of the stream during which the client stays connected and the
    rest of the process does nothing. *)
Definition quiet (poll : Poll) : Prop :=
  idle (meanwhile poll) /\ is_disconnected poll = false /\ idle (midway poll).

Definition quiet_poll : Poll :=
  {| meanwhile := ret tt; is_disconnected := false; midway := ret tt |}.

(** What the stream yields on the turn on which it finds the status [s]
    and the stored result [d]. *)
Definition closing_events (s : TaskStatus.t) (d : option ResultData) : list ServerEvent :=
  StatusEvent s ::
  match s, d with
  | TaskStatus.COMPLETED, Some d => [ResultEvent d]
  | _, _ => []
  end.

Definition is_terminal (s : TaskStatus.t) : bool :=
  match s with
  | TaskStatus.COMPLETED | TaskStatus.ERROR => true
  | _ => false
  end.

(** The entries that wait in the queue of a task. *)
Definition waiting (task_id : string) (reg : Registry) : list LogEntry :=
  default [] (task_queues reg !! task_id).

(** What a run may reach: the three pages of the portal, the solving
    service with the key it was given, and the webhook it was given with
    the alert text. *)
Definition confined (st : Settings) (key : string) (webhook : option string)
    (ev : Event) : Prop :=
  match ev with
  | DriverGet url => url = LOGIN_URL \/ url = ASSIGNMENTS_URL \/ url = QUIZZES_URL
  | SolverPost api_key => api_key = key
  | LogCaptchaAttempt _ limit => limit = CAPTCHA_SOLVE_RETRIES st
  | WebhookPost url payload =>
      webhook = Some url /\ payload_content payload = ALERT_CONTENT
  | Wrote _ => False
  | _ => True
  end.

(** * Properties *)

(** ** Running a computation *)

Section MonadLaws.

Context {L : Type}.

Lemma run_eta {A} (m : M L A) s : m s = (result m s, final m s, events m s).
Proof. unfold result, final, events. by destruct (m s) as [[? ?] ?]. Qed.

Lemma result_bind {A B} (m : M L A) (k : A -> M L B) s :
  result (bind m k) s =
  match result m s with
  | Ret a => result (k a) (final m s)
  | Raise e => Raise e
  end.
Proof.
  unfold result, final, bind. destruct (m s) as [[[a|e] s1] t1]; simpl; [|done].
  by destruct (k a s1) as [[? ?] ?].
Qed.

Lemma final_bind {A B} (m : M L A) (k : A -> M L B) s :
  final (bind m k) s =
  match result m s with
  | Ret a => final (k a) (final m s)
  | Raise e => final m s
  end.
Proof.
  unfold result, final, bind. destruct (m s) as [[[a|e] s1] t1]; simpl; [|done].
  by destruct (k a s1) as [[? ?] ?].
Qed.

Lemma events_bind {A B} (m : M L A) (k : A -> M L B) s :
  events (bind m k) s =
  events m s ++
  match result m s with
  | Ret a => events (k a) (final m s)
  | Raise e => []
  end.
Proof.
  unfold result, final, events, bind. destruct (m s) as [[[a|e] s1] t1]; simpl.
  - by destruct (k a s1) as [[? ?] ?].
  - by rewrite app_nil_r.
Qed.

Lemma result_try_except {A} (m : M L A) h s :
  result (try_except m h) s =
  match result m s with
  | Ret a => Ret a
  | Raise e => result (h e) (final m s)
  end.
Proof.
  unfold result, final, try_except. destruct (m s) as [[[a|e] s1] t1]; simpl; [done|].
  by destruct (h e s1) as [[? ?] ?].
Qed.

Lemma final_try_except {A} (m : M L A) h s :
  final (try_except m h) s =
  match result m s with
  | Ret a => final m s
  | Raise e => final (h e) (final m s)
  end.
Proof.
  unfold result, final, try_except. destruct (m s) as [[[a|e] s1] t1]; simpl; [done|].
  by destruct (h e s1) as [[? ?] ?].
Qed.

Lemma events_try_except {A} (m : M L A) h s :
  events (try_except m h) s =
  events m s ++
  match result m s with
  | Ret a => []
  | Raise e => events (h e) (final m s)
  end.
Proof.
  unfold result, final, events, try_except. destruct (m s) as [[[a|e] s1] t1]; simpl.
  - by rewrite app_nil_r.
  - by destruct (h e s1) as [[? ?] ?].
Qed.

Lemma result_try_finally {A} (m : M L A) f s :
  result (try_finally m f) s =
  match result f (final m s) with
  | Ret _ => result m s
  | Raise e => Raise e
  end.
Proof.
  unfold result, final, try_finally. destruct (m s) as [[r s1] t1]; simpl.
  by destruct (f s1) as [[[?|?] ?] ?].
Qed.

Lemma events_try_finally {A} (m : M L A) f s :
  events (try_finally m f) s = events m s ++ events f (final m s).
Proof.
  unfold final, events, try_finally. destruct (m s) as [[r s1] t1]; simpl.
  by destruct (f s1) as [[[?|?] ?] ?].
Qed.

Lemma result_call {L' A} (m : M L' A) s0 (s : L) : result (call m s0) s = result m s0.
Proof. unfold result, call. by destruct (m s0) as [[? ?] ?]. Qed.

Lemma final_call {L' A} (m : M L' A) s0 (s : L) : final (call m s0) s = s.
Proof. unfold final, call. by destruct (m s0) as [[? ?] ?]. Qed.

Lemma events_call {L' A} (m : M L' A) s0 (s : L) : events (call m s0) s = events m s0.
Proof. unfold events, call. by destruct (m s0) as [[? ?] ?]. Qed.

End MonadLaws.

(** ** Computations that never raise *)

Section NoRaise.

Context {L : Type}.

Lemma no_raise_ret {A} (a : A) : no_raise (@ret L A a).
Proof. intros s. by exists a. Qed.

Lemma no_raise_emit ev : no_raise (@emit L ev).
Proof. intros s. by exists tt. Qed.

Lemma no_raise_log lvl msg : no_raise (@log L lvl msg).
Proof. apply no_raise_emit. Qed.

Lemma no_raise_get : no_raise (@get L).
Proof. intros s. by exists s. Qed.

Lemma no_raise_modify f : no_raise (@modify L f).
Proof. intros s. by exists tt. Qed.

Lemma no_raise_write f : no_raise (write f).
Proof. intros s. by exists tt. Qed.

Lemma no_raise_bind {A B} (m : M L A) (k : A -> M L B) :
  no_raise m -> (forall a, no_raise (k a)) -> no_raise (bind m k).
Proof.
  intros Hm Hk s. rewrite result_bind. destruct (Hm s) as [a ->]. apply Hk.
Qed.

Lemma no_raise_try_except {A} (m : M L A) h :
  (forall e, no_raise (h e)) -> no_raise (try_except m h).
Proof.
  intros Hh s. rewrite result_try_except. destruct (result m s) as [a|e]; [by exists a|].
  apply Hh.
Qed.

Lemma no_raise_try_finally {A} (m : M L A) f :
  no_raise m -> no_raise f -> no_raise (try_finally m f).
Proof.
  intros Hm Hf s. rewrite result_try_finally.
  destruct (Hf (final m s)) as [u ->]. apply Hm.
Qed.

Lemma no_raise_call {L' A} (m : M L' A) s0 : no_raise m -> no_raise (@call L L' A m s0).
Proof. intros Hm s. rewrite result_call. apply Hm. Qed.

End NoRaise.

(** ** Computations whose events all satisfy a predicate *)

Section AllEvents.

Context {L : Type} (P : Event -> Prop).

Lemma all_events_ret {A} (a : A) : all_events P (@ret L A a).
Proof. intros s. constructor. Qed.

Lemma all_events_raise {A} e : all_events P (@raise L A e).
Proof. intros s. constructor. Qed.

Lemma all_events_ask {A} (o : outcome A) : all_events P (@ask L A o).
Proof. intros s. constructor. Qed.

Lemma all_events_get : all_events P (@get L).
Proof. intros s. constructor. Qed.

Lemma all_events_modify f : all_events P (@modify L f).
Proof. intros s. constructor. Qed.

Lemma all_events_emit ev : P ev -> all_events P (@emit L ev).
Proof. intros H s. by repeat constructor. Qed.

Lemma all_events_log lvl msg : P (Log lvl msg) -> all_events P (@log L lvl msg).
Proof. apply all_events_emit. Qed.

Lemma all_events_bind {A B} (m : M L A) (k : A -> M L B) :
  all_events P m -> (forall a, all_events P (k a)) -> all_events P (bind m k).
Proof.
  intros Hm Hk s. rewrite events_bind. apply Forall_app. split; [apply Hm|].
  destruct (result m s); [apply Hk | constructor].
Qed.

Lemma all_events_try_except {A} (m : M L A) h :
  all_events P m -> (forall e, all_events P (h e)) -> all_events P (try_except m h).
Proof.
  intros Hm Hh s. rewrite events_try_except. apply Forall_app. split; [apply Hm|].
  destruct (result m s); [constructor | apply Hh].
Qed.

Lemma all_events_try_finally {A} (m : M L A) f :
  all_events P m -> all_events P f -> all_events P (try_finally m f).
Proof.
  intros Hm Hf s. rewrite events_try_finally. apply Forall_app. split; [apply Hm | apply Hf].
Qed.

Lemma all_events_call {L' A} (m : M L' A) s0 :
  all_events P m -> all_events P (@call L L' A m s0).
Proof. intros Hm s. rewrite events_call. apply Hm. Qed.

Lemma all_events_for_each {A} (xs : list A) (body : A -> M L unit) :
  (forall x, all_events P (body x)) -> all_events P (for_each xs body).
Proof.
  intros Hb. induction xs as [|x xs IH]; simpl.
  - apply all_events_ret.
  - apply all_events_bind; [apply Hb | intros _; apply IH].
Qed.

End AllEvents.

Lemma all_events_impl {L A} (P Q : Event -> Prop) (m : M L A) :
  (forall ev, P ev -> Q ev) -> all_events P m -> all_events Q m.
Proof. intros HPQ Hm s. eapply Forall_impl; [apply Hm | apply HPQ]. Qed.

Lemma all_events_write (P : Event -> Prop) f :
  (forall reg, P (Wrote reg)) -> all_events P (write f).
Proof. intros H s. by repeat constructor. Qed.

Section RequestHandler.

Context {L A : Type} (m : M L A) (h : exn -> M L A).

Lemma result_try_except_request s :
  result (try_except_request m h) s =
  match result m s with
  | Raise (RequestException msg) => result (h (RequestException msg)) (final m s)
  | other => other
  end.
Proof.
  unfold result, final, try_except_request.
  destruct (m s) as [[[a|[msg|msg]] s1] t1]; simpl; try done.
  by destruct (h _ s1) as [[? ?] ?].
Qed.

Lemma events_try_except_request s :
  events (try_except_request m h) s =
  events m s ++
  match result m s with
  | Raise (RequestException msg) => events (h (RequestException msg)) (final m s)
  | _ => []
  end.
Proof.
  unfold result, final, events, try_except_request.
  destruct (m s) as [[[a|[msg|msg]] s1] t1]; simpl; rewrite ?app_nil_r; try done.
  by destruct (h _ s1) as [[? ?] ?].
Qed.

Lemma all_events_try_except_request (P : Event -> Prop) :
  all_events P m -> (forall e, all_events P (h e)) -> all_events P (try_except_request m h).
Proof.
  intros Hm Hh s. rewrite events_try_except_request. apply Forall_app. split; [apply Hm|].
  destruct (result m s) as [?|[?|?]]; try constructor. apply Hh.
Qed.

End RequestHandler.

(** Splits a goal [all_events P m] along the structure of [m]. *)
Ltac trace_step :=
  first
    [ apply all_events_ret | apply all_events_raise | apply all_events_ask
    | apply all_events_get | apply all_events_modify
    | apply all_events_log; exact I
    | apply all_events_emit; exact I
    | apply all_events_call
    | apply all_events_bind; [|intros ?]
    | apply all_events_try_except; [|intros ?]
    | apply all_events_try_finally
    | apply all_events_for_each; intros ?
    | match goal with
      | |- all_events _ (match ?x with _ => _ end) => destruct x
      | |- all_events _ (let _ := _ in _) => cbv zeta
      end ].

Ltac trace := repeat trace_step.

(** The same, with [known] tried first at every step, for the calls whose
    events a lemma already describes. *)
Tactic Notation "trace" "with" tactic3(known) := repeat first [known | trace_step].

(** ** The events of each function *)

Section ScraperEvents.

Context (st : Settings) (w : World).

Lemma initialize_driver_opening {L} : all_events opening (@initialize_driver st w L).
Proof. unfold initialize_driver. trace. Qed.

Lemma captcha_attempt_browsing {L} key attempt :
  all_events browsing (@captcha_attempt st w L key attempt).
Proof.
  unfold captcha_attempt, get_captcha_image, solve_captcha, safe_find_element. trace.
Qed.

Lemma captcha_loop_browsing {L} key n attempt :
  all_events browsing (@captcha_loop st w L key n attempt).
Proof.
  revert attempt. induction n as [|n IH]; intros attempt; cbn [captcha_loop].
  - apply all_events_ret.
  - apply all_events_bind; [apply captcha_attempt_browsing|].
    intros [ | |b]; [apply IH | apply all_events_ret ..].
Qed.

Lemma login_to_dulms_browsing {L} username password key :
  all_events browsing (@login_to_dulms st w L username password key).
Proof.
  unfold login_to_dulms, wait_for_element. trace with (apply captcha_loop_browsing).
Qed.

Lemma scrape_row_browsing k now row : all_events browsing (scrape_row w k now row).
Proof. unfold scrape_row, index, safe_find_element. trace. Qed.

Lemma scrape_listing_browsing k page : all_events browsing (scrape_listing w k page).
Proof.
  unfold scrape_listing, wait_for_element. trace with (apply scrape_row_browsing).
Qed.

Lemma format_discord_embeds_silent k items :
  all_events (fun _ => False) (format_discord_embeds k items).
Proof. unfold format_discord_embeds, format_embed. trace. Qed.

Lemma send_discord_webhook_posting {L} webhook content embeds :
  all_events posting (@send_discord_webhook w L webhook content embeds).
Proof. unfold send_discord_webhook. trace with (apply all_events_try_except_request; [|intros ?]). Qed.

Lemma notify_upcoming_posting webhook : all_events posting (notify_upcoming st w webhook).
Proof.
  unfold notify_upcoming, format_discord_embeds_for_assignments,
    format_discord_embeds_for_quizzes.
  trace with
    first [ apply send_discord_webhook_posting
          | eapply all_events_impl; [|apply format_discord_embeds_silent]; intros ? [] ].
Qed.

Lemma run_dulms_scraper_finally_quitting : all_events quitting (run_dulms_scraper_finally w).
Proof. unfold run_dulms_scraper_finally. trace. Qed.

Lemma run_dulms_scraper_except_log e :
  all_events (fun ev => exists lvl msg, ev = Log lvl msg) (run_dulms_scraper_except e).
Proof.
  unfold run_dulms_scraper_except.
  trace with (apply all_events_log; eauto).
Qed.

(** Nothing the scraper does is a write to the registry. *)
Lemma run_dulms_scraper_outside {L} username password key webhook :
  all_events outside (@run_dulms_scraper st w L username password key webhook).
Proof.
  unfold run_dulms_scraper, run_dulms_scraper_try, run_dulms_scraper_session,
    scrape_assignments, scrape_quizzes.
  trace with
    first [ eapply all_events_impl; [|apply initialize_driver_opening]; by intros []
          | eapply all_events_impl; [|apply login_to_dulms_browsing]; by intros []
          | eapply all_events_impl; [|apply scrape_listing_browsing]; by intros []
          | eapply all_events_impl; [|apply notify_upcoming_posting]; by intros []
          | eapply all_events_impl; [|apply run_dulms_scraper_finally_quitting]; by intros []
          | eapply all_events_impl; [|apply run_dulms_scraper_except_log];
            by intros ? (? & ? & ->) ].
Qed.

End ScraperEvents.

(** ** The notification filter *)

(** C5. The filter of [run_dulms_scraper] keeps a record exactly when its
    [days_remaining] is not [None] and is at most
    [DEADLINE_THRESHOLD_DAYS]. With the threshold at 3, as in the default
    settings, a record with 3 days remaining is kept, one with 4 is not, and
    a record without [days_remaining] is kept under no threshold. *)
Theorem upcoming_filter_rule :
  (forall (st : Settings) (items : list Item) (a : Item),
      a ∈ List.filter (is_upcoming (DEADLINE_THRESHOLD_DAYS st)) items <->
      a ∈ items /\
      exists days, days_remaining a = Some days /\ days <= DEADLINE_THRESHOLD_DAYS st) /\
  DEADLINE_THRESHOLD_DAYS default_settings = 3 /\
  (forall a, days_remaining a = Some 3 -> is_upcoming 3 a = true) /\
  (forall a, days_remaining a = Some 4 -> is_upcoming 3 a = false) /\
  (forall threshold a, days_remaining a = None -> is_upcoming threshold a = false).
Proof.
  split; [intros st items a; split|repeat split].
  - intros Hin. apply list_elem_of_In, filter_In in Hin as [Hin Hup].
    split; [by apply list_elem_of_In|].
    unfold is_upcoming in Hup. destruct (days_remaining a) as [days|]; [|done].
    exists days. split; [done | lia].
  - intros [Hin (days & Hd & Hle)]. apply list_elem_of_In, filter_In.
    split; [by apply list_elem_of_In|].
    unfold is_upcoming. rewrite Hd. lia.
  - intros a Ha. unfold is_upcoming. by rewrite Ha.
  - intros a Ha. unfold is_upcoming. by rewrite Ha.
  - intros threshold a Ha. unfold is_upcoming. by rewrite Ha.
Qed.

Lemma upcoming_filter_rule_witness :
  is_upcoming 3 (example_item 3 "Not Submitted") = true /\
  is_upcoming 3 (example_item 4 "Not Submitted") = false /\
  is_upcoming 3 undated_item = false.
Proof.
  destruct upcoming_filter_rule as (_ & _ & Hthree & Hfour & Hnone).
  split; [|split].
  - apply Hthree. reflexivity.
  - apply Hfour. reflexivity.
  - apply Hnone. reflexivity.
Defined.

(** ** The CAPTCHA loop *)

Lemma count_app f evs1 evs2 : count f (evs1 ++ evs2) = (count f evs1 + count f evs2)%nat.
Proof. unfold count. by rewrite List.filter_app, length_app. Qed.

(** Takes apart a computation on the answers of the world it reads. *)
Ltac unfold_monad :=
  unfold bind, try_except, try_finally, try_except_request, call, log, emit, ret, raise,
    ask, get, modify, write.

Ltac paths :=
  unfold_monad; cbn;
  repeat match goal with
    | |- context [match ?x with _ => _ end] =>
        lazymatch x with
        | context [match _ with _ => _ end] => fail
        | _ => destruct x; cbn
        end
    end.

Section Login.

Context (st : Settings) (w : World).

Lemma captcha_attempt_counts key attempt :
  solve_attempts (events (captcha_attempt st w key attempt) tt) = 1%nat /\
  (solver_posts (events (captcha_attempt st w key attempt) tt) <= 1)%nat.
Proof.
  unfold solve_attempts, solver_posts, count, events, captcha_attempt, get_captcha_image,
    solve_captcha, safe_find_element.
  paths; split; lia.
Qed.

Lemma captcha_loop_counts key n attempt :
  (solve_attempts (events (captcha_loop st w key n attempt) tt) <= n)%nat /\
  (solver_posts (events (captcha_loop st w key n attempt) tt) <= n)%nat.
Proof.
  revert attempt. induction n as [|n IH]; intros attempt; cbn [captcha_loop].
  - split; cbn; lia.
  - rewrite events_bind.
    destruct (captcha_attempt_counts key attempt) as [Hone Hposts].
    unfold solve_attempts, solver_posts in *. rewrite !count_app, Hone.
    destruct (final (captcha_attempt st w key attempt) tt).
    destruct (result (captcha_attempt st w key attempt) tt) as [[ | |b]|e].
    + destruct (IH (S attempt)) as [IH1 IH2]. split; lia.
    + cbn. split; lia.
    + cbn. split; lia.
    + cbn. split; lia.
Qed.

(** The loop returns [True] only from an iteration that returned [True]. *)
Lemma captcha_loop_fails key n attempt :
  (forall i, (attempt <= i < attempt + n)%nat ->
             result (captcha_attempt st w key i) tt <> Ret (Return true)) ->
  result (captcha_loop st w key n attempt) tt <> Ret (Some true).
Proof.
  revert attempt. induction n as [|n IH]; intros attempt Hfail; cbn [captcha_loop].
  - done.
  - rewrite result_bind.
    pose proof (Hfail attempt ltac:(lia)) as Hhere.
    destruct (final (captcha_attempt st w key attempt) tt).
    destruct (result (captcha_attempt st w key attempt) tt) as [[ | |b]|e]; try done.
    + apply IH. intros i Hi. apply Hfail. lia.
    + cbn. intros [= ->]. done.
Qed.

Lemma login_to_dulms_returns {L} username password key :
  no_raise (@login_to_dulms st w L username password key).
Proof.
  unfold login_to_dulms. apply no_raise_bind; [apply no_raise_log|]. intros _.
  apply no_raise_try_except. intros e.
  apply no_raise_bind; [apply no_raise_log|]. intros _. apply no_raise_ret.
Qed.

Lemma login_to_dulms_counts username password key :
  let evs := events (login_to_dulms st w username password key) tt in
  (solve_attempts evs <= Z.to_nat (CAPTCHA_SOLVE_RETRIES st))%nat /\
  (solver_posts evs <= Z.to_nat (CAPTCHA_SOLVE_RETRIES st))%nat.
Proof.
  pose proof (captcha_loop_counts key (Z.to_nat (CAPTCHA_SOLVE_RETRIES st)) 0) as Hloop.
  revert Hloop.
  unfold solve_attempts, solver_posts, events, login_to_dulms, wait_for_element.
  generalize (Z.to_nat (CAPTCHA_SOLVE_RETRIES st)). intros n.
  paths; rewrite ?List.filter_app, ?length_app; cbn; lia.
Qed.

Lemma login_to_dulms_fails username password key :
  (forall attempt, (attempt < Z.to_nat (CAPTCHA_SOLVE_RETRIES st))%nat ->
                   result (captcha_attempt st w key attempt) tt <> Ret (Return true)) ->
  result (login_to_dulms st w username password key) tt = Ret false.
Proof.
  intros Hfail.
  pose proof (captcha_loop_fails key (Z.to_nat (CAPTCHA_SOLVE_RETRIES st)) 0) as Hloop.
  specialize (Hloop ltac:(intros i Hi; apply Hfail; lia)). revert Hloop.
  unfold result, login_to_dulms, wait_for_element.
  generalize (Z.to_nat (CAPTCHA_SOLVE_RETRIES st)). intros n.
  paths; try done; by destruct b.
Qed.

End Login.

(** ** Authentication *)

(** C1, as stated, fails: with [MAX_LOGIN_RETRIES = 0] and
    [CAPTCHA_SOLVE_RETRIES = 3], against a portal that rejects every CAPTCHA
    answer, [login_to_dulms] makes three solve attempts, more than the
    product of the two limits, which is zero. *)
Lemma login_attempts_exceed_product :
  let evs := events (login_to_dulms no_retry_settings stubborn_world "u" "p" "k") tt in
  solve_attempts evs = 3%nat /\
  solver_posts evs = 3%nat /\
  MAX_LOGIN_RETRIES no_retry_settings * CAPTCHA_SOLVE_RETRIES no_retry_settings = 0 /\
  ~ (Z.of_nat (solve_attempts evs)
     <= MAX_LOGIN_RETRIES no_retry_settings * CAPTCHA_SOLVE_RETRIES no_retry_settings).
Proof.
  cbv zeta.
  assert (solve_attempts
            (events (login_to_dulms no_retry_settings stubborn_world "u" "p" "k") tt) = 3%nat)
    as Hthree by (vm_compute; reflexivity).
  rewrite Hthree. split; [reflexivity|]. split; [vm_compute; reflexivity|].
  split; [reflexivity|]. cbn. lia.
Qed.

(** C1, amended. [login_to_dulms] goes through the login form once, with at
    most [CAPTCHA_SOLVE_RETRIES] iterations of the CAPTCHA loop (none when
    that setting is not positive), each submitting to the solving service at
    most once; [MAX_LOGIN_RETRIES] is never read. So the number of solve
    attempts is within [MAX_LOGIN_RETRIES * CAPTCHA_SOLVE_RETRIES] whenever
    [MAX_LOGIN_RETRIES >= 1] and [CAPTCHA_SOLVE_RETRIES >= 0]. The function
    never raises, and when no iteration it may run ends in a successful
    login it returns [False]. *)
Theorem login_single_pass_bound (st : Settings) (w : World) (username password key : string) :
  let evs := events (login_to_dulms st w username password key) tt in
  (solve_attempts evs <= Z.to_nat (CAPTCHA_SOLVE_RETRIES st))%nat /\
  (solver_posts evs <= Z.to_nat (CAPTCHA_SOLVE_RETRIES st))%nat /\
  (1 <= MAX_LOGIN_RETRIES st -> 0 <= CAPTCHA_SOLVE_RETRIES st ->
   Z.of_nat (solve_attempts evs) <= MAX_LOGIN_RETRIES st * CAPTCHA_SOLVE_RETRIES st) /\
  (forall n, login_to_dulms (set_max_login_retries n st) w username password key
             = login_to_dulms (L := unit) st w username password key) /\
  (exists b, result (login_to_dulms st w username password key) tt = Ret b) /\
  ((forall attempt, (attempt < Z.to_nat (CAPTCHA_SOLVE_RETRIES st))%nat ->
                    result (captcha_attempt st w key attempt) tt <> Ret (Return true)) ->
   result (login_to_dulms st w username password key) tt = Ret false).
Proof.
  cbv zeta.
  destruct (login_to_dulms_counts st w username password key) as [Hattempts Hposts].
  repeat split.
  - exact Hattempts.
  - exact Hposts.
  - intros Hmax Hcaptcha. nia.
  - apply login_to_dulms_returns.
  - apply login_to_dulms_fails.
Qed.

Lemma login_single_pass_bound_witness :
  let evs := events (login_to_dulms default_settings stubborn_world "u" "p" "k") tt in
  Z.of_nat (solve_attempts evs) <= 3 * 3 /\
  result (login_to_dulms default_settings stubborn_world "u" "p" "k") tt = Ret false.
Proof.
  destruct (login_single_pass_bound default_settings stubborn_world "u" "p" "k")
    as (_ & _ & Hproduct & _ & _ & Hfails).
  split.
  - apply Hproduct; cbn; lia.
  - apply Hfails. intros attempt _. vm_compute. discriminate.
Defined.

(** ** Card colours *)




Lemma card_run k item days :
  days_remaining item = Some days ->
  exists e,
    card k item = Some e /\
    (forall embeds, format_embed k item embeds = (Ret tt, embeds ++ [e], [])) /\
    embed_title e = title item /\
    embed_url e = url item /\
    embed_color e =
      (if String.eqb (lower (status item)) (kind_done k) then GREEN
       else if days >? 1 then YELLOW else RED).
Proof.
  intros Hdays. unfold card, format_discord_embeds, format_embed. cbn [for_each].
  unfold_monad. cbn beta. rewrite Hdays. cbn.
  eexists. split; [reflexivity|]. split; [reflexivity|]. cbn. done.
Qed.



(** ** The log queue *)

Lemma drain_queue_run task_id q logs reg :
  result (drain_queue task_id q logs) reg = Ret (logs ++ q) /\
  (task_queues reg !! task_id = Some q ->
   task_queues (final (drain_queue task_id q logs) reg) !! task_id = Some []).
Proof.
  revert logs reg. induction q as [|entry q IH]; intros logs reg; cbn [drain_queue].
  - split; [by rewrite app_nil_r | done].
  - rewrite result_bind, final_bind. cbn.
    destruct (IH (logs ++ [entry]) (set_queue task_id q reg)) as [-> Hfinal].
    split; [by rewrite <- app_assoc|].
    intros _. apply Hfinal. cbn. apply lookup_insert_eq.
Qed.

Lemma put_all_run task_id entries q reg :
  task_queues reg !! task_id = Some q ->
  result (put_all task_id entries) reg = Ret tt /\
  task_queues (final (put_all task_id entries) reg) !! task_id = Some (q ++ entries).
Proof.
  revert q reg. induction entries as [|entry entries IH]; intros q reg Hq;
    unfold put_all; cbn [for_each].
  - split; [done | by rewrite app_nil_r].
  - rewrite result_bind, final_bind. cbn. fold (put_all task_id entries).
    destruct (IH (q ++ [entry]) (queue_put task_id entry reg)) as [-> Hfinal].
    { cbn. rewrite lookup_alter_eq, Hq. done. }
    split; [done|]. rewrite Hfinal. by rewrite <- app_assoc.
Qed.

(** C9. [get_task_logs] returns everything the queue of the task holds, in
    the order in which it was put, and leaves the queue empty: a second call
    with no [put] in between returns the empty list. The [clear] argument
    makes no difference. *)
Theorem get_task_logs_drains (task_id : string) (q entries : list LogEntry)
    (clear clear' : bool) (reg : Registry) :
  task_queues reg !! task_id = Some q ->
  let after_puts := final (put_all task_id entries) reg in
  let after_first := final (get_task_logs task_id clear) after_puts in
  result (get_task_logs task_id clear) after_puts = Ret (q ++ entries) /\
  task_queues after_first !! task_id = Some [] /\
  result (get_task_logs task_id clear') after_first = Ret [].
Proof.
  intros Hq. cbv zeta.
  destruct (put_all_run task_id entries q reg Hq) as [_ Hputs].
  set (after_puts := final (put_all task_id entries) reg) in *.
  assert (result (get_task_logs task_id clear) after_puts = Ret (q ++ entries) /\
          task_queues (final (get_task_logs task_id clear) after_puts) !! task_id = Some [])
    as [Hfirst Hempty].
  { unfold get_task_logs. rewrite result_bind, final_bind. cbn. rewrite Hputs.
    destruct (drain_queue_run task_id (q ++ entries) [] after_puts) as [Hres Hfin].
    split; [exact Hres | by apply Hfin]. }
  split; [exact Hfirst|]. split; [exact Hempty|].
  unfold get_task_logs at 1. rewrite result_bind. cbn. rewrite Hempty. reflexivity.
Qed.

Lemma get_task_logs_drains_witness :
  let after_puts :=
    final (put_all "t1" [example_entry "second"; example_entry "third"]) example_registry in
  let after_first := final (get_task_logs "t1" false) after_puts in
  result (get_task_logs "t1" false) after_puts
    = Ret ([example_entry "first"] ++ [example_entry "second"; example_entry "third"]) /\
  task_queues after_first !! "t1" = Some [] /\
  result (get_task_logs "t1" true) after_first = Ret [].
Proof.
  apply (get_task_logs_drains "t1" [example_entry "first"]
           [example_entry "second"; example_entry "third"] false true example_registry).
  vm_compute. reflexivity.
Defined.

(** ** The scraper as the task manager sees it *)

Section RunFacts.

Context (st : Settings) (w : World).

Lemma run_dulms_scraper_except_returns e : no_raise (run_dulms_scraper_except e).
Proof.
  unfold run_dulms_scraper_except.
  repeat first [ apply no_raise_bind; [|intros ?] | apply no_raise_log | apply no_raise_modify
               | apply no_raise_get | apply no_raise_ret ].
Qed.

Lemma run_dulms_scraper_finally_returns : no_raise (run_dulms_scraper_finally w).
Proof.
  unfold run_dulms_scraper_finally.
  apply no_raise_bind; [apply no_raise_get|]. intros l. destruct (driver l).
  - apply no_raise_try_except. intros e. apply no_raise_log.
  - apply no_raise_ret.
Qed.

(** [run_dulms_scraper] never raises: every fault of the [try] block is
    turned into a result. *)
Lemma run_dulms_scraper_returns {L} username password key webhook :
  no_raise (@run_dulms_scraper st w L username password key webhook).
Proof.
  unfold run_dulms_scraper. apply no_raise_call. apply no_raise_try_finally.
  - apply no_raise_try_except. apply run_dulms_scraper_except_returns.
  - apply run_dulms_scraper_finally_returns.
Qed.

(** Seen from the caller: a result, the caller's variables untouched, and
    events none of which is a write to the registry. *)
Lemma run_dulms_scraper_run {L} username password key webhook (s : L) :
  exists r evs,
    run_dulms_scraper st w username password key webhook s = (Ret r, s, evs) /\
    Forall outside evs.
Proof.
  destruct (run_dulms_scraper_returns username password key webhook s) as [r Hr].
  exists r, (events (run_dulms_scraper st w username password key webhook) s).
  split.
  - rewrite (run_eta (run_dulms_scraper st w username password key webhook) s), Hr.
    unfold run_dulms_scraper at 1. by rewrite final_call.
  - apply run_dulms_scraper_outside.
Qed.

End RunFacts.

(** ** Task states *)

Lemma snapshots_app evs1 evs2 : snapshots (evs1 ++ evs2) = snapshots evs1 ++ snapshots evs2.
Proof. unfold snapshots. apply omap_app. Qed.

Lemma snapshots_outside evs : Forall outside evs -> snapshots evs = [].
Proof.
  induction 1 as [|ev evs Hev _ IH]; [done|].
  unfold snapshots in *. cbn. rewrite IH. by destruct ev.
Qed.

(** C10. Run for an identifier that has no log queue, [run_scraper_task]
    writes the status [ERROR] and the result message "Log queue not found"
    for that identifier and returns: it starts no browser, the identifier is
    never [RUNNING], it still has no queue, and it now has a status and a
    result although [create_scraper_task] never issued it. *)
Theorem run_scraper_task_without_queue (st : Settings) (w : World)
    (task_id username password key : string) (webhook : option string) (reg : Registry) :
  task_queues reg !! task_id = None ->
  let run := run_scraper_task st w task_id username password key webhook in
  let reg' := final run reg in
  result run reg = Ret tt /\
  events run reg =
    [ Log ERROR ("Log queue not found for task " +:+ task_id);
      Wrote (set_status task_id TaskStatus.ERROR reg);
      Wrote reg' ] /\
  task_statuses reg' !! task_id = Some TaskStatus.ERROR /\
  task_results reg' !! task_id = Some (MessageOnly "Log queue not found") /\
  task_queues reg' !! task_id = None /\
  Forall (fun seen => task_statuses seen !! task_id = Some TaskStatus.ERROR)
    (snapshots (events run reg)).
Proof.
  intros Hqueue. cbv zeta.
  unfold result, final, events, run_scraper_task. unfold_monad. cbn. rewrite Hqueue. cbn.
  repeat split.
  - apply lookup_insert_eq.
  - apply lookup_insert_eq.
  - exact Hqueue.
  - repeat constructor; cbn; apply lookup_insert_eq.
Qed.

Lemma run_scraper_task_without_queue_witness :
  let run := run_scraper_task default_settings calm_world "t2" "u" "p" "k" None in
  task_statuses (final run example_registry) !! "t2" = Some TaskStatus.ERROR /\
  task_results (final run example_registry) !! "t2" = Some (MessageOnly "Log queue not found").
Proof.
  destruct (run_scraper_task_without_queue default_settings calm_world "t2" "u" "p" "k" None
              example_registry) as (_ & _ & Hstatus & Hresult & _).
  - vm_compute. reflexivity.
  - split; [exact Hstatus | exact Hresult].
Defined.

Section TaskLife.

Context (st : Settings) (w : World).
Context (task_id username password key : string) (webhook : option string).

(** One execution of a task that has a queue, write by write. *)
Lemma run_scraper_task_with_queue reg q :
  task_queues reg !! task_id = Some q ->
  exists r evs entry line,
    Forall outside evs /\
    result (run_dulms_scraper st w username password key webhook) reg = Ret r /\
    let running := set_status task_id TaskStatus.RUNNING reg in
    let stored := set_result task_id (ScrapeData r) running in
    let ended :=
      set_status task_id (if success r then TaskStatus.COMPLETED else TaskStatus.ERROR)
        stored in
    let logged := queue_put task_id entry ended in
    run_scraper_task st w task_id username password key webhook reg =
      (Ret tt, logged,
       [Wrote running; Log INFO ("Starting background task for task_id: " +:+ task_id)]
         ++ evs ++ [Wrote stored; Wrote ended; Wrote logged; line]) /\
    outside line.
Proof.
  intros Hqueue.
  destruct (run_dulms_scraper_run st w username password key webhook
              (set_status task_id TaskStatus.RUNNING reg)) as (r & evs & Hrun & Hout).
  assert (result (run_dulms_scraper st w username password key webhook) reg = Ret r) as Hres.
  { unfold run_dulms_scraper, result in *. unfold call in *.
    destruct (try_finally _ _ _) as [[? ?] ?]. by inversion Hrun. }
  unfold run_scraper_task. unfold_monad. cbn. rewrite Hqueue. cbn.
  unfold run_dulms_scraper, call in Hrun |- *.
  destruct (try_finally _ _ _) as [[o l] t]. inversion Hrun; subst o t. clear Hrun.
  exists r, evs. destruct (success r) eqn:Hsuccess; cbn.
  - eexists _, _. split; [exact Hout|]. split; [first [exact Hres | reflexivity]|].
    split; [rewrite ?Hsuccess; cbn; rewrite <- ?app_assoc; reflexivity | exact I].
  - eexists _, _. split; [exact Hout|]. split; [first [exact Hres | reflexivity]|].
    split; [rewrite ?Hsuccess; cbn; rewrite <- ?app_assoc; reflexivity | exact I].
Qed.

(** A task from its creation to the end of its execution, write by write. *)
Lemma task_session_run reg :
  exists r evs entry line,
    Forall outside evs /\ outside line /\
    let queued := set_queue task_id [] reg in
    let pending := set_status task_id TaskStatus.PENDING queued in
    let running := set_status task_id TaskStatus.RUNNING pending in
    let stored := set_result task_id (ScrapeData r) running in
    let ended :=
      set_status task_id (if success r then TaskStatus.COMPLETED else TaskStatus.ERROR)
        stored in
    let logged := queue_put task_id entry ended in
    create_scraper_task task_id username password key webhook reg =
      (Ret task_id, pending,
       [Wrote queued; Wrote pending; Log INFO ("Created scraper task with ID: " +:+ task_id)]) /\
    final (task_session st w task_id username password key webhook) reg = logged /\
    snapshots (events (task_session st w task_id username password key webhook) reg) =
      [queued; pending; running; stored; ended; logged].
Proof.
  destruct (run_scraper_task_with_queue
              (set_status task_id TaskStatus.PENDING (set_queue task_id [] reg)) [])
    as (r & evs & entry & line & Hout & _ & Hrun & Hline).
  { cbn. apply lookup_insert_eq. }
  exists r, evs, entry, line. split; [exact Hout|]. split; [exact Hline|].
  cbv zeta in Hrun |- *. split; [reflexivity|].
  unfold task_session, final, events, bind.
  change (create_scraper_task task_id username password key webhook reg)
    with (Ret task_id, set_status task_id TaskStatus.PENDING (set_queue task_id [] reg),
          [Wrote (set_queue task_id [] reg);
           Wrote (set_status task_id TaskStatus.PENDING (set_queue task_id [] reg));
           Log INFO ("Created scraper task with ID: " +:+ task_id)]).
  cbv beta iota. rewrite Hrun. cbn [fst snd]. split; [reflexivity|].
  rewrite !snapshots_app, (snapshots_outside evs Hout).
  destruct line; try done.
Qed.

End TaskLife.

Ltac lookups :=
  cbn [task_statuses task_results task_queues set_status set_result set_queue queue_put];
  rewrite ?lookup_insert_eq.

(** C3. A task created by [create_scraper_task] under a fresh identifier
    and run once by [run_scraper_task] shows the statuses [PENDING], then
    [RUNNING], then one of [COMPLETED] and [ERROR], in that order and no
    other; the last one is the status it keeps. *)
Theorem task_status_sequence (st : Settings) (w : World)
    (task_id username password key : string) (webhook : option string) (reg : Registry) :
  task_statuses reg !! task_id = None ->
  let session := task_session st w task_id username password key webhook in
  exists last,
    (last = TaskStatus.COMPLETED \/ last = TaskStatus.ERROR) /\
    status_sequence task_id (events session reg)
      = [TaskStatus.PENDING; TaskStatus.RUNNING; last] /\
    result (get_task_status task_id) (final session reg) = Ret (Some last).
Proof.
  intros Hfresh. cbv zeta.
  destruct (task_session_run st w task_id username password key webhook reg)
    as (r & evs & entry & line & _ & _ & _ & Hfinal & Hseen).
  unfold status_sequence. rewrite Hseen, Hfinal. cbn [omap list_omap]. lookups.
  rewrite Hfresh. unfold get_task_status, result. unfold_monad. cbn [fst snd]. lookups.
  destruct (success r).
  - exists TaskStatus.COMPLETED. split; [by left|]. split; reflexivity.
  - exists TaskStatus.ERROR. split; [by right|]. split; reflexivity.
Qed.

Lemma task_status_sequence_witness :
  status_sequence "t1"
    (events (task_session default_settings calm_world "t1" "u" "p" "k" example_webhook)
       empty_registry)
  = [TaskStatus.PENDING; TaskStatus.RUNNING; TaskStatus.COMPLETED].
Proof.
  destruct (task_status_sequence default_settings calm_world "t1" "u" "p" "k" example_webhook
              empty_registry) as (last & _ & Hsequence & Hlast).
  - vm_compute. reflexivity.
  - rewrite Hsequence. vm_compute in Hlast. by inversion Hlast.
Defined.

(** C2, as stated, fails: [run_scraper_task] writes [task_results[task_id]]
    first and the final status after it, so the registry in which the result
    has just been stored shows that result while the status is [RUNNING]. *)
Lemma task_result_while_running :
  let session := task_session default_settings calm_world "t1" "u" "p" "k" None in
  exists seen,
    In seen (snapshots (events session empty_registry)) /\
    result (get_task_status "t1") seen = Ret (Some TaskStatus.RUNNING) /\
    populated "t1" seen /\
    ~ (populated "t1" seen <-> terminal "t1" seen).
Proof.
  cbv zeta.
  destruct (task_session_run default_settings calm_world "t1" "u" "p" "k" None empty_registry)
    as (r & evs & entry & line & _ & _ & _ & _ & Hseen).
  cbv zeta in Hseen. rewrite Hseen.
  eexists. split; [do 3 right; left; reflexivity|].
  unfold populated, terminal, get_task_result, get_task_status, result.
  unfold_monad. cbn [fst snd]. lookups.
  split; [reflexivity|]. split; [by eexists|].
  intros [Hterminal _]. destruct Hterminal as [[=]|[=]]. by eexists.
Qed.

(** C2. For a task created under a fresh identifier and run once: once
    created it has neither a result nor a terminal status, and once run it
    has both. The registries seen in between fall in three parts: first
    those with no result and no terminal status; then exactly one, written
    when the result is stored, that has the result while the status is
    still [RUNNING]; then those with both the result and the terminal
    status. So a terminal status always comes with a result, and a result is
    never there while the status is [PENDING]. *)
Theorem task_result_stored_before_terminal (st : Settings) (w : World)
    (task_id username password key : string) (webhook : option string) (reg : Registry) :
  task_statuses reg !! task_id = None ->
  task_results reg !! task_id = None ->
  let session := task_session st w task_id username password key webhook in
  let created := final (create_scraper_task task_id username password key webhook) reg in
  let finished := final session reg in
  (populated task_id created <-> terminal task_id created) /\
  ~ populated task_id created /\
  (populated task_id finished <-> terminal task_id finished) /\
  populated task_id finished /\
  Forall (fun seen => terminal task_id seen -> populated task_id seen)
    (snapshots (events session reg)) /\
  Forall (fun seen => populated task_id seen ->
                      result (get_task_status task_id) seen <> Ret (Some TaskStatus.PENDING))
    (snapshots (events session reg)) /\
  exists before stored after,
    snapshots (events session reg) = before ++ stored :: after /\
    Forall (fun seen => ~ populated task_id seen /\ ~ terminal task_id seen) before /\
    populated task_id stored /\
    result (get_task_status task_id) stored = Ret (Some TaskStatus.RUNNING) /\
    after <> [] /\
    Forall (fun seen => populated task_id seen /\ terminal task_id seen) after.
Proof.
  intros Hstatus Hresult. cbv zeta.
  destruct (task_session_run st w task_id username password key webhook reg)
    as (r & evs & entry & line & _ & _ & Hcreate & Hfinal & Hseen).
  cbv zeta in Hcreate. rewrite Hseen, Hfinal. unfold final at 1 2 3. rewrite Hcreate.
  cbn [fst snd].
  assert (forall d : ResultData, Ret (@None ResultData) <> Ret (Some d)) as Hnone by done.
  split; [|split; [|split; [|split; [|split; [|split]]]]].
  7: {
    eexists [_; _; _], _, [_; _]. split; [reflexivity|].
    unfold populated, terminal, get_task_result, get_task_status, result.
    unfold_monad. cbn [fst snd].
    split; [|split; [|split; [|split]]].
    - repeat first [apply List.Forall_nil | apply List.Forall_cons];
        lookups; rewrite ?Hstatus, ?Hresult;
        (split; [intros [d Hd]; by apply Hnone in Hd | by intros [[=]|[=]]]).
    - lookups. by eexists.
    - lookups. reflexivity.
    - done.
    - repeat first [apply List.Forall_nil | apply List.Forall_cons];
        lookups; (split; [by eexists | destruct (success r); [by left | by right]]). }
  all: unfold populated, terminal, get_task_result, get_task_status, result;
    unfold_monad; cbn [fst snd]; lookups; rewrite ?Hresult.
  - split; [intros [d Hd]; by apply Hnone in Hd | intros [[=]|[=]]].
  - intros [d Hd]. by apply Hnone in Hd.
  - split; [intros _; destruct (success r); [by left | by right] | intros _; by eexists].
  - by eexists.
  - repeat constructor; lookups; rewrite ?Hstatus, ?Hresult;
      first [ intros _; by eexists | by intros [[=]|[=]] ].
  - repeat constructor; lookups; rewrite ?Hstatus, ?Hresult;
      first [ intros [d Hd]; by apply Hnone in Hd
            | by intros _; destruct (success r); intros [=]
            | by intros _ [=] ].
Qed.

Lemma task_result_stored_before_terminal_witness :
  let session := task_session default_settings stubborn_world "t1" "u" "p" "k" None in
  populated "t1" (final session empty_registry) /\
  terminal "t1" (final session empty_registry).
Proof.
  destruct (task_result_stored_before_terminal default_settings stubborn_world "t1" "u" "p" "k"
              None empty_registry) as (_ & _ & Hiff & Hpopulated & _).
  - vm_compute. reflexivity.
  - vm_compute. reflexivity.
  - split; [exact Hpopulated | by apply Hiff].
Defined.

(** ** Scraping a listing *)

Ltac paths_eqn :=
  unfold_monad; cbn;
  repeat match goal with
    | |- context [match ?x with _ => _ end] =>
        lazymatch x with
        | context [match _ with _ => _ end] => fail
        | _ => destruct x eqn:?; cbn
        end
    end.

Section Scraping.

Context (w : World) (k : ListingKind) (now : Z).

(** A row never raises, and what it adds does not depend on what the list
    already holds. *)
Lemma scrape_row_run row items :
  result (scrape_row w k now row) items = Ret tt /\
  final (scrape_row w k now row) items = items ++ row_items w k now row.
Proof.
  unfold row_items, result, final, scrape_row, index, safe_find_element.
  paths; rewrite ?app_nil_r; done.
Qed.

Lemma scrape_rows_run rows items :
  result (for_each rows (scrape_row w k now)) items = Ret tt /\
  final (for_each rows (scrape_row w k now)) items
    = items ++ concat (map (row_items w k now) rows).
Proof.
  revert items. induction rows as [|row rows IH]; intros items; cbn [for_each map concat].
  - split; [done | by rewrite app_nil_r].
  - rewrite result_bind, final_bind.
    destruct (scrape_row_run row items) as [-> ->].
    destruct (IH (items ++ row_items w k now row)) as [-> ->].
    split; [done | by rewrite app_assoc].
Qed.

Lemma row_items_short cells :
  (length cells < 6)%nat -> row_items w k now (Ret cells) = [].
Proof.
  intros Hshort.
  destruct cells as [|c0 [|c1 [|c2 [|c3 [|c4 [|c5 rest]]]]]]; cbn in Hshort;
    first [lia | reflexivity].
Qed.

Lemma row_items_fault e : row_items w k now (Raise e) = [].
Proof. reflexivity. Qed.

Lemma row_items_at_most_one row : (length (row_items w k now row) <= 1)%nat.
Proof.
  unfold row_items, final, scrape_row, index, safe_find_element.
  paths; cbn; lia.
Qed.

Lemma row_items_days row item :
  row_items w k now row = [item] ->
  match strptime_dmy w (deadline item) with
  | Ret parsed => days_remaining item = Some (timedelta_days parsed now)
  | Raise _ => days_remaining item = None
  end.
Proof.
  unfold row_items, final, scrape_row, index, safe_find_element.
  paths_eqn; intros [= <-]; cbn in *; congruence.
Qed.

(** A row adds a record exactly when it is readable. *)
Lemma row_items_readable row :
  if readable row then exists item, row_items w k now row = [item]
  else row_items w k now row = [].
Proof.
  destruct row as [[|c0 [|c1 [|c2 [|c3 [|c4 [|c5 rest]]]]]]|e]; try reflexivity.
  unfold readable, returned, row_items, final, scrape_row, index, safe_find_element.
  paths; eauto.
Qed.

Lemma rows_items_readable rows :
  length (concat (map (row_items w k now) rows)) = length (List.filter readable rows).
Proof.
  induction rows as [|row rows IH]; [reflexivity|].
  cbn [map concat List.filter]. rewrite length_app, IH.
  pose proof (row_items_readable row) as Hrow.
  destruct (readable row); [destruct Hrow as [item ->] | rewrite Hrow]; reflexivity.
Qed.

End Scraping.

Lemma scrape_listing_returns (w : World) k page : no_raise (scrape_listing w k page).
Proof.
  unfold scrape_listing. apply no_raise_try_except. intros e.
  apply no_raise_bind; [apply no_raise_log | intros _; apply no_raise_get].
Qed.

Lemma scrape_listing_rows (w : World) k page all_rows :
  listing_get page = Ret tt ->
  listing_table page = Visible (Ret all_rows) ->
  result (scrape_listing w k page) []
    = Ret (concat (map (row_items w k (listing_now page)) (drop 1 all_rows))).
Proof.
  intros Hget Htable.
  pose proof (scrape_rows_run w k (listing_now page) (drop 1 all_rows) []) as Hrows.
  revert Hrows.
  unfold scrape_listing, wait_for_element, result, final. rewrite Hget, Htable.
  unfold_monad. cbn.
  destruct (for_each (drop 1 all_rows) (scrape_row w k (listing_now page)) [])
    as [[o items] evs].
  cbn. intros [-> ->]. reflexivity.
Qed.

(** A readable row of a listing that opens has its record in what the
    scrape returns, whatever the other rows are; and there are as many
    records as readable rows. *)
Lemma scrape_listing_keeps (w : World) k page all_rows row :
  listing_get page = Ret tt ->
  listing_table page = Visible (Ret all_rows) ->
  In row (drop 1 all_rows) ->
  readable row = true ->
  exists item items,
    result (scrape_listing w k page) [] = Ret items /\
    row_items w k (listing_now page) row = [item] /\
    In item items /\
    match strptime_dmy w (deadline item) with
    | Ret parsed => days_remaining item = Some (timedelta_days parsed (listing_now page))
    | Raise _ => days_remaining item = None
    end /\
    length items = length (List.filter readable (drop 1 all_rows)).
Proof.
  intros Hget Htable Hin Hreadable.
  pose proof (row_items_readable w k (listing_now page) row) as Hrow.
  rewrite Hreadable in Hrow. destruct Hrow as [item Hrow].
  exists item. eexists. split; [by apply scrape_listing_rows|].
  split; [exact Hrow|]. split; [|split].
  - apply in_concat. exists [item]. split; [|by left].
    rewrite <- Hrow. by apply in_map.
  - by apply (row_items_days w k (listing_now page) row).
  - apply rows_items_readable.
Qed.

(** C8. While a listing is scraped, every row is handled on its own: the
    records returned are those of the first row, then those of the second,
    and so on, a row contributing at most one record whatever the other rows
    do. A row with fewer than six cells contributes nothing, and so does a
    row that cannot be read; neither stops the scrape, which never raises.
    A readable row contributes exactly one record, also when its deadline
    does not parse: that record has [days_remaining = None], and a record
    whose deadline parses has the whole days from now to it. So the record
    of every readable row of the listing is among those returned, and there
    are as many records as readable rows. *)
Theorem scrape_rows_independent (w : World) :
  (exists items, result (scrape_assignments w) tt = Ret items) /\
  (exists items, result (scrape_quizzes w) tt = Ret items) /\
  (forall all_rows,
      listing_get (assignments_page w) = Ret tt ->
      listing_table (assignments_page w) = Visible (Ret all_rows) ->
      result (scrape_assignments w) tt
        = Ret (concat (map (row_items w assignment_kind (listing_now (assignments_page w)))
                         (drop 1 all_rows)))) /\
  (forall all_rows,
      listing_get (quizzes_page w) = Ret tt ->
      listing_table (quizzes_page w) = Visible (Ret all_rows) ->
      result (scrape_quizzes w) tt
        = Ret (concat (map (row_items w quiz_kind (listing_now (quizzes_page w)))
                         (drop 1 all_rows)))) /\
  (forall k now cells, (length cells < 6)%nat -> row_items w k now (Ret cells) = []) /\
  (forall k now e, row_items w k now (Raise e) = []) /\
  (forall k now row, (length (row_items w k now row) <= 1)%nat) /\
  (forall k now row item,
      row_items w k now row = [item] ->
      match strptime_dmy w (deadline item) with
      | Ret parsed => days_remaining item = Some (timedelta_days parsed now)
      | Raise _ => days_remaining item = None
      end) /\
  (forall k now row,
      readable row = true ->
      exists item,
        row_items w k now row = [item] /\
        match strptime_dmy w (deadline item) with
        | Ret parsed => days_remaining item = Some (timedelta_days parsed now)
        | Raise _ => days_remaining item = None
        end) /\
  (forall k now row, readable row = false -> row_items w k now row = []) /\
  (forall all_rows row,
      listing_get (assignments_page w) = Ret tt ->
      listing_table (assignments_page w) = Visible (Ret all_rows) ->
      In row (drop 1 all_rows) ->
      readable row = true ->
      exists item items,
        result (scrape_assignments w) tt = Ret items /\
        row_items w assignment_kind (listing_now (assignments_page w)) row = [item] /\
        In item items /\
        match strptime_dmy w (deadline item) with
        | Ret parsed =>
            days_remaining item
              = Some (timedelta_days parsed (listing_now (assignments_page w)))
        | Raise _ => days_remaining item = None
        end /\
        length items = length (List.filter readable (drop 1 all_rows))) /\
  (forall all_rows row,
      listing_get (quizzes_page w) = Ret tt ->
      listing_table (quizzes_page w) = Visible (Ret all_rows) ->
      In row (drop 1 all_rows) ->
      readable row = true ->
      exists item items,
        result (scrape_quizzes w) tt = Ret items /\
        row_items w quiz_kind (listing_now (quizzes_page w)) row = [item] /\
        In item items /\
        match strptime_dmy w (deadline item) with
        | Ret parsed =>
            days_remaining item = Some (timedelta_days parsed (listing_now (quizzes_page w)))
        | Raise _ => days_remaining item = None
        end /\
        length items = length (List.filter readable (drop 1 all_rows))).
Proof.
  unfold scrape_assignments, scrape_quizzes. rewrite !result_call.
  split; [apply scrape_listing_returns|]. split; [apply scrape_listing_returns|].
  split; [intros all_rows; apply scrape_listing_rows|].
  split; [intros all_rows; apply scrape_listing_rows|].
  split; [intros k now cells; apply row_items_short|].
  split; [intros k now e; apply row_items_fault|].
  split; [intros k now row; apply row_items_at_most_one|].
  split; [intros k now row item; apply row_items_days|].
  split; [|split; [|split]].
  - intros k now row Hreadable.
    pose proof (row_items_readable w k now row) as Hrow.
    rewrite Hreadable in Hrow. destruct Hrow as [item Hrow].
    exists item. split; [exact Hrow | by apply (row_items_days w k now row)].
  - intros k now row Hreadable.
    pose proof (row_items_readable w k now row) as Hrow.
    by rewrite Hreadable in Hrow.
  - intros all_rows row. apply scrape_listing_keeps.
  - intros all_rows row. apply scrape_listing_keeps.
Qed.

Lemma scrape_rows_independent_witness :
  exists q1 q2 q3,
    result (scrape_quizzes calm_world) tt = Ret [q1; q2; q3] /\
    (id_ q1, days_remaining q1) = ("21", Some 29) /\
    (id_ q2, days_remaining q2) = ("22", None) /\
    (id_ q3, days_remaining q3) = ("25", Some 36).
Proof.
  destruct (scrape_rows_independent calm_world) as (_ & _ & _ & Hquizzes & _).
  specialize (Hquizzes _ eq_refl eq_refl).
  vm_compute in Hquizzes.
  eexists _, _, _. split; [exact Hquizzes|]. repeat split.
Defined.

(** ** Releasing the browser *)

Section Preserves.

Context {L : Type} (I : L -> Prop).

Lemma preserves_pure {A} (m : M L A) : (forall s, final m s = s) -> preserves I m.
Proof. intros Hm s Hs. by rewrite Hm. Qed.

Lemma preserves_modify f : (forall s, I s -> I (f s)) -> preserves I (modify f).
Proof. intros Hf s Hs. by apply Hf. Qed.

Lemma preserves_call {L' A} (m : M L' A) s0 : preserves I (@call L L' A m s0).
Proof. apply preserves_pure. intros s. apply final_call. Qed.

Lemma preserves_bind {A B} (m : M L A) (k : A -> M L B) :
  preserves I m -> (forall a, preserves I (k a)) -> preserves I (bind m k).
Proof.
  intros Hm Hk s Hs. rewrite final_bind. specialize (Hm s Hs).
  destruct (result m s); [by apply Hk | done].
Qed.

Lemma preserves_try_except {A} (m : M L A) h :
  preserves I m -> (forall e, preserves I (h e)) -> preserves I (try_except m h).
Proof.
  intros Hm Hh s Hs. rewrite final_try_except. specialize (Hm s Hs).
  destruct (result m s); [done | by apply Hh].
Qed.

End Preserves.

Ltac keep_step :=
  first
    [ apply preserves_call
    | apply preserves_bind; [|intros ?]
    | apply preserves_try_except; [|intros ?]
    | apply preserves_modify; intros ? ?; assumption
    | apply preserves_pure; reflexivity
    | match goal with
      | |- preserves _ (match ?x with _ => _ end) => destruct x
      | |- preserves _ (let _ := _ in _) => cbv zeta
      end ].

Section Release.

Context (st : Settings) (w : World).
Context (username password key : string) (webhook : option string).

Lemma send_discord_webhook_pure {L} url content embeds (s : L) :
  final (send_discord_webhook w url content embeds) s = s.
Proof. unfold final, send_discord_webhook. paths; reflexivity. Qed.

Lemma notify_upcoming_keeps_driver d :
  preserves (fun l => driver l = d) (notify_upcoming st w webhook).
Proof.
  unfold notify_upcoming, format_discord_embeds_for_assignments,
    format_discord_embeds_for_quizzes.
  repeat first [ apply preserves_pure; apply send_discord_webhook_pure | keep_step ].
Qed.

Lemma run_dulms_scraper_except_keeps_driver d e :
  preserves (fun l => driver l = d) (run_dulms_scraper_except e).
Proof. unfold run_dulms_scraper_except. repeat keep_step. Qed.

Lemma run_dulms_scraper_session_keeps_driver d :
  preserves (fun l => driver l = d)
    (run_dulms_scraper_session st w username password key webhook).
Proof.
  unfold run_dulms_scraper_session, scrape_assignments, scrape_quizzes.
  repeat first [ apply notify_upcoming_keeps_driver | keep_step ].
Qed.

Lemma run_dulms_scraper_try_working :
  all_events working (run_dulms_scraper_try st w username password key webhook).
Proof.
  unfold run_dulms_scraper_try, run_dulms_scraper_session, scrape_assignments,
    scrape_quizzes.
  trace with
    first [ eapply all_events_impl; [|apply initialize_driver_opening]; by intros []
          | eapply all_events_impl; [|apply login_to_dulms_browsing]; by intros []
          | eapply all_events_impl; [|apply scrape_listing_browsing]; by intros []
          | eapply all_events_impl; [|apply notify_upcoming_posting]; by intros [] ].
Qed.

(** The browser did not start: the failure is the result, and nothing was
    done but trying to start it. *)
Lemma run_dulms_scraper_unopened e :
  result (initialize_driver st w) tt = Raise e ->
  result (run_dulms_scraper st w username password key webhook) tt
    = Ret (set_message ("Scraper failed with error: " +:+ str_exn e)
             (result_dict (initial_locals w))) /\
  events (run_dulms_scraper st w username password key webhook) tt
    = events (initialize_driver st w) tt
        ++ [Log ERROR ("Scraper failed with error: " +:+ str_exn e)].
Proof.
  unfold result, events, run_dulms_scraper, run_dulms_scraper_try, run_dulms_scraper_except,
    run_dulms_scraper_finally.
  unfold_monad.
  destruct (initialize_driver st w tt) as [[o []] evs]. cbn. intros ->. cbn.
  by rewrite app_nil_r.
Qed.

(** The browser started: when the [try] statement is left, by a [return]
    or through the handler, [driver] holds it. *)
Lemma run_dulms_scraper_opened :
  result (initialize_driver st w) tt = Ret tt ->
  driver (final (try_except (run_dulms_scraper_try st w username password key webhook)
                   run_dulms_scraper_except) (initial_locals w)) = Some tt.
Proof.
  intros Hinit. rewrite final_try_except.
  assert (driver (final (run_dulms_scraper_try st w username password key webhook)
                    (initial_locals w)) = Some tt) as Htry.
  { unfold run_dulms_scraper_try. rewrite final_bind, result_call, Hinit, final_call.
    rewrite final_bind. cbn [result modify fst snd].
    apply run_dulms_scraper_session_keeps_driver. reflexivity. }
  destruct (result (run_dulms_scraper_try st w username password key webhook)
              (initial_locals w)); [exact Htry|].
  by apply run_dulms_scraper_except_keeps_driver.
Qed.

End Release.

Section ReleaseTheorem.

Context (st : Settings) (w : World).
Context (username password key : string) (webhook : option string).

Lemma run_dulms_scraper_finally_run l :
  driver l = Some tt ->
  exists line,
    events (run_dulms_scraper_finally w) l = [DriverQuit; line] /\
    match driver_quit w with
    | Ret _ => line = Log INFO "WebDriver closed successfully"
    | Raise e => line = Log ERROR ("Error closing WebDriver: " +:+ str_exn e)
    end.
Proof.
  intros Hdriver. unfold events, run_dulms_scraper_finally. unfold_monad. cbn.
  rewrite Hdriver. destruct (driver_quit w) as [[]|e]; cbn; eexists; split; reflexivity.
Qed.

Lemma run_dulms_scraper_fault e :
  result (run_dulms_scraper_try st w username password key webhook) (initial_locals w)
    = Raise e ->
  exists r,
    result (run_dulms_scraper st w username password key webhook) tt = Ret r /\
    success r = false /\
    message r = "Scraper failed with error: " +:+ str_exn e.
Proof.
  intros Hfault. unfold run_dulms_scraper.
  rewrite result_call, result_try_finally.
  destruct (run_dulms_scraper_finally_returns w
              (final (try_except (run_dulms_scraper_try st w username password key webhook)
                        run_dulms_scraper_except) (initial_locals w))) as [u ->].
  rewrite result_try_except, Hfault.
  eexists. split; [reflexivity|]. split; reflexivity.
Qed.

Lemma run_dulms_scraper_quits :
  result (initialize_driver st w) tt = Ret tt ->
  exists before line,
    events (run_dulms_scraper st w username password key webhook) tt
      = before ++ [DriverQuit; line] /\
    Forall working before /\
    match driver_quit w with
    | Ret _ => line = Log INFO "WebDriver closed successfully"
    | Raise e => line = Log ERROR ("Error closing WebDriver: " +:+ str_exn e)
    end.
Proof.
  intros Hinit. unfold run_dulms_scraper. rewrite events_call, events_try_finally.
  destruct (run_dulms_scraper_finally_run
              (final (try_except (run_dulms_scraper_try st w username password key webhook)
                        run_dulms_scraper_except) (initial_locals w)))
    as (line & -> & Hline).
  { by apply run_dulms_scraper_opened. }
  eexists _, line. split; [reflexivity|]. split; [|exact Hline].
  apply all_events_try_except.
  - apply run_dulms_scraper_try_working.
  - intros e. eapply all_events_impl; [|apply run_dulms_scraper_except_log].
    by intros ? (? & ? & ->).
Qed.

End ReleaseTheorem.

(** C4. [run_dulms_scraper] never raises. If the browser does not start,
    the result has [success = False] and a message that carries the cause,
    and nothing was done besides trying to start the browser and logging: no
    page was opened and no login attempted. A fault that escapes the [try]
    block at any later point gives a result with [success = False] and the
    fault in its message. If the browser started, it is closed exactly once,
    as the last thing done before the log line that follows, on every path;
    when closing fails, the failure is logged and the result is returned all
    the same. *)
Theorem run_dulms_scraper_releases (st : Settings) (w : World)
    (username password key : string) (webhook : option string) :
  let run := run_dulms_scraper (L := unit) st w username password key webhook in
  (exists r, result run tt = Ret r) /\
  (forall e,
      result (initialize_driver st w) tt = Raise e ->
      result run tt
        = Ret {| assignments := []; quizzes := []; result_timestamp := timestamp w;
                 success := false;
                 message := "Scraper failed with error: " +:+ str_exn e |} /\
      events run tt
        = events (initialize_driver st w) tt
            ++ [Log ERROR ("Scraper failed with error: " +:+ str_exn e)] /\
      Forall opening (events run tt)) /\
  (forall e,
      result (run_dulms_scraper_try st w username password key webhook) (initial_locals w)
        = Raise e ->
      exists r,
        result run tt = Ret r /\ success r = false /\
        message r = "Scraper failed with error: " +:+ str_exn e) /\
  (result (initialize_driver st w) tt = Ret tt ->
   exists before line,
     events run tt = before ++ [DriverQuit; line] /\
     Forall working before /\
     match driver_quit w with
     | Ret _ => line = Log INFO "WebDriver closed successfully"
     | Raise e => line = Log ERROR ("Error closing WebDriver: " +:+ str_exn e)
     end).
Proof.
  cbv zeta. split; [apply run_dulms_scraper_returns|]. split; [|split].
  - intros e Hinit.
    destruct (run_dulms_scraper_unopened st w username password key webhook e Hinit)
      as [Hresult Hevents].
    split; [exact Hresult|]. split; [exact Hevents|].
    rewrite Hevents. apply Forall_app. split; [apply initialize_driver_opening|].
    by repeat constructor.
  - apply run_dulms_scraper_fault.
  - apply run_dulms_scraper_quits.
Qed.

Lemma run_dulms_scraper_releases_witness :
  result (run_dulms_scraper default_settings driverless_world "u" "p" "k" None) tt
    = Ret {| assignments := []; quizzes := []; result_timestamp := "2026-11-03T10:00:00";
             success := false;
             message := "Scraper failed with error: session not created" |} /\
  (exists r,
      result (run_dulms_scraper default_settings rude_world "u" "p" "k" example_webhook) tt
        = Ret r /\
      success r = false /\
      message r = "Scraper failed with error: Invalid URL") /\
  (exists before,
      events (run_dulms_scraper default_settings clinging_world "u" "p" "k" None) tt
        = before ++ [DriverQuit; Log ERROR "Error closing WebDriver: invalid session id"]).
Proof.
  split; [|split].
  - destruct (run_dulms_scraper_releases default_settings driverless_world "u" "p" "k" None)
      as (_ & Hunopened & _).
    destruct (Hunopened (OtherException "session not created")) as (Hresult & _).
    + vm_compute. reflexivity.
    + exact Hresult.
  - destruct (run_dulms_scraper_releases default_settings rude_world "u" "p" "k"
                example_webhook) as (_ & _ & Hfault & _).
    apply (Hfault (OtherException "Invalid URL")). vm_compute. reflexivity.
  - destruct (run_dulms_scraper_releases default_settings clinging_world "u" "p" "k" None)
      as (_ & _ & _ & Hquits).
    destruct Hquits as (before & line & Hevents & _ & Hline).
    + vm_compute. reflexivity.
    + cbn in Hline. subst line. exists before. exact Hevents.
Defined.

(** ** Notifications *)

Lemma webhook_posts_app evs1 evs2 :
  webhook_posts (evs1 ++ evs2) = webhook_posts evs1 ++ webhook_posts evs2.
Proof. apply omap_app. Qed.

Lemma webhook_posts_none (P : Event -> Prop) evs :
  (forall url payload, ~ P (WebhookPost url payload)) ->
  Forall P evs -> webhook_posts evs = [].
Proof.
  intros HP. induction 1 as [|ev evs Hev _ IH]; [done|].
  unfold webhook_posts in *. cbn. rewrite IH.
  destruct ev; try done. by apply HP in Hev.
Qed.

Section Cards.

Context (k : ListingKind) (threshold : Z).

Lemma format_embeds_run items embeds :
  Forall (fun item => is_upcoming threshold item = true) items ->
  exists cards,
    for_each items (format_embed k) embeds = (Ret tt, embeds ++ cards, []) /\
    Forall2 (fun item e => card k item = Some e) items cards.
Proof.
  intros Hitems. revert embeds.
  induction Hitems as [|item items Hitem _ IH]; intros embeds; cbn [for_each].
  - exists []. split; [by rewrite app_nil_r | constructor].
  - unfold is_upcoming in Hitem.
    destruct (days_remaining item) as [days|] eqn:Hdays; [|done].
    destruct (card_run k item days Hdays) as (e & Hcard & Hrun & _).
    destruct (IH (embeds ++ [e])) as (cards & Hrest & Hcards).
    exists (e :: cards). split; [|by constructor].
    unfold bind. rewrite Hrun, Hrest. by rewrite <- app_assoc.
Qed.

Lemma format_discord_embeds_run items :
  Forall (fun item => is_upcoming threshold item = true) items ->
  exists cards,
    format_discord_embeds k items [] = (Ret cards, cards, []) /\
    Forall2 (fun item e => card k item = Some e) items cards.
Proof.
  intros Hitems. destruct (format_embeds_run items [] Hitems) as (cards & Hrun & Hcards).
  exists cards. split; [|exact Hcards].
  unfold format_discord_embeds, bind. rewrite Hrun. reflexivity.
Qed.

Lemma filter_upcoming items :
  Forall (fun item => is_upcoming threshold item = true)
    (List.filter (is_upcoming threshold) items).
Proof.
  apply Forall_forall. intros item Hin.
  by apply list_elem_of_In, filter_In in Hin as [_ ?].
Qed.

End Cards.

Section Notify.

Context (st : Settings) (w : World) (url : string).

Lemma send_discord_webhook_posts {L} content embeds (s : L) :
  url <> "" ->
  webhook_posts (events (send_discord_webhook w (Some url) content embeds) s)
    = [(url, {| payload_content := content;
                payload_embeds := match embeds with [] => None | _ => Some embeds end |})].
Proof.
  intros Hurl. unfold events, send_discord_webhook, truthy.
  destruct (String.eqb_spec url "") as [->|_]; [done|].
  paths; reflexivity.
Qed.

(** The notification step: nothing is posted when no record qualifies, and
    otherwise one post carries one card for every qualifying record. *)
Lemma notify_upcoming_posts l :
  url <> "" ->
  let upcoming_assignments :=
    List.filter (is_upcoming (DEADLINE_THRESHOLD_DAYS st)) (assignments (result_dict l)) in
  let upcoming_quizzes :=
    List.filter (is_upcoming (DEADLINE_THRESHOLD_DAYS st)) (quizzes (result_dict l)) in
  exists cards_a cards_q,
    Forall2 (fun item e => card assignment_kind item = Some e) upcoming_assignments cards_a /\
    Forall2 (fun item e => card quiz_kind item = Some e) upcoming_quizzes cards_q /\
    webhook_posts (events (notify_upcoming st w (Some url)) l) =
      match cards_a ++ cards_q with
      | [] => []
      | cards => [(url, {| payload_content := ALERT_CONTENT; payload_embeds := Some cards |})]
      end.
Proof.
  intros Hurl. cbv zeta.
  destruct (format_discord_embeds_run assignment_kind (DEADLINE_THRESHOLD_DAYS st) _
              (filter_upcoming (DEADLINE_THRESHOLD_DAYS st) (assignments (result_dict l))))
    as (cards_a & Hrun_a & Hcards_a).
  destruct (format_discord_embeds_run quiz_kind (DEADLINE_THRESHOLD_DAYS st) _
              (filter_upcoming (DEADLINE_THRESHOLD_DAYS st) (quizzes (result_dict l))))
    as (cards_q & Hrun_q & Hcards_q).
  exists cards_a, cards_q. split; [exact Hcards_a|]. split; [exact Hcards_q|].
  unfold notify_upcoming, truthy.
  destruct (String.eqb_spec url "") as [->|_]; [done|]. cbn [negb].
  rewrite events_bind. cbn [events result final get fst snd app].
  revert Hrun_a Hrun_q Hcards_a Hcards_q.
  generalize (List.filter (is_upcoming (DEADLINE_THRESHOLD_DAYS st))
                (assignments (result_dict l))).
  generalize (List.filter (is_upcoming (DEADLINE_THRESHOLD_DAYS st))
                (quizzes (result_dict l))).
  intros upcoming_q upcoming_a Hrun_a Hrun_q Hcards_a Hcards_q.
  unfold format_discord_embeds_for_assignments, format_discord_embeds_for_quizzes.
  destruct Hcards_a as [|item_a e_a rest_a more_a _ _];
    destruct Hcards_q as [|item_q e_q rest_q more_q _ _]; cbn [nonempty orb].
  1: reflexivity.
  all: unfold events, bind, call, ret; rewrite ?Hrun_a, ?Hrun_q; cbn [fst snd app].
  all: match goal with
       | |- context [send_discord_webhook w (Some url) ?content ?embeds ?s] =>
           pose proof (send_discord_webhook_posts content embeds s Hurl) as Hpost;
           unfold events in Hpost;
           destruct (send_discord_webhook w (Some url) content embeds s) as [[[?|?] ?] ?]
       end.
  all: cbn [fst snd] in *; rewrite ?app_nil_r; exact Hpost.
Qed.

End Notify.

Section NotifyRun.

Context (st : Settings) (w : World).
Context (username password key : string) (webhook : option string).

Lemma no_post_browsing url payload : ~ browsing (WebhookPost url payload).
Proof. intros []. Qed.

Lemma no_post_opening url payload : ~ opening (WebhookPost url payload).
Proof. intros []. Qed.

Lemma no_post_quitting url payload : ~ quitting (WebhookPost url payload).
Proof. intros []. Qed.

(** After a successful login the only posts are those of the notification
    step, which sees the two lists just scraped. *)
Lemma run_dulms_scraper_session_posts l scraped_a scraped_q :
  result (login_to_dulms st w username password key) tt = Ret true ->
  result (scrape_assignments w) tt = Ret scraped_a ->
  result (scrape_quizzes w) tt = Ret scraped_q ->
  exists l',
    assignments (result_dict l') = scraped_a /\
    quizzes (result_dict l') = scraped_q /\
    webhook_posts (events (run_dulms_scraper_session st w username password key webhook) l)
      = webhook_posts (events (notify_upcoming st w webhook) l').
Proof.
  intros Hlogin Hscraped_a Hscraped_q.
  pose proof (login_to_dulms_browsing st w username password key tt) as Hlogin_evs.
  pose proof (scrape_listing_browsing w assignment_kind (assignments_page w) []) as Ha_evs.
  pose proof (scrape_listing_browsing w quiz_kind (quizzes_page w) []) as Hq_evs.
  revert Hlogin Hscraped_a Hscraped_q Hlogin_evs Ha_evs Hq_evs.
  unfold run_dulms_scraper_session, scrape_assignments, scrape_quizzes, result, events.
  unfold bind, call, modify, get, ret.
  destruct (login_to_dulms st w username password key tt) as [[o1 s1] t1].
  destruct (scrape_listing w assignment_kind (assignments_page w) []) as [[o2 s2] t2].
  destruct (scrape_listing w quiz_kind (quizzes_page w) []) as [[o3 s3] t3].
  cbn [fst snd]. intros -> -> -> Ht1 Ht2 Ht3. cbn [negb app].
  exists (update_result (set_message "Scraping completed successfully")
            (update_result (set_success true)
               (update_result (set_quizzes scraped_q)
                  (update_result (set_assignments scraped_a) l)))).
  split; [|split]; cycle 2.
  - destruct (notify_upcoming st w webhook _) as [[[?|?] ?] evs]; cbn [snd];
      rewrite ?app_nil_r, !webhook_posts_app,
        (webhook_posts_none browsing t1 no_post_browsing Ht1),
        (webhook_posts_none browsing t2 no_post_browsing Ht2),
        (webhook_posts_none browsing t3 no_post_browsing Ht3); reflexivity.
  - reflexivity.
  - reflexivity.
Qed.

Lemma run_dulms_scraper_posts :
  result (initialize_driver st w) tt = Ret tt ->
  webhook_posts (events (run_dulms_scraper st w username password key webhook) tt)
    = webhook_posts
        (events (run_dulms_scraper_session st w username password key webhook)
           (set_driver (Some tt) (initial_locals w))).
Proof.
  intros Hinit.
  pose proof (initialize_driver_opening st w tt) as Hopening.
  pose proof (run_dulms_scraper_finally_quitting w) as Hquitting.
  pose proof (run_dulms_scraper_except_log) as Hexcept.
  revert Hinit Hopening. unfold run_dulms_scraper, run_dulms_scraper_try, result, events.
  unfold call, try_finally, try_except, bind, modify.
  destruct (initialize_driver st w tt) as [[o1 s1] t1]. cbn [fst snd]. intros -> Ht1.
  destruct (run_dulms_scraper_session st w username password key webhook _)
    as [[[r|e] l] evs]; cbn [fst snd app].
  - specialize (Hquitting l). unfold events in Hquitting.
    destruct (run_dulms_scraper_finally w l) as [[[?|?] ?] t3]; cbn [snd] in *;
      rewrite !webhook_posts_app, (webhook_posts_none opening t1 no_post_opening Ht1),
        (webhook_posts_none quitting t3 no_post_quitting Hquitting), app_nil_r; reflexivity.
  - specialize (Hexcept e l). unfold events in Hexcept.
    destruct (run_dulms_scraper_except e l) as [[o2 l2] t2]. cbn [snd] in Hexcept.
    specialize (Hquitting l2). unfold events in Hquitting.
    assert (webhook_posts t2 = []) as Ht2.
    { eapply (webhook_posts_none _ t2); [|exact Hexcept]. by intros ? ? (? & ? & ?). }
    destruct (run_dulms_scraper_finally w l2) as [[[?|?] ?] t3]; cbn [snd] in *;
      rewrite !webhook_posts_app, Ht2, (webhook_posts_none opening t1 no_post_opening Ht1),
        (webhook_posts_none quitting t3 no_post_quitting Hquitting), !app_nil_r; reflexivity.
Qed.

End NotifyRun.

(** C7. With a webhook configured, the browser started and the login
    successful: when no scraped assignment and no scraped quiz qualifies,
    [run_dulms_scraper] posts nothing to the webhook; otherwise it posts
    exactly once, and the payload carries the cards of the qualifying
    assignments followed by those of the qualifying quizzes, one card for
    each qualifying record and in the same order. So five assignments of
    which two qualify, and no qualifying quiz, give one post with two
    assignment cards and no quiz card. *)
Theorem notification_posts (st : Settings) (w : World)
    (username password key url : string) (scraped_a scraped_q : list Item) :
  url <> "" ->
  result (initialize_driver st w) tt = Ret tt ->
  result (login_to_dulms st w username password key) tt = Ret true ->
  result (scrape_assignments w) tt = Ret scraped_a ->
  result (scrape_quizzes w) tt = Ret scraped_q ->
  let upcoming_a := List.filter (is_upcoming (DEADLINE_THRESHOLD_DAYS st)) scraped_a in
  let upcoming_q := List.filter (is_upcoming (DEADLINE_THRESHOLD_DAYS st)) scraped_q in
  let posts :=
    webhook_posts (events (run_dulms_scraper st w username password key (Some url)) tt) in
  exists cards_a cards_q,
    Forall2 (fun item e => card assignment_kind item = Some e) upcoming_a cards_a /\
    Forall2 (fun item e => card quiz_kind item = Some e) upcoming_q cards_q /\
    length cards_a = length upcoming_a /\
    length cards_q = length upcoming_q /\
    (upcoming_a = [] -> upcoming_q = [] -> posts = []) /\
    (upcoming_a <> [] \/ upcoming_q <> [] ->
     posts = [(url, {| payload_content := ALERT_CONTENT;
                       payload_embeds := Some (cards_a ++ cards_q) |})]).
Proof.
  intros Hurl Hinit Hlogin Hscraped_a Hscraped_q. cbv zeta.
  rewrite (run_dulms_scraper_posts st w username password key (Some url) Hinit).
  destruct (run_dulms_scraper_session_posts st w username password key (Some url)
              (set_driver (Some tt) (initial_locals w)) scraped_a scraped_q
              Hlogin Hscraped_a Hscraped_q) as (l' & Ha & Hq & ->).
  destruct (notify_upcoming_posts st w url l' Hurl) as (cards_a & cards_q & Hcards_a & Hcards_q & ->).
  rewrite Ha in Hcards_a. rewrite Hq in Hcards_q.
  exists cards_a, cards_q. split; [exact Hcards_a|]. split; [exact Hcards_q|].
  pose proof (Forall2_length _ _ _ Hcards_a) as Hlen_a.
  pose proof (Forall2_length _ _ _ Hcards_q) as Hlen_q.
  split; [done|]. split; [done|]. split.
  - intros Hno_a Hno_q. rewrite Hno_a in Hlen_a. rewrite Hno_q in Hlen_q.
    destruct cards_a; [|done]. destruct cards_q; [|done]. reflexivity.
  - intros Hsome. destruct (cards_a ++ cards_q) as [|e cards] eqn:Hcards; [|reflexivity].
    apply app_eq_nil in Hcards as [-> ->].
    destruct Hsome as [Hsome|Hsome]; exfalso; apply Hsome.
    + by apply length_zero_iff_nil.
    + by apply length_zero_iff_nil.
Qed.

Lemma notification_posts_witness :
  exists scraped_a cards,
    result (scrape_assignments calm_world) tt = Ret scraped_a /\
    length scraped_a = 5%nat /\
    length (List.filter (is_upcoming 3) scraped_a) = 2%nat /\
    webhook_posts
      (events (run_dulms_scraper default_settings calm_world "u" "p" "k"
                 (Some "https://discord.com/api/webhooks/1/abc")) tt)
    = [("https://discord.com/api/webhooks/1/abc",
        {| payload_content := ALERT_CONTENT; payload_embeds := Some cards |})] /\
    length cards = 2%nat.
Proof.
  assert (exists scraped_a, result (scrape_assignments calm_world) tt = Ret scraped_a /\
            length scraped_a = 5%nat /\
            length (List.filter (is_upcoming 3) scraped_a) = 2%nat)
    as (scraped_a & Hscraped_a & Hfive & Htwo).
  { eexists. split; [vm_compute; reflexivity|]. split; reflexivity. }
  assert (exists scraped_q, result (scrape_quizzes calm_world) tt = Ret scraped_q /\
            List.filter (is_upcoming 3) scraped_q = [])
    as (scraped_q & Hscraped_q & Hnone).
  { eexists. split; [vm_compute; reflexivity|]. reflexivity. }
  destruct (notification_posts default_settings calm_world "u" "p" "k"
              "https://discord.com/api/webhooks/1/abc" scraped_a scraped_q)
    as (cards_a & cards_q & _ & _ & Hlen_a & Hlen_q & _ & Hposts);
    [done | vm_compute; reflexivity | vm_compute; reflexivity | exact Hscraped_a
    | exact Hscraped_q |].
  change (DEADLINE_THRESHOLD_DAYS default_settings) with 3 in *.
  rewrite Hnone in Hlen_q. destruct cards_q; [|done].
  exists scraped_a, cards_a. split; [exact Hscraped_a|]. split; [exact Hfive|].
  split; [exact Htwo|]. split.
  - rewrite Hposts, ?app_nil_r; [reflexivity|]. left. intros Hempty.
    rewrite Hempty in Htwo. done.
  - by rewrite Hlen_a.
Defined.

(** * Further properties *)

(** ** Starting the browser *)

(** X1. [initialize_driver] returns the driver exactly when the driver file
    is there and the browser starts. When the file is missing it raises
    without ever trying to start the browser; when the browser fails to
    start it raises the very exception the browser raised, after one try. *)
Theorem initialize_driver_outcomes (st : Settings) (w : World) :
  let init := initialize_driver (L := unit) st w in
  (result init tt = Ret tt <-> driver_is_file w = true /\ edge_start w = Ret tt) /\
  (driver_is_file w = false ->
   result init tt
     = Raise (OtherException ("WebDriver executable not found at: " +:+ DRIVER_PATH st)) /\
   count is_open (events init tt) = 0%nat) /\
  (forall e, driver_is_file w = true -> edge_start w = Raise e ->
             result init tt = Raise e /\ count is_open (events init tt) = 1%nat).
Proof.
  cbv zeta. unfold result, events, count, initialize_driver. unfold_monad. cbn.
  destruct (driver_is_file w); destruct (edge_start w) as [[]|e]; cbn.
  all: repeat split; try done; try (by intros [? ?]); try (by intros ? ? [= <-]).
Qed.

Lemma initialize_driver_outcomes_witness :
  result (initialize_driver default_settings driverless_world) tt
    = Raise (OtherException "session not created") /\
  count is_open (events (initialize_driver default_settings driverless_world) tt) = 1%nat.
Proof.
  destruct (initialize_driver_outcomes default_settings driverless_world)
    as (_ & _ & Hstart).
  apply Hstart; reflexivity.
Defined.

(** ** The CAPTCHA image and its solution *)

Lemma upto_comma_no_comma data : no_comma data = true -> upto_comma data = data.
Proof.
  induction data as [|d data IH]; cbn; [done|]. intros Hdata.
  apply andb_true_iff in Hdata as [Hd Hdata]. apply negb_true_iff in Hd.
  rewrite Hd. f_equal. by apply IH.
Qed.

Lemma split_comma_1_data_url prefix data :
  no_comma prefix = true -> no_comma data = true ->
  split_comma_1 (prefix +:+ "," +:+ data) = Some data.
Proof.
  intros Hprefix Hdata. induction prefix as [|c prefix IH].
  - change (split_comma_1 (String "," data) = Some data). cbn.
    f_equal. by apply upto_comma_no_comma.
  - change (split_comma_1 (String c (prefix +:+ "," +:+ data)) = Some data). cbn.
    cbn in Hprefix. apply andb_true_iff in Hprefix as [Hc Hprefix].
    apply negb_true_iff in Hc. rewrite Hc. by apply IH.
Qed.

(** X2. [get_captcha_image] never raises. It returns an image exactly when
    the [src] of the CAPTCHA element starts with "data:image", has a comma,
    and what stands between the first comma and the next one decodes; for a
    data URL with a single comma that is everything after the comma. In
    every other case it returns [None]. *)
Theorem get_captcha_image_outcomes (r : CaptchaRound) :
  (exists o, result (get_captcha_image r) tt = Ret o) /\
  (forall img,
      result (get_captcha_image r) tt = Ret (Some img) <->
      exists src data,
        captcha_src r = Ret (Some src) /\
        startswith src "data:image" = true /\
        split_comma_1 src = Some data /\
        captcha_decode r data = Ret img) /\
  (forall prefix data,
      no_comma prefix = true -> no_comma data = true ->
      split_comma_1 (prefix +:+ "," +:+ data) = Some data).
Proof.
  split; [|split; [|apply split_comma_1_data_url]].
  - unfold result, get_captcha_image. paths; by eexists.
  - intros img. unfold result, get_captcha_image. unfold_monad. cbn.
    destruct (captcha_src r) as [[src|]|e]; cbn.
    + destruct (String.eqb src "") eqn:Hempty; cbn.
      { apply String.eqb_eq in Hempty as ->. split; [done|].
        intros (src & data & [= <-] & Hstart & _). done. }
      destruct (startswith src "data:image") eqn:Hstart; cbn.
      * destruct (split_comma_1 src) as [data|] eqn:Hsplit; cbn.
        -- destruct (captcha_decode r data) as [decoded|e] eqn:Hdecode; cbn.
           ++ split.
              ** intros [= <-]. by exists src, data.
              ** intros (src' & data' & [= <-] & _ & Hsplit' & Hdecode').
                 rewrite Hsplit in Hsplit'. injection Hsplit' as <-.
                 rewrite Hdecode in Hdecode'. by injection Hdecode' as <-.
           ++ split; [done|].
              intros (src' & data' & [= <-] & _ & Hsplit' & Hdecode').
              rewrite Hsplit in Hsplit'. injection Hsplit' as <-. congruence.
        -- split; [done|]. intros (src' & data' & [= <-] & _ & Hsplit' & _). congruence.
      * split; [done|]. intros (src' & data' & [= <-] & Hstart' & _). congruence.
    + split; [done|]. intros (src' & data' & [=] & _).
    + split; [done|]. intros (src' & data' & [=] & _).
Qed.

Lemma get_captcha_image_outcomes_witness :
  result (get_captcha_image accepted_round) tt
    = Ret (Some {| image_bytes := "iVBORw0KGgo=" |}).
Proof.
  destruct (get_captcha_image_outcomes accepted_round) as (_ & Hiff & Hsplit).
  apply Hiff. exists "data:image/png;base64,iVBORw0KGgo=", "iVBORw0KGgo=".
  split; [reflexivity|]. split; [reflexivity|]. split; [|reflexivity].
  apply (Hsplit "data:image/png;base64" "iVBORw0KGgo="); reflexivity.
Defined.

(** X3. [solve_captcha] never raises and submits to the solving service at
    most once, with the key it was given. It returns a text exactly when it
    was given an image, the image could be saved, and the reply held a
    solution text; without an image, or when the image cannot be saved,
    nothing is submitted at all. *)
Theorem solve_captcha_outcomes (r : CaptchaRound) (img : option Image) (api_key : string) :
  let solve := solve_captcha (L := unit) r img api_key in
  (exists o, result solve tt = Ret o) /\
  (forall text,
      result solve tt = Ret (Some text) <->
      is_Some img /\ image_save r = Ret tt /\
      exists reply, solver_reply r = Ret reply /\ reply_text reply = Some text) /\
  (solver_posts (events solve tt) <= 1)%nat /\
  Forall (fun ev => forall k, ev = SolverPost k -> k = api_key) (events solve tt) /\
  (img = None \/ (exists e, image_save r = Raise e) -> solver_posts (events solve tt) = 0%nat).
Proof.
  cbv zeta. unfold result, events, solver_posts, count, solve_captcha. unfold_monad.
  destruct img as [img|]; cbn.
  - destruct (image_save r) as [[]|e]; cbn.
    + destruct (solver_reply r) as [reply|e]; cbn.
      * destruct (reply_text reply) as [text|] eqn:Htext; cbn.
        -- split; [by eexists|]. split; [|split; [lia|split]].
           ++ intros text'. split.
              ** intros [= <-]. split; [by eexists|]. split; [done|]. by exists reply.
              ** intros (_ & _ & reply' & [= <-] & Htext'). congruence.
           ++ repeat constructor; by intros ? [=].
           ++ intros [[=]|[e [=]]].
        -- split; [by eexists|]. split; [|split; [lia|split]].
           ++ intros text'. split; [done|].
              intros (_ & _ & reply' & [= <-] & Htext'). congruence.
           ++ repeat constructor; by intros ? [=].
           ++ intros [[=]|[e [=]]].
      * split; [by eexists|]. split; [|split; [lia|split]].
        -- intros text'. split; [done|]. intros (_ & _ & reply' & [=] & _).
        -- repeat constructor; by intros ? [=].
        -- intros [[=]|[e' [=]]].
    + split; [by eexists|]. split; [|split; [lia|split]].
      * intros text'. split; [done|]. intros (_ & [=] & _).
      * repeat constructor; by intros ? [=].
      * done.
  - split; [by eexists|]. split; [|split; [lia|split]].
    + intros text'. split; [done|]. intros ([? [=]] & _).
    + repeat constructor; by intros ? [=].
    + done.
Qed.

Lemma solve_captcha_outcomes_witness :
  result (solve_captcha accepted_round (Some {| image_bytes := "iVBORw0KGgo=" |}) "k") tt
    = Ret (Some "x7k2p") /\
  solver_posts (events (solve_captcha accepted_round None "k") tt) = 0%nat.
Proof.
  split.
  - destruct (solve_captcha_outcomes accepted_round
                (Some {| image_bytes := "iVBORw0KGgo=" |}) "k") as (_ & Hiff & _).
    apply Hiff. split; [by eexists|]. split; [reflexivity|].
    eexists. split; reflexivity.
  - destruct (solve_captcha_outcomes accepted_round None "k") as (_ & _ & _ & _ & Hnone).
    apply Hnone. by left.
Defined.
(** ** The course of a login *)

Section LoginCourse.

Context (st : Settings) (w : World) (key : string).

(** The loop runs until the first iteration that does not end in
    [continue], and what that iteration does decides the loop. *)
Lemma captcha_loop_stops n a k :
  (k < n)%nat ->
  (forall i, (i < k)%nat -> result (captcha_attempt st w key (a + i)) tt = Ret Continue) ->
  result (captcha_attempt st w key (a + k)) tt <> Ret Continue ->
  solve_attempts (events (captcha_loop st w key n a) tt) = S k /\
  result (captcha_loop st w key n a) tt =
    match result (captcha_attempt st w key (a + k)) tt with
    | Ret (Return b) => Ret (Some b)
    | Ret _ => Ret None
    | Raise e => Raise e
    end.
Proof.
  revert n a. induction k as [|k IH]; intros n a Hk Hbefore Hstop;
    (destruct n as [|n]; [lia|]); cbn [captcha_loop];
    rewrite events_bind, result_bind; unfold solve_attempts; rewrite count_app;
    destruct (captcha_attempt_counts st w key a) as [Hone _];
    unfold solve_attempts in Hone; rewrite Hone;
    destruct (final (captcha_attempt st w key a) tt).
  - rewrite Nat.add_0_r in Hstop |- *.
    destruct (result (captcha_attempt st w key a) tt) as [[ | |b]|e]; try done.
  - pose proof (Hbefore 0%nat ltac:(lia)) as Hfirst. rewrite Nat.add_0_r in Hfirst.
    rewrite Hfirst.
    destruct (IH n (S a)) as [Hcount Hresult].
    + lia.
    + intros i Hi. replace (S a + i)%nat with (a + S i)%nat by lia. apply Hbefore. lia.
    + by replace (S a + k)%nat with (a + S k)%nat by lia.
    + replace (S a + k)%nat with (a + S k)%nat in Hresult by lia.
      unfold solve_attempts in Hcount. rewrite Hcount, Hresult. done.
Qed.

(** When every iteration ends in [continue], all of them run. *)
Lemma captcha_loop_exhausted n a :
  (forall i, (i < n)%nat -> result (captcha_attempt st w key (a + i)) tt = Ret Continue) ->
  solve_attempts (events (captcha_loop st w key n a) tt) = n /\
  result (captcha_loop st w key n a) tt = Ret None.
Proof.
  revert a. induction n as [|n IH]; intros a Hall; cbn [captcha_loop]; [done|].
  rewrite events_bind, result_bind. unfold solve_attempts. rewrite count_app.
  destruct (captcha_attempt_counts st w key a) as [Hone _].
  unfold solve_attempts in Hone. rewrite Hone.
  destruct (final (captcha_attempt st w key a) tt).
  pose proof (Hall 0%nat ltac:(lia)) as Hfirst. rewrite Nat.add_0_r in Hfirst.
  rewrite Hfirst.
  destruct (IH (S a)) as [Hcount Hresult].
  { intros i Hi. replace (S a + i)%nat with (a + S i)%nat by lia. apply Hall. lia. }
  unfold solve_attempts in Hcount. rewrite Hcount, Hresult. done.
Qed.

(** The loop as [login_to_dulms] sees it, once the form is filled. *)
Lemma login_to_dulms_after_form username password :
  login_get w = Ret tt ->
  credentials_entry w = Ret tt ->
  solve_attempts (events (login_to_dulms st w username password key) tt)
    = solve_attempts
        (events (captcha_loop st w key (Z.to_nat (CAPTCHA_SOLVE_RETRIES st)) 0) tt) /\
  result (login_to_dulms st w username password key) tt =
    match result (captcha_loop st w key (Z.to_nat (CAPTCHA_SOLVE_RETRIES st)) 0) tt with
    | Ret (Some b) => Ret b
    | _ => Ret false
    end.
Proof.
  intros Hget Hentry.
  unfold solve_attempts, count, events, result, login_to_dulms, wait_for_element.
  rewrite Hget, Hentry.
  generalize (Z.to_nat (CAPTCHA_SOLVE_RETRIES st)). intros n.
  paths; rewrite ?List.filter_app, ?length_app; cbn; split; first [lia | done].
Qed.

End LoginCourse.

(** X4. Once the login form is filled, [login_to_dulms] runs the CAPTCHA
    loop up to the first iteration that does not end in [continue]: if that
    is iteration [k] (counted from 0), exactly [k + 1] solve attempts are
    made, and the login succeeds exactly when that iteration found the
    success URL; a [break] or a fault in it gives [False] although attempts
    were left. If all iterations end in [continue], all
    [CAPTCHA_SOLVE_RETRIES] are made and the result is [False]. *)
Theorem login_stops_at_first_verdict (st : Settings) (w : World)
    (username password key : string) :
  login_get w = Ret tt ->
  credentials_entry w = Ret tt ->
  let login := login_to_dulms (L := unit) st w username password key in
  let retries := Z.to_nat (CAPTCHA_SOLVE_RETRIES st) in
  (forall k,
      (k < retries)%nat ->
      (forall i, (i < k)%nat -> result (captcha_attempt st w key i) tt = Ret Continue) ->
      result (captcha_attempt st w key k) tt <> Ret Continue ->
      solve_attempts (events login tt) = S k /\
      result login tt =
        match result (captcha_attempt st w key k) tt with
        | Ret (Return b) => Ret b
        | _ => Ret false
        end) /\
  ((forall i, (i < retries)%nat -> result (captcha_attempt st w key i) tt = Ret Continue) ->
   solve_attempts (events login tt) = retries /\ result login tt = Ret false).
Proof.
  intros Hget Hentry. cbv zeta.
  destruct (login_to_dulms_after_form st w key username password Hget Hentry)
    as [Hcount Hresult].
  rewrite Hcount, Hresult. split.
  - intros k Hk Hbefore Hstop.
    destruct (captcha_loop_stops st w key (Z.to_nat (CAPTCHA_SOLVE_RETRIES st)) 0 k Hk)
      as [Hattempts Hloop]; [exact Hbefore | exact Hstop |].
    cbn [Nat.add] in Hloop. rewrite Hattempts, Hloop. split; [done|].
    by destruct (result (captcha_attempt st w key k) tt) as [[ | |b]|e].
  - intros Hall.
    destruct (captcha_loop_exhausted st w key (Z.to_nat (CAPTCHA_SOLVE_RETRIES st)) 0 Hall)
      as [Hattempts Hloop].
    by rewrite Hattempts, Hloop.
Qed.

Lemma login_stops_at_first_verdict_witness :
  solve_attempts (events (login_to_dulms default_settings calm_world "u" "p" "k") tt) = 2%nat /\
  result (login_to_dulms default_settings calm_world "u" "p" "k") tt = Ret true.
Proof.
  destruct (login_stops_at_first_verdict default_settings calm_world "u" "p" "k"
              eq_refl eq_refl) as [Hstops _].
  destruct (Hstops 1%nat) as [Hcount Hresult].
  - vm_compute. lia.
  - intros i Hi. assert (i = 0%nat) as -> by lia. vm_compute. reflexivity.
  - vm_compute. discriminate.
  - split; [exact Hcount|]. rewrite Hresult. vm_compute. reflexivity.
Defined.

Section LoginVerdicts.

Context (st : Settings) (w : World) (key : string).

(** What an iteration that ends in [return True], or in [break], has seen. *)
Lemma captcha_attempt_verdicts attempt :
  let r := captcha_round w attempt in
  let evs := events (captcha_attempt st w key attempt) tt in
  (result (captcha_attempt st w key attempt) tt = Ret (Return true) ->
   (exists url, current_url r = Ret url /\ contains LOGIN_SUCCESS_URL_PART url = true) /\
   count is_submit evs = 1%nat /\ solver_posts evs = 1%nat) /\
  (result (captcha_attempt st w key attempt) tt = Ret Break ->
   exists lbl text,
     lblMessage r = Found lbl /\ is_displayed lbl = Ret true /\
     label_text lbl = Ret text /\ contains "CAPTCHA" text = false) /\
  result (captcha_attempt st w key attempt) tt <> Ret (Return false).
Proof.
  cbv zeta.
  unfold result, events, solver_posts, count, captcha_attempt, get_captcha_image,
    solve_captcha, safe_find_element.
  paths_eqn; (split; [|split]); try done; intros _; repeat split; eauto 10.
Qed.

Lemma captcha_loop_success n a :
  result (captcha_loop st w key n a) tt = Ret (Some true) ->
  (exists i, (a <= i < a + n)%nat /\
             result (captcha_attempt st w key i) tt = Ret (Return true)) /\
  (1 <= count is_submit (events (captcha_loop st w key n a) tt))%nat /\
  (1 <= solver_posts (events (captcha_loop st w key n a) tt))%nat.
Proof.
  revert a. induction n as [|n IH]; intros a; cbn [captcha_loop]; [done|].
  rewrite result_bind, events_bind. unfold solver_posts. rewrite !count_app.
  destruct (captcha_attempt_verdicts a) as (Htrue & _ & _). cbv zeta in Htrue.
  destruct (final (captcha_attempt st w key a) tt).
  destruct (result (captcha_attempt st w key a) tt) as [[ | |b]|e] eqn:Hattempt; try done.
  - intros Hrest. destruct (IH (S a) Hrest) as ((i & Hi & Hsuccess) & Hsubmit & Hposts).
    unfold solver_posts in Hposts.
    split; [exists i; split; [lia | done]|]. split; lia.
  - cbn. intros [= ->]. destruct (Htrue eq_refl) as (_ & Hsubmit & Hposts).
    unfold solver_posts in Hposts.
    split; [exists a; split; [lia | done]|]. split; lia.
Qed.

Lemma login_to_dulms_true_loop username password :
  result (login_to_dulms st w username password key) tt = Ret true ->
  let loop := captcha_loop st w key (Z.to_nat (CAPTCHA_SOLVE_RETRIES st)) 0 in
  result loop tt = Ret (Some true) /\
  (count is_submit (events loop tt)
   <= count is_submit (events (login_to_dulms st w username password key) tt))%nat /\
  (solver_posts (events loop tt)
   <= solver_posts (events (login_to_dulms st w username password key) tt))%nat.
Proof.
  cbv zeta.
  unfold solver_posts, count, events, result, login_to_dulms, wait_for_element.
  generalize (Z.to_nat (CAPTCHA_SOLVE_RETRIES st)). intros n.
  paths; intros [= ?]; subst; rewrite ?List.filter_app, ?length_app; cbn;
    split; first [done | split; lia].
Qed.

End LoginVerdicts.

(** X5. [login_to_dulms] returns [True] only if, in one of the iterations it
    was allowed, the page reached after submitting had the success marker in
    its URL; and then a solution was obtained from the solving service and
    the login form submitted at least once. It never reports a success it
    did not see. *)
Theorem login_success_was_seen (st : Settings) (w : World) (username password key : string) :
  result (login_to_dulms st w username password key) tt = Ret true ->
  (exists attempt url,
      (attempt < Z.to_nat (CAPTCHA_SOLVE_RETRIES st))%nat /\
      current_url (captcha_round w attempt) = Ret url /\
      contains LOGIN_SUCCESS_URL_PART url = true) /\
  (1 <= count is_submit (events (login_to_dulms st w username password key) tt))%nat /\
  (1 <= solver_posts (events (login_to_dulms st w username password key) tt))%nat.
Proof.
  intros Hlogin.
  destruct (login_to_dulms_true_loop st w key username password Hlogin)
    as (Hloop & Hsubmit & Hposts).
  destruct (captcha_loop_success st w key _ _ Hloop)
    as ((attempt & Hattempt & Hsuccess) & Hsubmit' & Hposts').
  destruct (captcha_attempt_verdicts st w key attempt) as (Htrue & _).
  destruct (Htrue Hsuccess) as ((url & Hurl & Hmarker) & _).
  split; [exists attempt, url; split; [lia | done]|]. split; lia.
Qed.

Lemma login_success_was_seen_witness :
  exists attempt url,
    (attempt < 3)%nat /\
    current_url (captcha_round calm_world attempt) = Ret url /\
    contains LOGIN_SUCCESS_URL_PART url = true.
Proof.
  destruct (login_success_was_seen default_settings calm_world "u" "p" "k")
    as ((attempt & url & Hattempt & Hurl & Hmarker) & _).
  - vm_compute. reflexivity.
  - exists attempt, url. split; [exact Hattempt|]. split; [exact Hurl | exact Hmarker].
Defined.

(** X6. When the login page cannot be opened, or the credential fields
    cannot be found and filled, [login_to_dulms] returns [False] without a
    single CAPTCHA attempt: nothing is sent to the solving service and the
    form is never submitted. *)
Theorem login_fails_before_captcha (st : Settings) (w : World)
    (username password key : string) (e : exn) :
  login_get w = Raise e \/ (login_get w = Ret tt /\ credentials_entry w = Raise e) ->
  let login := login_to_dulms (L := unit) st w username password key in
  result login tt = Ret false /\
  solve_attempts (events login tt) = 0%nat /\
  solver_posts (events login tt) = 0%nat /\
  count is_submit (events login tt) = 0%nat.
Proof.
  cbv zeta.
  unfold solve_attempts, solver_posts, count, events, result, login_to_dulms,
    wait_for_element.
  intros [Hget|[Hget Hentry]]; rewrite Hget, ?Hentry; paths; done.
Qed.

Lemma login_fails_before_captcha_witness :
  result (login_to_dulms default_settings offline_world "u" "p" "k") tt = Ret false /\
  solve_attempts (events (login_to_dulms default_settings offline_world "u" "p" "k") tt)
    = 0%nat.
Proof.
  destruct (login_fails_before_captcha default_settings offline_world "u" "p" "k"
              (OtherException "net::ERR_NAME_NOT_RESOLVED")) as (Hresult & Hattempts & _).
  - left. reflexivity.
  - split; [exact Hresult | exact Hattempts].
Defined.

(** ** The result of a run *)

Section RunResult.

Context (st : Settings) (w : World).
Context (username password key : string) (webhook : option string).

Lemma send_discord_webhook_result {L} url content embeds (s : L) :
  url <> "" ->
  result (send_discord_webhook w (Some url) content embeds) s =
    match webhook_post w with
    | Ret _ => Ret true
    | Raise (RequestException _) => Ret false
    | Raise (OtherException msg) => Raise (OtherException msg)
    end.
Proof.
  intros Hurl. unfold result, send_discord_webhook, truthy.
  destruct (String.eqb_spec url "") as [->|_]; [done|].
  paths; reflexivity.
Qed.

(** The notification step leaves the local variables alone, and raises only
    what a post to the webhook raised that was not a [RequestException]. *)
Lemma notify_upcoming_outcome l :
  let threshold := DEADLINE_THRESHOLD_DAYS st in
  final (notify_upcoming st w webhook) l = l /\
  result (notify_upcoming st w webhook) l =
    if truthy webhook
       && (nonempty (List.filter (is_upcoming threshold) (assignments (result_dict l)))
           || nonempty (List.filter (is_upcoming threshold) (quizzes (result_dict l))))
    then match webhook_post w with
         | Raise (OtherException msg) => Raise (OtherException msg)
         | _ => Ret tt
         end
    else Ret tt.
Proof.
  cbv zeta. split.
  { assert (preserves (fun l' => l' = l) (notify_upcoming st w webhook)) as Hkeep.
    { unfold notify_upcoming, format_discord_embeds_for_assignments,
        format_discord_embeds_for_quizzes.
      repeat first [ apply preserves_pure; apply send_discord_webhook_pure | keep_step ]. }
    by apply Hkeep. }
  destruct (format_discord_embeds_run assignment_kind (DEADLINE_THRESHOLD_DAYS st) _
              (filter_upcoming (DEADLINE_THRESHOLD_DAYS st) (assignments (result_dict l))))
    as (cards_a & Hrun_a & Hcards_a).
  destruct (format_discord_embeds_run quiz_kind (DEADLINE_THRESHOLD_DAYS st) _
              (filter_upcoming (DEADLINE_THRESHOLD_DAYS st) (quizzes (result_dict l))))
    as (cards_q & Hrun_q & Hcards_q).
  unfold notify_upcoming.
  destruct webhook as [url|]; [|reflexivity].
  unfold truthy. destruct (String.eqb_spec url "") as [->|Hurl]; [reflexivity|].
  cbn [negb andb]. rewrite result_bind. cbn [result final get fst snd].
  revert Hrun_a Hrun_q Hcards_a Hcards_q.
  generalize (List.filter (is_upcoming (DEADLINE_THRESHOLD_DAYS st))
                (assignments (result_dict l))).
  generalize (List.filter (is_upcoming (DEADLINE_THRESHOLD_DAYS st))
                (quizzes (result_dict l))).
  intros upcoming_q upcoming_a Hrun_a Hrun_q Hcards_a Hcards_q.
  unfold format_discord_embeds_for_assignments, format_discord_embeds_for_quizzes.
  destruct Hcards_a as [|item_a e_a rest_a more_a _ _];
    destruct Hcards_q as [|item_q e_q rest_q more_q _ _]; cbn [nonempty orb].
  1: reflexivity.
  all: unfold result, bind, call, ret; rewrite ?Hrun_a, ?Hrun_q; cbn [fst snd app].
  all: lazymatch goal with
       | |- context [send_discord_webhook w (Some ?u) ?content ?embeds ?s] =>
           pose proof (send_discord_webhook_result u content embeds s Hurl) as Hsend;
           unfold result in Hsend;
           destruct (send_discord_webhook w (Some u) content embeds s) as [[o ?] ?]
       end.
  all: cbn [fst snd] in *; subst o; by destruct (webhook_post w) as [?|[?|?]].
Qed.

(** What [run_dulms_scraper] returns once the login has succeeded. *)
Lemma run_dulms_scraper_after_login scraped_a scraped_q :
  result (initialize_driver st w) tt = Ret tt ->
  result (login_to_dulms st w username password key) tt = Ret true ->
  result (scrape_assignments w) tt = Ret scraped_a ->
  result (scrape_quizzes w) tt = Ret scraped_q ->
  let l := locals_after_scrape w scraped_a scraped_q in
  result (run_dulms_scraper st w username password key webhook) tt =
    match result (notify_upcoming st w webhook) l with
    | Ret _ => Ret (scraped_result w scraped_a scraped_q)
    | Raise e =>
        Ret (set_message ("Scraper failed with error: " +:+ str_exn e)
               (set_success false (scraped_result w scraped_a scraped_q)))
    end.
Proof.
  intros Hinit Hlogin Hscraped_a Hscraped_q. cbv zeta.
  destruct (notify_upcoming_outcome (locals_after_scrape w scraped_a scraped_q))
    as [Hfinal _].
  pose proof (run_dulms_scraper_finally_returns w) as Hfinally.
  revert Hinit Hlogin Hscraped_a Hscraped_q Hfinal.
  unfold run_dulms_scraper, run_dulms_scraper_try, run_dulms_scraper_session,
    run_dulms_scraper_except, scrape_assignments, scrape_quizzes, result, final.
  unfold call, try_finally, try_except, bind, modify, get, ret, log, emit.
  destruct (initialize_driver st w tt) as [[o0 s0] t0].
  destruct (login_to_dulms st w username password key tt) as [[o1 s1] t1].
  destruct (scrape_listing w assignment_kind (assignments_page w) []) as [[o2 s2] t2].
  destruct (scrape_listing w quiz_kind (quizzes_page w) []) as [[o3 s3] t3].
  cbn [fst snd]. intros -> -> -> ->. cbn [negb].
  change (update_result (set_message "Scraping completed successfully")
            (update_result (set_success true)
               (update_result (set_quizzes scraped_q)
                  (update_result (set_assignments scraped_a)
                     (set_driver (Some tt) (initial_locals w))))))
    with (locals_after_scrape w scraped_a scraped_q).
  destruct (notify_upcoming st w webhook (locals_after_scrape w scraped_a scraped_q))
    as [[[[]|e] l2] evs]; cbn [fst snd]; intros ->.
  - destruct (Hfinally (locals_after_scrape w scraped_a scraped_q)) as [u Hu].
    unfold result in Hu.
    destruct (run_dulms_scraper_finally w _) as [[o4 l4] t4]. cbn in Hu. subst o4.
    reflexivity.
  - match goal with |- context [run_dulms_scraper_finally w ?l] =>
      destruct (Hfinally l) as [u Hu]; unfold result in Hu;
      destruct (run_dulms_scraper_finally w l) as [[o4 l4] t4] end.
    cbn in Hu. subst o4. reflexivity.
Qed.

End RunResult.

(** X7. Once the browser has started and the login has succeeded,
    [run_dulms_scraper] returns [success = True] with the message "Scraping
    completed successfully" and the two lists as scraped, whatever they
    hold, provided no webhook is configured, or no record qualifies, or the
    post to the webhook does not raise anything but a [RequestException]: a
    notification that could not be delivered does not change the result. *)
Theorem run_dulms_scraper_succeeds (st : Settings) (w : World)
    (username password key : string) (webhook : option string)
    (scraped_a scraped_q : list Item) :
  result (initialize_driver st w) tt = Ret tt ->
  result (login_to_dulms st w username password key) tt = Ret true ->
  result (scrape_assignments w) tt = Ret scraped_a ->
  result (scrape_quizzes w) tt = Ret scraped_q ->
  truthy webhook = false \/
  (forall msg, webhook_post w <> Raise (OtherException msg)) \/
  (List.filter (is_upcoming (DEADLINE_THRESHOLD_DAYS st)) scraped_a = [] /\
   List.filter (is_upcoming (DEADLINE_THRESHOLD_DAYS st)) scraped_q = []) ->
  result (run_dulms_scraper st w username password key webhook) tt
    = Ret {| assignments := scraped_a; quizzes := scraped_q;
             result_timestamp := timestamp w; success := true;
             message := "Scraping completed successfully" |}.
Proof.
  intros Hinit Hlogin Hscraped_a Hscraped_q Hquiet.
  rewrite (run_dulms_scraper_after_login st w username password key webhook
             scraped_a scraped_q Hinit Hlogin Hscraped_a Hscraped_q).
  cbv zeta.
  destruct (notify_upcoming_outcome st w webhook (locals_after_scrape w scraped_a scraped_q))
    as [_ ->].
  cbn [locals_after_scrape result_dict scraped_result assignments quizzes].
  destruct Hquiet as [->|[Hpost|[-> ->]]]; cbn [andb nonempty orb]; try reflexivity.
  - destruct (truthy webhook && _); [|reflexivity].
    destruct (webhook_post w) as [?|[?|msg]] eqn:Hw; try reflexivity.
    by destruct (Hpost msg).
  - by rewrite andb_false_r.
Qed.

Lemma run_dulms_scraper_succeeds_witness :
  exists r,
    result (run_dulms_scraper default_settings throttled_world "u" "p" "k" example_webhook) tt
      = Ret r /\
    success r = true /\
    length (assignments r) = 5%nat /\
    Forall (fun ev => forall lvl, ev <> Log lvl "Discord notification sent successfully: 204")
      (events (run_dulms_scraper default_settings throttled_world "u" "p" "k"
                 example_webhook) tt).
Proof.
  assert (exists scraped_a, result (scrape_assignments throttled_world) tt = Ret scraped_a /\
            length scraped_a = 5%nat) as (scraped_a & Hscraped_a & Hfive).
  { eexists. split; [vm_compute; reflexivity | reflexivity]. }
  assert (exists scraped_q, result (scrape_quizzes throttled_world) tt = Ret scraped_q)
    as (scraped_q & Hscraped_q).
  { eexists. vm_compute. reflexivity. }
  eexists. split; [|split; [|split]].
  - apply (run_dulms_scraper_succeeds default_settings throttled_world "u" "p" "k"
             example_webhook scraped_a scraped_q);
      [vm_compute; reflexivity | vm_compute; reflexivity | exact Hscraped_a
      | exact Hscraped_q | right; left; intros msg; discriminate].
  - reflexivity.
  - exact Hfive.
  - vm_compute. repeat constructor; intros lvl; discriminate.
Defined.

(** X8. A fault of the post to the webhook that is not a
    [RequestException] is not caught by [send_discord_webhook]: it reaches
    the handler of [run_dulms_scraper], which turns a scrape that had
    succeeded into [success = False] with the fault as message, while the
    result keeps the two scraped lists. *)
Theorem webhook_fault_fails_run (st : Settings) (w : World)
    (username password key url msg : string) (scraped_a scraped_q : list Item) :
  result (initialize_driver st w) tt = Ret tt ->
  result (login_to_dulms st w username password key) tt = Ret true ->
  result (scrape_assignments w) tt = Ret scraped_a ->
  result (scrape_quizzes w) tt = Ret scraped_q ->
  url <> "" ->
  webhook_post w = Raise (OtherException msg) ->
  List.filter (is_upcoming (DEADLINE_THRESHOLD_DAYS st)) scraped_a <> [] \/
  List.filter (is_upcoming (DEADLINE_THRESHOLD_DAYS st)) scraped_q <> [] ->
  result (run_dulms_scraper st w username password key (Some url)) tt
    = Ret {| assignments := scraped_a; quizzes := scraped_q;
             result_timestamp := timestamp w; success := false;
             message := "Scraper failed with error: " +:+ msg |}.
Proof.
  intros Hinit Hlogin Hscraped_a Hscraped_q Hurl Hpost Hsome.
  rewrite (run_dulms_scraper_after_login st w username password key (Some url)
             scraped_a scraped_q Hinit Hlogin Hscraped_a Hscraped_q).
  cbv zeta.
  destruct (notify_upcoming_outcome st w (Some url)
              (locals_after_scrape w scraped_a scraped_q)) as [_ ->].
  cbn [locals_after_scrape result_dict scraped_result assignments quizzes].
  unfold truthy. destruct (String.eqb_spec url "") as [->|_]; [done|]. cbn [negb andb].
  rewrite Hpost.
  destruct Hsome as [Hsome|Hsome].
  - destruct (List.filter _ scraped_a); [done|]. reflexivity.
  - destruct (List.filter _ scraped_q); [done|].
    cbn [nonempty]. rewrite orb_true_r. reflexivity.
Qed.

Lemma webhook_fault_fails_run_witness :
  exists r,
    result (run_dulms_scraper default_settings rude_world "u" "p" "k" example_webhook) tt
      = Ret r /\
    success r = false /\
    message r = "Scraper failed with error: Invalid URL" /\
    length (assignments r) = 5%nat /\ length (quizzes r) = 3%nat.
Proof.
  assert (exists scraped_a, result (scrape_assignments rude_world) tt = Ret scraped_a /\
            length scraped_a = 5%nat /\
            List.filter (is_upcoming 3) scraped_a <> [])
    as (scraped_a & Hscraped_a & Hfive & Hsome).
  { eexists. split; [vm_compute; reflexivity|]. split; [reflexivity | discriminate]. }
  assert (exists scraped_q, result (scrape_quizzes rude_world) tt = Ret scraped_q /\
            length scraped_q = 3%nat) as (scraped_q & Hscraped_q & Hthree).
  { eexists. split; [vm_compute; reflexivity | reflexivity]. }
  eexists. split; [|split; [|split; [|split]]].
  - apply (webhook_fault_fails_run default_settings rude_world "u" "p" "k"
             "https://discord.com/api/webhooks/1/abc" "Invalid URL" scraped_a scraped_q);
      [vm_compute; reflexivity | vm_compute; reflexivity | exact Hscraped_a
      | exact Hscraped_q | discriminate | reflexivity | left; exact Hsome].
  - reflexivity.
  - reflexivity.
  - exact Hfive.
  - exact Hthree.
Defined.

(** X9. When the login fails, [run_dulms_scraper] returns
    [success = False] with the message "Failed to login to DULMS" and two
    empty lists; after the login it does nothing but close the browser: no
    listing is opened and nothing is posted. *)
Theorem login_failure_ends_run (st : Settings) (w : World)
    (username password key : string) (webhook : option string) :
  result (initialize_driver st w) tt = Ret tt ->
  result (login_to_dulms st w username password key) tt = Ret false ->
  let run := run_dulms_scraper (L := unit) st w username password key webhook in
  result run tt
    = Ret {| assignments := []; quizzes := []; result_timestamp := timestamp w;
             success := false; message := "Failed to login to DULMS" |} /\
  exists line,
    events run tt
      = events (initialize_driver st w) tt
          ++ events (login_to_dulms st w username password key) tt
          ++ [DriverQuit; line].
Proof.
  intros Hinit Hlogin. cbv zeta.
  destruct (run_dulms_scraper_finally_run w
              (update_result (set_message "Failed to login to DULMS")
                 (set_driver (Some tt) (initial_locals w))) eq_refl)
    as (line & Hfinally & _).
  pose proof (run_dulms_scraper_finally_returns w
                (update_result (set_message "Failed to login to DULMS")
                   (set_driver (Some tt) (initial_locals w)))) as [u Hu].
  revert Hinit Hlogin Hfinally Hu.
  unfold run_dulms_scraper, run_dulms_scraper_try, run_dulms_scraper_session, result, events.
  unfold call, try_finally, try_except, bind, modify, get, ret.
  destruct (initialize_driver st w tt) as [[o0 s0] t0].
  destruct (login_to_dulms st w username password key tt) as [[o1 s1] t1].
  cbn [fst snd]. intros -> ->. cbn [negb fst snd].
  destruct (run_dulms_scraper_finally w _) as [[o2 l2] t2]. cbn [fst snd].
  intros -> ->. split; [reflexivity|]. exists line.
  by rewrite !app_nil_r, <- !app_assoc.
Qed.

Lemma login_failure_ends_run_witness :
  result (run_dulms_scraper default_settings stubborn_world "u" "p" "k" example_webhook) tt
    = Ret {| assignments := []; quizzes := []; result_timestamp := "2026-11-03T10:00:00";
             success := false; message := "Failed to login to DULMS" |}.
Proof.
  destruct (login_failure_ends_run default_settings stubborn_world "u" "p" "k" example_webhook)
    as [Hresult _].
  - vm_compute. reflexivity.
  - vm_compute. reflexivity.
  - exact Hresult.
Defined.

Lemma scrape_listing_unreadable (w : World) (k : ListingKind) (page : Listing) :
  unreadable page -> result (scrape_listing w k page) [] = Ret [].
Proof.
  unfold unreadable, result, scrape_listing, wait_for_element.
  intros [[e He]|[Ht|[[e Ht]|[[e Ht]|[Ht|[header Ht]]]]]];
    rewrite ?He, ?Ht; paths; reflexivity.
Qed.

(** X10. A listing that cannot be read is not an error: when the page does
    not open, when its table does not show in time or the wait faults, when
    the rows cannot be listed, or when the table has no row besides its
    header, [scrape_assignments] and [scrape_quizzes] return the empty
    list. *)
Theorem unreadable_listing_is_empty (w : World) :
  (unreadable (assignments_page w) -> result (scrape_assignments w) tt = Ret []) /\
  (unreadable (quizzes_page w) -> result (scrape_quizzes w) tt = Ret []).
Proof.
  unfold scrape_assignments, scrape_quizzes. rewrite !result_call.
  split; apply scrape_listing_unreadable.
Qed.

Lemma unreadable_listing_is_empty_witness :
  result (scrape_quizzes (with_quizzes_page missing_listing calm_world)) tt = Ret [].
Proof.
  destruct (unreadable_listing_is_empty (with_quizzes_page missing_listing calm_world))
    as [_ Hquizzes].
  apply Hquizzes. right. left. reflexivity.
Defined.

(** ** Rows, days and cards *)

(** X11. A listing row is read by position: the identifier from the first
    cell, the course from the third, the deadline from the fourth, the
    status from the sixth; the fifth cell and any cell after the sixth are
    never read. The title and the address come from the link in the second
    cell; when that cell has no link, the title is the text of the cell and
    the address is that of the listing itself. *)
Theorem row_cells_read (w : World) (k : ListingKind) (now : Z)
    (c0 c1 c2 c3 c4 c5 : Cell) (rest : list Cell) :
  let row := Ret (c0 :: c1 :: c2 :: c3 :: c4 :: c5 :: rest) in
  (forall c4' rest',
      row_items w k now row
        = row_items w k now (Ret (c0 :: c1 :: c2 :: c3 :: c4' :: c5 :: rest'))) /\
  (forall item,
      row_items w k now row = [item] ->
      (exists text, cell_text c0 = Ret text /\ id_ item = strip w text) /\
      (exists text, cell_text c2 = Ret text /\ course item = strip w text) /\
      (exists text, cell_text c3 = Ret text /\ deadline item = strip w text) /\
      (exists text, cell_text c5 = Ret text /\ status item = strip w text) /\
      match cell_link c1 with
      | Found a =>
          (exists text, link_text a = Ret text /\ title item = strip w text) /\
          link_href a = Ret (url item)
      | _ =>
          (exists text, cell_text c1 = Ret text /\ title item = strip w text) /\
          url item = Some (kind_url k)
      end).
Proof.
  cbv zeta. split; [reflexivity|].
  intros item. unfold row_items, final, scrape_row, index, safe_find_element.
  paths_eqn; intros [= <-]; cbn; repeat split; eauto.
Qed.

Lemma row_cells_read_witness :
  exists item,
    row_items calm_world quiz_kind example_now
      (Ret [text_cell "31"; text_cell " Quiz 9 "; text_cell "Logic"; text_cell "05/11/2026";
            text_cell "20"; text_cell "Not Completed"; text_cell "extra"]) = [item] /\
    title item = "Quiz 9" /\ url item = Some QUIZZES_URL /\ days_remaining item = Some 1.
Proof.
  eexists. split; [vm_compute; reflexivity|].
  destruct (row_cells_read calm_world quiz_kind example_now
              (text_cell "31") (text_cell " Quiz 9 ") (text_cell "Logic")
              (text_cell "05/11/2026") (text_cell "20") (text_cell "Not Completed")
              [text_cell "extra"]) as [_ Hitem].
  destruct (Hitem _ ltac:(vm_compute; reflexivity))
    as (_ & _ & _ & _ & (text & [= <-] & Htitle) & Hurl).
  split; [exact Htitle|]. split; [exact Hurl | reflexivity].
Defined.

(** X12. [days_remaining] counts whole days from now to the midnight that
    starts the deadline date: for a deadline [d] days and a clock reading
    [n] days and [t] microseconds after the same origin, it is [d - n] only
    when [t = 0] and [d - n - 1] at any later time of the day. A deadline
    dated today is therefore reported as [-1], one dated tomorrow as [0],
    and a record dated [DEADLINE_THRESHOLD_DAYS + 1] days ahead
    qualifies. *)
Theorem days_remaining_floor (d n t : Z) :
  0 <= t < 86400000000 ->
  timedelta_days (d * 86400000000) (n * 86400000000 + t)
    = (if t =? 0 then d - n else d - n - 1) /\
  (0 < t -> forall threshold,
      timedelta_days (d * 86400000000) (n * 86400000000 + t) <= threshold <->
      d - n <= threshold + 1).
Proof.
  intros Ht.
  assert (timedelta_days (d * 86400000000) (n * 86400000000 + t)
          = (if t =? 0 then d - n else d - n - 1)) as Hdays.
  { unfold timedelta_days. destruct (Z.eqb_spec t 0) as [->|Hpos].
    - replace (d * 86400000000 - (n * 86400000000 + 0)) with ((d - n) * 86400000000) by lia.
      apply Z.div_mul. lia.
    - symmetry. apply (Z.div_unique_pos _ _ _ (86400000000 - t)); lia. }
  split; [exact Hdays|].
  intros Hpos threshold. rewrite Hdays.
  destruct (Z.eqb_spec t 0); lia.
Qed.

Lemma days_remaining_floor_witness :
  timedelta_days (739923 * 86400000000) (739923 * 86400000000 + 36000000000) = -1 /\
  timedelta_days (739924 * 86400000000) (739923 * 86400000000 + 36000000000) = 0.
Proof.
  split.
  - destruct (days_remaining_floor 739923 739923 36000000000) as [Hdays _]; [lia|].
    rewrite Hdays. reflexivity.
  - destruct (days_remaining_floor 739924 739923 36000000000) as [Hdays _]; [lia|].
    rewrite Hdays. reflexivity.
Defined.

Lemma format_embeds_raise k items embeds :
  Exists (fun item => days_remaining item = None) items ->
  exists e, result (for_each items (format_embed k)) embeds = Raise e.
Proof.
  intros Hsome. revert embeds.
  induction items as [|item items IH]; intros embeds; [by inversion Hsome|].
  cbn [for_each]. unfold result, bind.
  destruct (days_remaining item) as [days|] eqn:Hdays.
  - destruct (card_run k item days Hdays) as (e & _ & Hrun & _). rewrite Hrun.
    destruct (IH ltac:(inversion Hsome as [? ? Hnone|]; [congruence | done]) (embeds ++ [e]))
      as [e0 He0].
    unfold result in He0.
    destruct (for_each items (format_embed k) (embeds ++ [e])) as [[o s] t].
    cbn in He0 |- *. subst o. by eexists.
  - unfold format_embed. unfold_monad. rewrite Hdays. cbn. by eexists.
Qed.

Lemma format_embeds_return k items embeds :
  Forall (fun item => days_remaining item <> None) items ->
  exists cards,
    for_each items (format_embed k) embeds = (Ret tt, embeds ++ cards, []) /\
    length cards = length items.
Proof.
  intros Hall. revert embeds.
  induction Hall as [|item items Hitem _ IH]; intros embeds; cbn [for_each].
  - exists []. by rewrite app_nil_r.
  - destruct (days_remaining item) as [days|] eqn:Hdays; [|done].
    destruct (card_run k item days Hdays) as (e & _ & Hrun & _).
    destruct (IH (embeds ++ [e])) as (cards & Hrest & Hlength).
    exists (e :: cards). split; [|cbn; by rewrite Hlength].
    unfold bind. rewrite Hrun, Hrest. by rewrite <- app_assoc.
Qed.

Lemma format_discord_embeds_outcomes k items :
  (Exists (fun item => days_remaining item = None) items ->
   exists e, result (format_discord_embeds k items) [] = Raise e) /\
  (Forall (fun item => days_remaining item <> None) items ->
   exists cards,
     result (format_discord_embeds k items) [] = Ret cards /\ length cards = length items).
Proof.
  unfold format_discord_embeds. split.
  - intros Hsome. destruct (format_embeds_raise k items [] Hsome) as [e He].
    exists e. rewrite result_bind, He. done.
  - intros Hall. destruct (format_embeds_return k items [] Hall) as (cards & Hrun & Hlength).
    exists cards. split; [|exact Hlength].
    unfold result, bind. rewrite Hrun. reflexivity.
Qed.

(** X13. [format_discord_embeds_for_assignments] and
    [format_discord_embeds_for_quizzes] raise on a list that holds a record
    without [days_remaining], and render nothing then; on a list in which
    every record has one they return one card per record. The lists
    [run_dulms_scraper] hands them are filtered, so there they never
    raise. *)
Theorem format_embeds_need_days (items : list Item) :
  (Exists (fun item => days_remaining item = None) items ->
   (exists e, result (format_discord_embeds_for_assignments items) tt = Raise e) /\
   (exists e, result (format_discord_embeds_for_quizzes items) tt = Raise e)) /\
  (Forall (fun item => days_remaining item <> None) items ->
   (exists cards, result (format_discord_embeds_for_assignments items) tt = Ret cards /\
                  length cards = length items) /\
   (exists cards, result (format_discord_embeds_for_quizzes items) tt = Ret cards /\
                  length cards = length items)) /\
  (forall threshold,
      Forall (fun item => days_remaining item <> None)
        (List.filter (is_upcoming threshold) items)).
Proof.
  unfold format_discord_embeds_for_assignments, format_discord_embeds_for_quizzes.
  rewrite !result_call.
  split; [|split].
  - intros Hsome. split; by apply format_discord_embeds_outcomes.
  - intros Hall. split; by apply format_discord_embeds_outcomes.
  - intros threshold. apply Forall_forall. intros item Hin.
    apply list_elem_of_In, filter_In in Hin as [_ Hup].
    unfold is_upcoming in Hup. by destruct (days_remaining item).
Qed.

Lemma format_embeds_need_days_witness :
  (exists e, result (format_discord_embeds_for_quizzes
                       [example_item 2 "Completed"; undated_item]) tt = Raise e) /\
  (exists cards, result (format_discord_embeds_for_quizzes
                           [example_item 2 "Completed"]) tt = Ret cards /\
                 length cards = 1%nat).
Proof.
  split.
  - destruct (format_embeds_need_days [example_item 2 "Completed"; undated_item])
      as (Hraise & _).
    apply Hraise. apply Exists_cons_tl, Exists_cons_hd. reflexivity.
  - destruct (format_embeds_need_days [example_item 2 "Completed"]) as (_ & Hreturn & _).
    apply Hreturn. repeat constructor. discriminate.
Defined.

(** ** The registry *)

Section RegistryFacts.

Context (st : Settings) (w : World).
Context (task_id username password key : string) (webhook : option string).

(** One execution of a task that has a queue: what is left behind. *)
Lemma run_scraper_task_final reg q :
  task_queues reg !! task_id = Some q ->
  exists r evs line,
    result (run_dulms_scraper st w username password key webhook) tt = Ret r /\
    Forall outside evs /\ outside line /\
    let running := set_status task_id TaskStatus.RUNNING reg in
    let stored := set_result task_id (ScrapeData r) running in
    let ended := set_status task_id (completion_status r) stored in
    let logged := queue_put task_id (completion_entry w r) ended in
    run_scraper_task st w task_id username password key webhook reg =
      (Ret tt, logged,
       [Wrote running; Log INFO ("Starting background task for task_id: " +:+ task_id)]
         ++ evs ++ [Wrote stored; Wrote ended; Wrote logged; line]).
Proof.
  intros Hqueue.
  destruct (run_dulms_scraper_run st w username password key webhook
              (set_status task_id TaskStatus.RUNNING reg)) as (r & evs & Hrun & Hout).
  assert (result (run_dulms_scraper st w username password key webhook) tt = Ret r) as Hres.
  { unfold run_dulms_scraper, result in *. unfold call in *.
    destruct (try_finally _ _ _) as [[? ?] ?]. by inversion Hrun. }
  unfold run_scraper_task. unfold_monad. cbn. rewrite Hqueue. cbn.
  unfold run_dulms_scraper, call in Hrun |- *.
  destruct (try_finally _ _ _) as [[o l] t]. inversion Hrun; subst o t. clear Hrun.
  exists r, evs. unfold completion_status, completion_entry.
  destruct (success r) eqn:Hsuccess; cbn.
  - eexists. split; [first [exact Hres | reflexivity]|]. split; [exact Hout|].
    split; [|rewrite ?Hsuccess; cbn; rewrite <- ?app_assoc; reflexivity]. exact I.
  - eexists. split; [first [exact Hres | reflexivity]|]. split; [exact Hout|].
    split; [|rewrite ?Hsuccess; cbn; rewrite <- ?app_assoc; reflexivity]. exact I.
Qed.

End RegistryFacts.

Lemma same_elsewhere_refl task_id reg : same_elsewhere task_id reg reg.
Proof. by intros other _. Qed.

Lemma same_elsewhere_set_queue task_id q reg reg' :
  same_elsewhere task_id reg reg' -> same_elsewhere task_id reg (set_queue task_id q reg').
Proof.
  intros Hsame other Hother. destruct (Hsame other Hother) as (Hq & Hr & Hs).
  cbn. by rewrite lookup_insert_ne.
Qed.

Lemma same_elsewhere_set_result task_id d reg reg' :
  same_elsewhere task_id reg reg' -> same_elsewhere task_id reg (set_result task_id d reg').
Proof.
  intros Hsame other Hother. destruct (Hsame other Hother) as (Hq & Hr & Hs).
  cbn. by rewrite lookup_insert_ne.
Qed.

Lemma same_elsewhere_set_status task_id s reg reg' :
  same_elsewhere task_id reg reg' -> same_elsewhere task_id reg (set_status task_id s reg').
Proof.
  intros Hsame other Hother. destruct (Hsame other Hother) as (Hq & Hr & Hs).
  cbn. by rewrite lookup_insert_ne.
Qed.

Lemma same_elsewhere_queue_put task_id entry reg reg' :
  same_elsewhere task_id reg reg' -> same_elsewhere task_id reg (queue_put task_id entry reg').
Proof.
  intros Hsame other Hother. destruct (Hsame other Hother) as (Hq & Hr & Hs).
  cbn. by rewrite lookup_alter_ne.
Qed.

Create HintDb registry.

#[local] Hint Resolve same_elsewhere_refl same_elsewhere_set_queue same_elsewhere_set_result
  same_elsewhere_set_status same_elsewhere_queue_put : registry.

Ltac each_snapshot := repeat first [apply List.Forall_nil | apply List.Forall_cons].

(** Emptying a queue writes nothing but that queue. *)
Lemma drain_queue_writes (I : Registry -> Prop) task_id q logs reg :
  (forall rest reg', I reg' -> I (set_queue task_id rest reg')) ->
  I reg ->
  Forall I (snapshots (events (drain_queue task_id q logs) reg)) /\
  I (final (drain_queue task_id q logs) reg).
Proof.
  intros Hstep. revert logs reg.
  induction q as [|entry q IH]; intros logs reg Hreg; cbn [drain_queue].
  - split; [constructor | exact Hreg].
  - rewrite events_bind, final_bind. cbn.
    destruct (IH (logs ++ [entry]) (set_queue task_id q reg)) as [Hall Hfinal]; [by apply Hstep|].
    split; [|exact Hfinal]. constructor; [by apply Hstep | exact Hall].
Qed.

Lemma get_task_logs_writes (I : Registry -> Prop) task_id clear reg :
  (forall rest reg', I reg' -> I (set_queue task_id rest reg')) ->
  I reg ->
  Forall I (snapshots (events (get_task_logs task_id clear) reg)) /\
  I (final (get_task_logs task_id clear) reg).
Proof.
  intros Hstep Hreg. unfold get_task_logs.
  rewrite events_bind, final_bind. cbn.
  destruct (task_queues reg !! task_id) as [q|]; [|by split; [constructor|]].
  by apply drain_queue_writes.
Qed.

(** X14. Whatever is created, run or read for one identifier, every state
    of the registry that is written on the way, and the registry that is
    left, hold for every other identifier the queue, the result and the
    status they held before. *)
Theorem tasks_are_isolated (st : Settings) (w : World)
    (task_id username password key : string) (webhook : option string) (clear : bool)
    (reg : Registry) :
  let create := create_scraper_task task_id username password key webhook in
  let run := run_scraper_task st w task_id username password key webhook in
  let read := get_task_logs task_id clear in
  (Forall (same_elsewhere task_id reg) (snapshots (events create reg)) /\
   same_elsewhere task_id reg (final create reg)) /\
  (Forall (same_elsewhere task_id reg) (snapshots (events run reg)) /\
   same_elsewhere task_id reg (final run reg)) /\
  (Forall (same_elsewhere task_id reg) (snapshots (events read reg)) /\
   same_elsewhere task_id reg (final read reg)).
Proof.
  cbn zeta. split; [|split].
  - cbn. split; [each_snapshot|]; auto with registry.
  - destruct (task_queues reg !! task_id) as [q|] eqn:Hqueue.
    + destruct (run_scraper_task_final st w task_id username password key webhook reg q Hqueue)
        as (r & evs & line & _ & Hout & Hline & Hrun).
      cbn zeta in Hrun. unfold events, final. rewrite Hrun. cbn [fst snd].
      rewrite !snapshots_app, (snapshots_outside evs Hout).
      split.
      * cbn. destruct line; try done; each_snapshot; auto 6 with registry.
      * auto 6 with registry.
    + unfold run_scraper_task, events, final. unfold_monad. cbn. rewrite Hqueue. cbn.
      split; [each_snapshot|]; auto with registry.
  - apply get_task_logs_writes; auto with registry.
Qed.

(** X15. Reading the logs of a task changes no status and no result, of
    that task or of any other, at any moment; and it returns the empty list
    exactly when the identifier has no queue or an empty one, in which case
    it writes nothing at all. *)
Theorem get_task_logs_reads_queue_only (task_id : string) (clear : bool) (reg : Registry) :
  let read := get_task_logs task_id clear in
  let kept reg' :=
    task_statuses reg' = task_statuses reg /\ task_results reg' = task_results reg in
  Forall kept (snapshots (events read reg)) /\
  kept (final read reg) /\
  (result read reg = Ret [] <->
   task_queues reg !! task_id = None \/ task_queues reg !! task_id = Some []) /\
  (result read reg = Ret [] <-> events read reg = [] /\ final read reg = reg).
Proof.
  cbn zeta.
  assert (result (get_task_logs task_id clear) reg = Ret [] <->
          task_queues reg !! task_id = None \/ task_queues reg !! task_id = Some []) as Hempty.
  { unfold get_task_logs. rewrite result_bind. cbn.
    destruct (task_queues reg !! task_id) as [q|]; [|by split; [left|]].
    destruct (drain_queue_run task_id q [] reg) as [-> _]. cbn.
    split; [intros [= ->]; by right | intros [|[= ->]]; done]. }
  split; [|split; [|split; [exact Hempty|]]].
  - apply (get_task_logs_writes
             (fun reg' => task_statuses reg' = task_statuses reg /\
                          task_results reg' = task_results reg)); [|done].
    by intros rest reg' [? ?].
  - apply (get_task_logs_writes
             (fun reg' => task_statuses reg' = task_statuses reg /\
                          task_results reg' = task_results reg)); [|done].
    by intros rest reg' [? ?].
  - rewrite Hempty. unfold get_task_logs, events, final. unfold_monad. cbn.
    destruct (task_queues reg !! task_id) as [[|entry q]|]; cbn.
    + split; [by intros _ | intros _; by right].
    + destruct (drain_queue _ _ _ _) as [[? ?] ?]. cbn.
      split; [by intros [|] | by intros [? _]].
    + split; [by intros _ | intros _; by left].
Qed.

(** ** What a finished task shows *)

Section AfterRun.

Context (st : Settings) (w : World).
Context (task_id username password key : string) (webhook : option string).

(** The three dictionaries at [task_id], once a task that has a queue has
    run. *)
Lemma run_scraper_task_leaves reg q :
  task_queues reg !! task_id = Some q ->
  exists r,
    result (run_dulms_scraper st w username password key webhook) tt = Ret r /\
    let after := final (run_scraper_task st w task_id username password key webhook) reg in
    task_queues after !! task_id = Some (q ++ [completion_entry w r]) /\
    task_results after !! task_id = Some (ScrapeData r) /\
    task_statuses after !! task_id = Some (completion_status r).
Proof.
  intros Hqueue.
  destruct (run_scraper_task_final st w task_id username password key webhook reg q Hqueue)
    as (r & evs & line & Hres & _ & _ & Hrun).
  exists r. split; [exact Hres|]. cbn zeta in *. unfold final. rewrite Hrun. cbn.
  rewrite lookup_alter_eq, Hqueue, !lookup_insert_eq. done.
Qed.

End AfterRun.

(** X16. A task that has a queue and is run stores exactly the dictionary
    [run_dulms_scraper] returned, ends [COMPLETED] when that dictionary says
    success and [ERROR] otherwise, and adds exactly one entry to its queue,
    behind those that were waiting: the next reading of the logs returns the
    old entries followed by that one. *)
Theorem run_scraper_task_outcome (st : Settings) (w : World)
    (task_id username password key : string) (webhook : option string) (clear : bool)
    (reg : Registry) (q : list LogEntry) :
  task_queues reg !! task_id = Some q ->
  let after := final (run_scraper_task st w task_id username password key webhook) reg in
  exists r,
    result (run_dulms_scraper st w username password key webhook) tt = Ret r /\
    result (get_task_result task_id) after = Ret (Some (ScrapeData r)) /\
    result (get_task_status task_id) after =
      Ret (Some (if success r then TaskStatus.COMPLETED else TaskStatus.ERROR)) /\
    result (get_task_logs task_id clear) after = Ret (q ++ [completion_entry w r]).
Proof.
  intros Hqueue after.
  destruct (run_scraper_task_leaves st w task_id username password key webhook reg q Hqueue)
    as (r & Hres & Hq & Hr & Hs).
  fold after in Hq, Hr, Hs. exists r. split; [exact Hres|].
  unfold get_task_result, get_task_status, get_task_logs.
  rewrite !result_bind. cbn. rewrite Hq, Hr, Hs.
  destruct (drain_queue_run task_id (q ++ [completion_entry w r]) [] after) as [-> _].
  done.
Qed.

Lemma run_scraper_task_outcome_witness :
  task_queues example_registry !! "t1" = Some [example_entry "first"] /\
  let after :=
    final (run_scraper_task default_settings calm_world "t1" "student" "secret" "key"
             example_webhook) example_registry in
  exists r,
    result (run_dulms_scraper default_settings calm_world "student" "secret" "key"
              example_webhook) tt = Ret r /\
    result (get_task_result "t1") after = Ret (Some (ScrapeData r)) /\
    result (get_task_status "t1") after =
      Ret (Some (if success r then TaskStatus.COMPLETED else TaskStatus.ERROR)) /\
    result (get_task_logs "t1" false) after =
      Ret ([example_entry "first"] ++ [completion_entry calm_world r]).
Proof.
  split; [reflexivity|].
  apply (run_scraper_task_outcome default_settings calm_world "t1" "student" "secret" "key"
           example_webhook false example_registry [example_entry "first"]).
  reflexivity.
Defined.

Lemma get_task_info_reads task_id reg :
  final (get_task_info task_id) reg = reg /\ events (get_task_info task_id) reg = [].
Proof.
  unfold get_task_info, get_task_status, get_task_result, final, events.
  unfold_monad. cbn.
  destruct (task_statuses reg !! task_id) as [[]|]; try done;
    by destruct (task_results reg !! task_id).
Qed.

(** What the route answers, from what the handler returns. *)
Lemma serve_get_task_info_run task_id reg :
  final (serve_get_task_info task_id) reg = reg /\
  events (serve_get_task_info task_id) reg = [] /\
  result (serve_get_task_info task_id) reg =
    match result (get_task_info task_id) reg with
    | Ret (Ok200 body) =>
        if fits_TaskResult body then Ret (Ok200 body)
        else Ret (HTTPException 500 "Internal Server Error")
    | other => other
    end.
Proof.
  destruct (get_task_info_reads task_id reg) as [Hfinal Hevents].
  unfold serve_get_task_info. rewrite final_bind, events_bind, result_bind, Hfinal, Hevents.
  destruct (result (get_task_info task_id) reg) as [[body|code detail]|e]; try done.
  by destruct (fits_TaskResult body).
Qed.

(** X17. The status endpoint changes nothing and records nothing. It
    answers 404 exactly when the identifier has no status; for a task that
    was created and not yet run it answers [PENDING] and no other key. That
    holds of the handler and of the route as it is served. *)
Theorem get_task_info_before_run (task_id username password key : string)
    (webhook : option string) (reg : Registry) :
  final (get_task_info task_id) reg = reg /\
  events (get_task_info task_id) reg = [] /\
  (result (get_task_info task_id) reg =
     Ret (HTTPException 404 ("Task " +:+ task_id +:+ " not found")) <->
   task_statuses reg !! task_id = None) /\
  result (get_task_info task_id)
    (final (create_scraper_task task_id username password key webhook) reg) =
    Ret (Ok200 {| info_task_id := task_id; info_status := TaskStatus.PENDING;
                  info_assignments := None; info_quizzes := None;
                  info_message := None; info_error := None |}) /\
  final (serve_get_task_info task_id) reg = reg /\
  events (serve_get_task_info task_id) reg = [] /\
  (result (serve_get_task_info task_id) reg =
     Ret (HTTPException 404 ("Task " +:+ task_id +:+ " not found")) <->
   task_statuses reg !! task_id = None) /\
  result (serve_get_task_info task_id)
    (final (create_scraper_task task_id username password key webhook) reg) =
    Ret (Ok200 {| info_task_id := task_id; info_status := TaskStatus.PENDING;
                  info_assignments := None; info_quizzes := None;
                  info_message := None; info_error := None |}).
Proof.
  assert (forall reg',
            result (get_task_info task_id) reg' =
              Ret (HTTPException 404 ("Task " +:+ task_id +:+ " not found")) <->
            task_statuses reg' !! task_id = None) as Hmissing.
  { intros reg'. unfold get_task_info, get_task_status, get_task_result, result.
    unfold_monad. cbn.
    destruct (task_statuses reg' !! task_id) as [[]|]; cbn; try (split; done);
      by destruct (task_results reg' !! task_id). }
  assert (result (get_task_info task_id)
            (final (create_scraper_task task_id username password key webhook) reg) =
          Ret (Ok200 {| info_task_id := task_id; info_status := TaskStatus.PENDING;
                        info_assignments := None; info_quizzes := None;
                        info_message := None; info_error := None |})) as Hpending.
  { unfold get_task_info, get_task_status, get_task_result, final, result.
    unfold_monad. cbn. by rewrite lookup_insert_eq. }
  destruct (get_task_info_reads task_id reg) as [Hfinal Hevents].
  destruct (serve_get_task_info_run task_id reg) as (Hfinal' & Hevents' & Hserved).
  destruct (serve_get_task_info_run task_id
              (final (create_scraper_task task_id username password key webhook) reg))
    as (_ & _ & Hserved').
  split; [exact Hfinal|]. split; [exact Hevents|]. split; [apply Hmissing|].
  split; [exact Hpending|]. split; [exact Hfinal'|]. split; [exact Hevents'|].
  split; [|by rewrite Hserved', Hpending].
  rewrite <- Hmissing, Hserved.
  destruct (result (get_task_info task_id) reg) as [[body|code detail]|e]; try done.
  by destruct (fits_TaskResult body).
Qed.

(** X18. Asked about a task that has run, the handler of the status
    endpoint returns what [run_dulms_scraper] returned: [COMPLETED] with its
    assignments, its quizzes and its message when it reported success, and
    otherwise [ERROR] with its message under the key [error] and no
    assignments, quizzes or message. The route answers with that when it
    fits [TaskResult]. The [ERROR] answer always fits; the [COMPLETED]
    answer fits exactly when every scraped record has its [days_remaining]
    and its [url], and a successful scrape that kept a record whose deadline
    did not parse, or whose link has no address, is answered with 500. *)
Theorem get_task_info_after_run (st : Settings) (w : World)
    (task_id username password key : string) (webhook : option string)
    (reg : Registry) (q : list LogEntry) :
  task_queues reg !! task_id = Some q ->
  let after := final (run_scraper_task st w task_id username password key webhook) reg in
  exists r,
    result (run_dulms_scraper st w username password key webhook) tt = Ret r /\
    let completed :=
      {| info_task_id := task_id; info_status := TaskStatus.COMPLETED;
         info_assignments := Some (assignments r);
         info_quizzes := Some (quizzes r);
         info_message := Some (message r); info_error := None |} in
    let failed :=
      {| info_task_id := task_id; info_status := TaskStatus.ERROR;
         info_assignments := None; info_quizzes := None;
         info_message := None; info_error := Some (message r) |} in
    result (get_task_info task_id) after =
      Ret (Ok200 (if success r then completed else failed)) /\
    result (serve_get_task_info task_id) after =
      Ret (if success r then
             if forallb fits_AssignmentData (assignments r)
                && forallb fits_QuizData (quizzes r)
             then Ok200 completed
             else HTTPException 500 "Internal Server Error"
           else Ok200 failed).
Proof.
  intros Hqueue after.
  destruct (run_scraper_task_leaves st w task_id username password key webhook reg q Hqueue)
    as (r & Hres & _ & Hr & Hs).
  fold after in Hr, Hs. exists r. split; [exact Hres|]. cbv zeta.
  assert (result (get_task_info task_id) after =
          Ret (Ok200
                 (if success r then
                    {| info_task_id := task_id; info_status := TaskStatus.COMPLETED;
                       info_assignments := Some (assignments r);
                       info_quizzes := Some (quizzes r);
                       info_message := Some (message r); info_error := None |}
                  else
                    {| info_task_id := task_id; info_status := TaskStatus.ERROR;
                       info_assignments := None; info_quizzes := None;
                       info_message := None; info_error := Some (message r) |}))) as Hhandler.
  { unfold get_task_info, get_task_status, get_task_result, result. unfold_monad. cbn.
    rewrite Hs. unfold completion_status. destruct (success r); cbn; by rewrite Hr. }
  split; [exact Hhandler|].
  destruct (serve_get_task_info_run task_id after) as (_ & _ & ->).
  rewrite Hhandler. destruct (success r); [|reflexivity].
  unfold fits_TaskResult. cbn [info_assignments info_quizzes].
  by destruct (forallb fits_AssignmentData (assignments r) && forallb fits_QuizData (quizzes r)).
Qed.

Lemma get_task_info_after_run_witness :
  task_queues example_registry !! "t1" = Some [example_entry "first"] /\
  let after w :=
    final (run_scraper_task default_settings w "t1" "student" "secret" "key" example_webhook)
      example_registry in
  result (serve_get_task_info "t1") (after calm_world) =
    Ret (HTTPException 500 "Internal Server Error") /\
  (exists body,
      result (serve_get_task_info "t1") (after dated_world) = Ret (Ok200 body) /\
      info_status body = TaskStatus.COMPLETED /\
      option_map (map id_) (info_assignments body) = Some ["11"; "12"; "13"; "14"; "15"] /\
      option_map (map id_) (info_quizzes body) = Some ["21"; "25"] /\
      info_error body = None) /\
  result (serve_get_task_info "t1") (after stubborn_world) =
    Ret (Ok200 {| info_task_id := "t1"; info_status := TaskStatus.ERROR;
                  info_assignments := None; info_quizzes := None;
                  info_message := None;
                  info_error := Some "Failed to login to DULMS" |}).
Proof.
  split; [reflexivity|]. cbv zeta.
  split; [|split].
  - destruct (get_task_info_after_run default_settings calm_world "t1" "student" "secret" "key"
                example_webhook example_registry [example_entry "first"] eq_refl)
      as (r & Hr & _ & Hserved).
    vm_compute in Hr. injection Hr as <-. exact Hserved.
  - destruct (get_task_info_after_run default_settings dated_world "t1" "student" "secret" "key"
                example_webhook example_registry [example_entry "first"] eq_refl)
      as (r & Hr & _ & Hserved).
    vm_compute in Hr. injection Hr as <-. eexists. split; [exact Hserved|].
    repeat split.
  - destruct (get_task_info_after_run default_settings stubborn_world "t1" "student" "secret"
                "key" example_webhook example_registry [example_entry "first"] eq_refl)
      as (r & Hr & _ & Hserved).
    vm_compute in Hr. injection Hr as <-. exact Hserved.
Defined.

(** ** The endpoints *)

(** X19. [start_scraper] never answers 500: it answers with the identifier
    that was drawn, hands exactly one background task to the framework, the
    run of that identifier, and leaves the task [PENDING] with an empty
    queue and no browser started. Served with its background task, the
    request does to the registry what one creation followed by one run
    does. *)
Theorem start_scraper_answers (st : Settings) (w : World)
    (task_id username password key : string) (webhook : option string) (reg : Registry) :
  let start := start_scraper st w task_id username password key webhook in
  let run := run_scraper_task st w task_id username password key webhook in
  let answer := Ok200 {| started_task_id := task_id; started_status := "started" |} in
  result start reg = Ret (answer, [run]) /\
  result (get_task_status task_id) (final start reg) = Ret (Some TaskStatus.PENDING) /\
  result (get_task_logs task_id false) (final start reg) = Ret [] /\
  task_results (final start reg) = task_results reg /\
  count is_open (events start reg) = 0%nat /\
  let served := serve_start_scraper st w task_id username password key webhook in
  let session := task_session st w task_id username password key webhook in
  result served reg = Ret answer /\
  final served reg = final session reg /\
  events served reg = events session reg.
Proof.
  cbn zeta.
  assert (start_scraper st w task_id username password key webhook reg =
          (Ret (Ok200 {| started_task_id := task_id; started_status := "started" |},
                [run_scraper_task st w task_id username password key webhook]),
           set_status task_id TaskStatus.PENDING (set_queue task_id [] reg),
           [Wrote (set_queue task_id [] reg);
            Wrote (set_status task_id TaskStatus.PENDING (set_queue task_id [] reg));
            Log INFO ("Created scraper task with ID: " +:+ task_id)])) as Hstart
    by reflexivity.
  assert (result (start_scraper st w task_id username password key webhook) reg = _) as Hres
    by exact (f_equal (fun x => fst (fst x)) Hstart).
  assert (final (start_scraper st w task_id username password key webhook) reg = _) as Hfinal
    by exact (f_equal (fun x => snd (fst x)) Hstart).
  assert (events (start_scraper st w task_id username password key webhook) reg = _) as Hevents
    by exact (f_equal snd Hstart).
  cbn [fst snd] in Hres, Hfinal, Hevents.
  rewrite Hres, Hfinal, Hevents.
  split; [done|].
  split; [unfold get_task_status; rewrite result_bind; cbn; by rewrite lookup_insert_eq|].
  split; [unfold get_task_logs; rewrite result_bind; cbn; by rewrite lookup_insert_eq|].
  split; [done|]. split; [done|].
  destruct (run_scraper_task_final st w task_id username password key webhook
              (set_status task_id TaskStatus.PENDING (set_queue task_id [] reg)) [])
    as (r & evs & line & _ & _ & _ & Hrun); [cbn; by rewrite lookup_insert_eq|].
  cbn zeta in Hrun.
  pose proof (f_equal (fun x => fst (fst x)) Hrun) as Rres.
  pose proof (f_equal (fun x => snd (fst x)) Hrun) as Rfinal.
  pose proof (f_equal snd Hrun) as Revents.
  cbn [fst snd] in Rres, Rfinal, Revents.
  fold (result (run_scraper_task st w task_id username password key webhook)
          (set_status task_id TaskStatus.PENDING (set_queue task_id [] reg))) in Rres.
  fold (final (run_scraper_task st w task_id username password key webhook)
          (set_status task_id TaskStatus.PENDING (set_queue task_id [] reg))) in Rfinal.
  fold (events (run_scraper_task st w task_id username password key webhook)
          (set_status task_id TaskStatus.PENDING (set_queue task_id [] reg))) in Revents.
  assert (create_scraper_task task_id username password key webhook reg =
          (Ret task_id, set_status task_id TaskStatus.PENDING (set_queue task_id [] reg),
           [Wrote (set_queue task_id [] reg);
            Wrote (set_status task_id TaskStatus.PENDING (set_queue task_id [] reg));
            Log INFO ("Created scraper task with ID: " +:+ task_id)])) as Hcreate
    by reflexivity.
  pose proof (f_equal (fun x => fst (fst x)) Hcreate) as Cres.
  pose proof (f_equal (fun x => snd (fst x)) Hcreate) as Cfinal.
  pose proof (f_equal snd Hcreate) as Cevents.
  cbn [fst snd] in Cres, Cfinal, Cevents.
  fold (result (create_scraper_task task_id username password key webhook) reg) in Cres.
  fold (final (create_scraper_task task_id username password key webhook) reg) in Cfinal.
  fold (events (create_scraper_task task_id username password key webhook) reg) in Cevents.
  unfold serve_start_scraper, task_session.
  rewrite !result_bind, !final_bind, !events_bind, Hres, Hfinal, Hevents.
  cbn [fst snd for_each].
  rewrite !result_bind, !final_bind, !events_bind.
  rewrite Cres, Cfinal, Cevents, Rres, Rfinal, Revents.
  rewrite ?result_bind, ?Rres.
  unfold result, final, events, ret. cbn [fst snd]. rewrite ?app_nil_r. done.
Qed.
(** ** The stream of events *)

Lemma bind_run {L A B} (m : M L A) (k : A -> M L B) s a s1 t1 :
  m s = (Ret a, s1, t1) ->
  bind m k s = (let '(r, s2, t2) := k a s1 in (r, s2, t1 ++ t2)).
Proof. intros Hrun. unfold bind. by rewrite Hrun. Qed.

(** One turn of the stream on which the client is connected. *)
Lemma event_generator_turn task_id m1 m2 later reg reg1 evs1 logs reg2 evs2 reg3 evs3 :
  m1 reg = (Ret tt, reg1, evs1) ->
  get_task_logs task_id false reg1 = (Ret logs, reg2, evs2) ->
  m2 reg2 = (Ret tt, reg3, evs3) ->
  let stream :=
    event_generator task_id
      ({| meanwhile := m1; is_disconnected := false; midway := m2 |} :: later) in
  match task_statuses reg3 !! task_id with
  | Some s =>
      if is_terminal s then
        result stream reg =
          Ret (map LogEvent logs ++ closing_events s (task_results reg3 !! task_id), TaskOver) /\
        final stream reg = reg3
      else
        result stream reg =
          match result (event_generator task_id later) reg3 with
          | Ret rest => Ret (map LogEvent logs ++ fst rest, snd rest)
          | Raise e => Raise e
          end /\
        final stream reg = final (event_generator task_id later) reg3
  | None =>
      result stream reg =
        match result (event_generator task_id later) reg3 with
        | Ret rest => Ret (map LogEvent logs ++ fst rest, snd rest)
        | Raise e => Raise e
        end /\
      final stream reg = final (event_generator task_id later) reg3
  end.
Proof.
  intros H1 H2 H3. cbn zeta. cbn [event_generator meanwhile is_disconnected midway].
  unfold result, final.
  rewrite !(bind_run m1 _ reg tt reg1 evs1 H1).
  rewrite !(bind_run (get_task_logs task_id false) _ reg1 logs reg2 evs2 H2).
  rewrite !(bind_run m2 _ reg2 tt reg3 evs3 H3).
  unfold get_task_status, get_task_result. unfold bind, get, ret.
  destruct (task_statuses reg3 !! task_id) as [[]|]; cbn;
    try (destruct (event_generator task_id later reg3) as [[[rest|e] reg4] evs4]; cbn; done).
  - by destruct (task_results reg3 !! task_id).
Qed.

(** One reading of the logs: what is returned, and what is left. *)
Lemma get_task_logs_run task_id clear reg :
  exists reg' evs,
    get_task_logs task_id clear reg = (Ret (waiting task_id reg), reg', evs) /\
    waiting task_id reg' = [] /\
    (forall q, task_queues reg !! task_id = Some q -> task_queues reg' !! task_id = Some []) /\
    task_statuses reg' = task_statuses reg /\
    task_results reg' = task_results reg.
Proof.
  destruct (get_task_logs task_id clear reg) as [[o reg'] evs] eqn:Hrun.
  exists reg', evs.
  assert (o = result (get_task_logs task_id clear) reg) as -> by (unfold result; by rewrite Hrun).
  assert (reg' = final (get_task_logs task_id clear) reg) as -> by (unfold final; by rewrite Hrun).
  destruct (get_task_logs_writes
              (fun reg' => task_statuses reg' = task_statuses reg /\
                           task_results reg' = task_results reg) task_id clear reg)
    as [_ [Hs Hr]]; [by intros rest reg' [? ?] | done |].
  unfold waiting, get_task_logs in *. rewrite result_bind, final_bind in *. cbn in *.
  destruct (task_queues reg !! task_id) as [q|] eqn:Hqueue; cbn.
  - destruct (drain_queue_run task_id q [] reg) as [-> Hleft]. specialize (Hleft Hqueue).
    rewrite Hleft. repeat split; auto.
  - rewrite Hqueue. repeat split; auto. intros; discriminate.
Qed.

(** X20. A client that is connected while the task runs to its end, and
    whose stream reads the registry only after that, receives every entry
    that was waiting, then the completion entry, then the final status, and
    then the stored result when that status is [COMPLETED] and nothing when
    it is [ERROR]; the stream is over, whatever turns were still to come,
    and the queue is empty. *)
Theorem stream_of_a_run (st : Settings) (w : World)
    (task_id username password key : string) (webhook : option string)
    (later : list Poll) (reg : Registry) (q : list LogEntry) :
  task_queues reg !! task_id = Some q ->
  let run := run_scraper_task st w task_id username password key webhook in
  let stream :=
    event_generator task_id
      ({| meanwhile := run; is_disconnected := false; midway := ret tt |} :: later) in
  exists r,
    result (run_dulms_scraper st w username password key webhook) tt = Ret r /\
    result stream reg =
      Ret (map LogEvent q ++
           [LogEvent (completion_entry w r);
            StatusEvent (if success r then TaskStatus.COMPLETED else TaskStatus.ERROR)] ++
           (if success r then [ResultEvent (ScrapeData r)] else []),
           TaskOver) /\
    task_queues (final stream reg) !! task_id = Some [].
Proof.
  intros Hqueue run stream.
  destruct (run_scraper_task_final st w task_id username password key webhook reg q Hqueue)
    as (r & evs & line & Hres & _ & _ & Hrun).
  destruct (run_scraper_task_leaves st w task_id username password key webhook reg q Hqueue)
    as (r' & Hres' & Hq & Hr & Hs).
  assert (r' = r) as -> by congruence.
  cbn zeta in Hrun, Hq, Hr, Hs. unfold final in Hq, Hr, Hs. rewrite Hrun in Hq, Hr, Hs.
  cbn [fst snd] in Hq, Hr, Hs.
  match type of Hrun with _ = (_, ?reg1, _) =>
    destruct (get_task_logs_run task_id false reg1) as (reg2 & evs2 & Hlogs & _ & Hleft & Hs2 & Hr2)
  end.
  exists r. split; [exact Hres|].
  pose proof (event_generator_turn task_id run (ret tt) later reg _ _ _ _ _ reg2 []
                Hrun Hlogs eq_refl) as Hturn.
  cbn zeta in Hturn. rewrite Hs2, Hr2, Hs, Hr in Hturn.
  fold stream in Hturn.
  unfold waiting in Hturn. rewrite Hq in Hturn. cbn [default] in Hturn.
  specialize (Hleft _ Hq).
  unfold completion_status in Hturn.
  destruct (success r); cbn [is_terminal closing_events] in Hturn;
    destruct Hturn as [-> ->];
    (split; [cbn; by rewrite map_app, <- app_assoc | exact Hleft]).
Qed.

Lemma stream_of_a_run_witness :
  task_queues example_registry !! "t1" = Some [example_entry "first"] /\
  let run :=
    run_scraper_task default_settings calm_world "t1" "student" "secret" "key"
      example_webhook in
  let stream :=
    event_generator "t1"
      ({| meanwhile := run; is_disconnected := false; midway := ret tt |} :: [quiet_poll]) in
  exists r,
    result (run_dulms_scraper default_settings calm_world "student" "secret" "key"
              example_webhook) tt = Ret r /\
    result stream example_registry =
      Ret (map LogEvent [example_entry "first"] ++
           [LogEvent (completion_entry calm_world r);
            StatusEvent (if success r then TaskStatus.COMPLETED else TaskStatus.ERROR)] ++
           (if success r then [ResultEvent (ScrapeData r)] else []),
           TaskOver) /\
    task_queues (final stream example_registry) !! "t1" = Some [].
Proof.
  split; [reflexivity|].
  apply (stream_of_a_run default_settings calm_world "t1" "student" "secret" "key"
           example_webhook [quiet_poll] example_registry [example_entry "first"]).
  reflexivity.
Defined.

(** X21. When the task runs to its end after the stream has read the logs
    of a turn and before it reads the status of that turn, the stream
    closes on that turn with the final status, and the result when
    [COMPLETED], but without the completion entry: that entry stays in the
    queue, and the stream, being over, never yields it. *)
Theorem stream_misses_completion_entry (st : Settings) (w : World)
    (task_id username password key : string) (webhook : option string)
    (later : list Poll) (reg : Registry) (q : list LogEntry) :
  task_queues reg !! task_id = Some q ->
  let run := run_scraper_task st w task_id username password key webhook in
  let stream :=
    event_generator task_id
      ({| meanwhile := ret tt; is_disconnected := false; midway := run |} :: later) in
  exists r,
    result (run_dulms_scraper st w username password key webhook) tt = Ret r /\
    result stream reg =
      Ret (map LogEvent q ++
           [StatusEvent (if success r then TaskStatus.COMPLETED else TaskStatus.ERROR)] ++
           (if success r then [ResultEvent (ScrapeData r)] else []),
           TaskOver) /\
    task_queues (final stream reg) !! task_id = Some [completion_entry w r].
Proof.
  intros Hqueue run stream.
  destruct (get_task_logs_run task_id false reg) as (reg2 & evs2 & Hlogs & _ & Hleft & _ & _).
  specialize (Hleft q Hqueue).
  destruct (run_scraper_task_final st w task_id username password key webhook reg2 [] Hleft)
    as (r & evs & line & Hres & _ & _ & Hrun).
  destruct (run_scraper_task_leaves st w task_id username password key webhook reg2 [] Hleft)
    as (r' & Hres' & Hq & Hr & Hs).
  assert (r' = r) as -> by congruence.
  cbn zeta in Hrun, Hq, Hr, Hs. unfold final in Hq, Hr, Hs. rewrite Hrun in Hq, Hr, Hs.
  cbn [fst snd] in Hq, Hr, Hs.
  exists r. split; [exact Hres|].
  pose proof (event_generator_turn task_id (ret tt) run later reg reg [] _ _ _ _ _
                eq_refl Hlogs Hrun) as Hturn.
  cbn zeta in Hturn. rewrite Hs, Hr in Hturn.
  fold stream in Hturn.
  unfold waiting in Hturn. rewrite Hqueue in Hturn. cbn [default] in Hturn.
  unfold completion_status in Hturn.
  destruct (success r); cbn [is_terminal closing_events] in Hturn;
    destruct Hturn as [-> ->]; by split.
Qed.

Lemma stream_misses_completion_entry_witness :
  task_queues example_registry !! "t1" = Some [example_entry "first"] /\
  let run :=
    run_scraper_task default_settings calm_world "t1" "student" "secret" "key"
      example_webhook in
  let stream :=
    event_generator "t1"
      ({| meanwhile := ret tt; is_disconnected := false; midway := run |} :: [quiet_poll]) in
  exists r,
    result (run_dulms_scraper default_settings calm_world "student" "secret" "key"
              example_webhook) tt = Ret r /\
    result stream example_registry =
      Ret (map LogEvent [example_entry "first"] ++
           [StatusEvent (if success r then TaskStatus.COMPLETED else TaskStatus.ERROR)] ++
           (if success r then [ResultEvent (ScrapeData r)] else []),
           TaskOver) /\
    task_queues (final stream example_registry) !! "t1" = Some [completion_entry calm_world r].
Proof.
  split; [reflexivity|].
  apply (stream_misses_completion_entry default_settings calm_world "t1" "student" "secret"
           "key" example_webhook [quiet_poll] example_registry [example_entry "first"]).
  reflexivity.
Defined.

(** Turns on which nothing happens and nothing waits yield nothing. *)
Lemma event_generator_quiet task_id polls reg :
  Forall quiet polls ->
  (forall s, task_statuses reg !! task_id = Some s -> is_terminal s = false) ->
  waiting task_id reg = [] ->
  result (event_generator task_id polls) reg = Ret ([], StillOpen) /\
  task_statuses (final (event_generator task_id polls) reg) = task_statuses reg /\
  task_results (final (event_generator task_id polls) reg) = task_results reg.
Proof.
  intros Hquiet. revert reg.
  induction Hquiet as [|[m1 gone m2] later (Hm1 & Hgone & Hm2) _ IH]; intros reg Hstatus Hwaiting.
  - done.
  - cbn in Hm1, Hgone, Hm2. subst gone.
    destruct (get_task_logs_run task_id false reg) as (reg2 & evs2 & Hlogs & Hnone & _ & Hs & Hr).
    pose proof (event_generator_turn task_id m1 m2 later reg reg [] _ reg2 evs2 reg2 []
                  (Hm1 reg) Hlogs (Hm2 reg2)) as Hturn.
    cbn zeta in Hturn. rewrite Hwaiting, Hs in Hturn.
    destruct (IH reg2) as (Hres & Hs' & Hr'); [by rewrite Hs | done |].
    rewrite Hres in Hturn. cbn [fst snd map app] in Hturn.
    destruct (task_statuses reg !! task_id) as [s|] eqn:Hlookup.
    + rewrite (Hstatus s eq_refl) in Hturn. destruct Hturn as [-> ->].
      by rewrite Hs', Hr', Hs, Hr.
    + destruct Hturn as [-> ->]. by rewrite Hs', Hr', Hs, Hr.
Qed.

(** X22. As long as the status of the task is not final, the client stays
    connected and the rest of the process does nothing, the stream stays
    open, however many turns it takes; the entries that waited in the queue
    are yielded once, on the first turn, and no status or result event is
    ever yielded. *)
Theorem stream_stays_open (task_id : string) (poll : Poll) (later : list Poll)
    (reg : Registry) :
  Forall quiet (poll :: later) ->
  (forall s, task_statuses reg !! task_id = Some s -> is_terminal s = false) ->
  result (event_generator task_id (poll :: later)) reg =
    Ret (map LogEvent (waiting task_id reg), StillOpen).
Proof.
  intros Hquiet Hstatus.
  apply Forall_cons_1 in Hquiet as [(Hm1 & Hgone & Hm2) Hlater].
  destruct poll as [m1 gone m2]. cbn in Hm1, Hgone, Hm2. subst gone.
  destruct (get_task_logs_run task_id false reg) as (reg2 & evs2 & Hlogs & Hnone & _ & Hs & Hr).
  pose proof (event_generator_turn task_id m1 m2 later reg reg [] _ reg2 evs2 reg2 []
                (Hm1 reg) Hlogs (Hm2 reg2)) as Hturn.
  cbn zeta in Hturn. rewrite Hs in Hturn.
  destruct (event_generator_quiet task_id later reg2 Hlater) as (Hres & _); [by rewrite Hs | done |].
  rewrite Hres in Hturn. cbn [fst snd] in Hturn. rewrite app_nil_r in Hturn.
  destruct (task_statuses reg !! task_id) as [s|] eqn:Hlookup.
  - rewrite (Hstatus s eq_refl) in Hturn. by destruct Hturn as [-> _].
  - by destruct Hturn as [-> _].
Qed.

Lemma stream_stays_open_witness :
  Forall quiet (quiet_poll :: [quiet_poll; quiet_poll]) /\
  (forall s, task_statuses example_registry !! "t1" = Some s -> is_terminal s = false) /\
  result (event_generator "t1" (quiet_poll :: [quiet_poll; quiet_poll])) example_registry =
    Ret (map LogEvent (waiting "t1" example_registry), StillOpen).
Proof.
  assert (quiet quiet_poll) as Hquiet by (repeat split; intros s; reflexivity).
  assert (forall s, task_statuses example_registry !! "t1" = Some s -> is_terminal s = false)
    as Hstatus.
  { intros s Hs. vm_compute in Hs. injection Hs as <-. reflexivity. }
  split; [repeat constructor; exact Hquiet|]. split; [exact Hstatus|].
  apply (stream_stays_open "t1" quiet_poll [quiet_poll; quiet_poll] example_registry).
  - repeat constructor; exact Hquiet.
  - exact Hstatus.
Defined.



(** ** Where a run reaches *)

Section Confinement.

Context (st : Settings) (w : World) (key : string) (webhook : option string).

Ltac confine := first [apply all_events_emit | apply all_events_log]; cbn; by auto.

Lemma captcha_loop_confined {L} n attempt :
  all_events (confined st key webhook) (@captcha_loop st w L key n attempt).
Proof.
  revert attempt. induction n as [|n IH]; intros attempt; cbn [captcha_loop].
  - apply all_events_ret.
  - apply all_events_bind.
    + unfold captcha_attempt, get_captcha_image, solve_captcha, safe_find_element.
      trace with confine.
    + intros [ | |b]; [apply IH | apply all_events_ret ..].
Qed.

Lemma login_to_dulms_confined {L} username password :
  all_events (confined st key webhook) (@login_to_dulms st w L username password key).
Proof.
  unfold login_to_dulms, wait_for_element.
  trace with first [apply captcha_loop_confined | confine].
Qed.

Lemma scrape_row_confined k now row :
  all_events (confined st key webhook) (scrape_row w k now row).
Proof. unfold scrape_row, index, safe_find_element. trace with confine. Qed.

Lemma scrape_listing_confined k page :
  kind_url k = ASSIGNMENTS_URL \/ kind_url k = QUIZZES_URL ->
  all_events (confined st key webhook) (scrape_listing w k page).
Proof.
  intros Hkind. unfold scrape_listing, wait_for_element.
  trace with
    first [ apply scrape_row_confined
          | apply all_events_emit; cbn; tauto
          | confine ].
Qed.

Lemma send_discord_webhook_confined {L} content embeds :
  content = ALERT_CONTENT ->
  all_events (confined st key webhook) (@send_discord_webhook w L webhook content embeds).
Proof.
  intros ->. unfold send_discord_webhook.
  trace with first [apply all_events_try_except_request; [|intros ?] | confine].
Qed.

Lemma notify_upcoming_confined :
  all_events (confined st key webhook) (notify_upcoming st w webhook).
Proof.
  unfold notify_upcoming, format_discord_embeds_for_assignments,
    format_discord_embeds_for_quizzes.
  trace with
    first [ by apply send_discord_webhook_confined
          | eapply all_events_impl; [|apply format_discord_embeds_silent]; intros ? [] ].
Qed.

Lemma run_dulms_scraper_confined {L} username password :
  all_events (confined st key webhook) (@run_dulms_scraper st w L username password key webhook).
Proof.
  unfold run_dulms_scraper, run_dulms_scraper_try, run_dulms_scraper_session,
    scrape_assignments, scrape_quizzes.
  trace with
    first [ eapply all_events_impl; [|apply initialize_driver_opening]; by intros []
          | apply login_to_dulms_confined
          | apply scrape_listing_confined; cbn; by auto
          | apply notify_upcoming_confined
          | eapply all_events_impl; [|apply run_dulms_scraper_finally_quitting]; by intros []
          | eapply all_events_impl; [|apply run_dulms_scraper_except_log];
            by intros ? (? & ? & ->) ].
Qed.

End Confinement.

(** X24. Whatever the portal, the solving service and Discord answer, a run
    opens no page but the login page, the assignments page and the quizzes
    page, gives the solving service no key but the one it was called with,
    posts to no address but the webhook it was called with, with no text
    but the alert, and announces every CAPTCHA attempt against the
    configured limit; it writes nothing to the registry. A run that was
    given no webhook therefore posts nowhere. *)
Theorem run_dulms_scraper_reaches (st : Settings) (w : World)
    (username password key : string) (webhook : option string) :
  Forall (confined st key webhook)
    (events (run_dulms_scraper st w username password key webhook) tt).
Proof. apply run_dulms_scraper_confined. Qed.
